(* ===== verification/_CoqProject ===== *)
-Q . S2P
Prelude.v
PyStr.v
Prompt.v
World.v
Utf8.v
Session.v
Script.v
ImageClient.v
Base64.v
Timestamp.v
Texts.v
Download.v
Browser.v
Main.v
Controller.v
View.v
Reachable.v
Interrupt.v
Frontend.v
Sessions.v
Race.v
Codec.v
Delivery.v
Machine.v
Scenarios.v
