(* ===== verification/Prelude.v ===== *)
(** * Mandala Art Generator: a verification development

    The program ([src/MandalaArt.py]) is a single Streamlit script.  Every
    user interaction re-executes the script from its first line: it draws
    the page, reads two text fields (an OpenAI API key and an "inspiration
    word"), and, when the button reports a click and both fields are
    non-blank, asks DALL-E 3 for an image, downloads it, decodes it,
    stores it in [st.session_state] and asks Streamlit to run the script
    again, which then shows the stored image with a download link.

    ** Files, in dependency order

    - [Prelude]     (this file) list machinery shared by all components:
                    [drop_while] / [drop_while_end] (the two scans of a
                    strip), [take_while], the contiguous-substring
                    relation [substr] with its decision procedure, the
                    tactics and the hint database [py].
    - [PyStr]       Python [str] as a list of Unicode code points:
                    [isspace], [lstrip], [rstrip], [strip], truthiness,
                    the value-returning [and] of line 151, [not],
                    literals, and decimal formatting of integers inside
                    f-strings.  [strip_spec] characterises [strip];
                    [strip_do_strip] shows it equal to the slice between
                    the two indices of CPython's [do_strip].
    - [Prompt]      [generate_mandala_prompt] (lines 66-81): the
                    template, character by character.  The prompt
                    contains the word and the style markers, has length
                    [2 * length w + 675], is injective in the word.
    - [World]       the values the libraries exchange with the script
                    (exceptions, the response of [images.generate], an
                    HTTP response, a decoded image) and the interfaces
                    [OpenAIApi], [RequestsApi], [PillowApi],
                    [StreamlitApi]: each library call is an operation
                    that returns a value or raises.  [response.data[0]]
                    and [raise_for_status] are modelled in full.
    - [Utf8]        [bytes.decode()] (line 120): the strict UTF-8
                    decoder; it is the identity on ASCII bytes and
                    yields only Unicode scalar values.
    - [Session]     [st.session_state]: a record of three optional
                    attributes, the three assignments of lines 159-161
                    (as functions and, in [assignment], as values a
                    trace can record), the invariant [coherent], and
                    the abstraction [held] to the specification's
                    holder of at most one [GenerationResult].
    - [Script]      what a run of the script is: a function from the
                    session state to an outcome ([Done], [Raised],
                    [Rerun]), a new session state and the trace of what
                    was drawn, which library calls were made and what
                    was assigned; the operations [bind], [draw],
                    [call], [assign], [try_except], [with_], [rerun]
                    and their laws; the equivalence [same_view] of runs
                    that look the same to the user, which the
                    operations respect ([Proper] instances); where a
                    run can be stopped ([cuts]), the state it then
                    leaves ([replay]), and the scripts that assign
                    nothing, before they draw, or in one step ([quiet],
                    [committed], [atomic]) with their laws.
    - [ImageClient] [create_openai_client] and [generate_mandala_image]
                    (lines 57-64 and 83-114), the contract [generate] of
                    the specification, and the refinement theorem
                    [generate_mandala_image_refines] with its
                    corollaries (totality, the shape of the returned
                    pair, one error box per failure, order and number of
                    library calls, which call the spinner covers, which
                    statuses count as a failed download).
    - [Base64]      [base64.b64encode] (line 120), the bit-stream
                    description of RFC 4648 as its reference
                    ([b64encode_rfc]) and the decoder of the same RFC:
                    equivalence with the reference, length, alphabet,
                    round trip; the [.decode()] of the encoded text
                    never raises.
    - [Timestamp]   [datetime.now().strftime("%Y%m%d_%H%M%S")] (line
                    206) and the interface [ClockApi]: shape and
                    injectivity of the time stamp.
    - [Texts]       every literal text of the page (titles, labels, help
                    texts, the style sheet), each named after its role
                    and keyed to its source line.
    - [Download]    [get_image_download_link] (lines 116-122) and the
                    file name of line 207.
    - [Browser]     what a browser makes of the link: the tokenizer of
                    a start tag ([tag_step], [scan], [start_tag],
                    [attribute]), the processing of a [data:] URL
                    ([percent_decode], [data_url]) and what activating
                    the anchor saves ([save_link]).
    - [Main]        [main()] (lines 124-272) and the top level (lines
                    10-55, 274-275): [top_level], [left_column], the
                    handler [on_generate], [right_column], [footer],
                    [page]; [interaction] runs the script as often as
                    [st.rerun()] asks.
    - [Controller]  the contract of a run as pure functions
                    ([next_session], [next_ended]) and the theorems
                    that [page] implements it: the gate, the failure
                    and success paths, the shape of what is drawn, what
                    the key can influence (by congruence for
                    [same_view]), termination of a user action.
    - [View]        [page_view], a reference description of the page as
                    lists of elements, and the proof that the script is
                    equivalent to the run [page_reference] that draws
                    exactly that; the widgets, the error boxes and the
                    success boxes of a page.
    - [Reachable]   the session states user actions can produce, as the
                    reflexive-transitive closure of [user_action]; the
                    invariant holds in all of them, so line 196's
                    unguarded read never fails.
    - [Interrupt]   runs that a gesture stops before their end: the
                    three assignments are one step for every such stop,
                    stopped runs reach no new session state, and a run
                    stopped where the spinner is left has generated an
                    image it never fetches.
    - [Frontend]    the browser session as a transition system: the
                    values of the two widgets, [st.session_state] and
                    the page last drawn; the gestures [Open],
                    [Type_key], [Type_word], [Again], [Press] and the
                    runs [react] starts for each; its invariant (which says
                    that the success message of line 162 is never on
                    the page the user is left with), that typing is
                    silent, that every press is submitted and answered,
                    that an image can always be obtained.
    - [Sessions]    several browser sessions on one server, as a finite
                    map of browsers: a gesture changes one session, and
                    the reachable servers are exactly the families of
                    browsers a user alone can bring about.
    - [Race]        gestures that do not wait for the page: a gesture
                    stops the runs of the one before, the widgets the
                    stopped runs have not redrawn stay on the screen.
                    The session state stays sound; the button can be
                    pressed with a blank field, or twice for one
                    result.
    - [Codec]       the promises the specification makes of the image
                    codec, as the class [PillowLawful]; with a lawful
                    codec no run raises, and the download link leads
                    back to an image of the stored dimensions.
    - [Delivery]    the components together: the texts a page hands to
                    the HTML parser ([html_texts]) and the files they
                    offer ([downloads]); every file a page offers is
                    the stored image, and the user who types a key and
                    a word and presses the button is offered exactly
                    one file, the PNG of the image the service made.
    - [Machine]     the state machine of section 4.5 of the
                    specification as a labelled step relation, its
                    invariant by induction on steps, and the simulation
                    of the script by the machine: for one run, for
                    every sequence of user actions, and for the front
                    end with what the page shows of the phase.
    - [Scenarios]   concrete libraries, the three scenarios of the
                    specification evaluated on them, and every theorem
                    that has hypotheses applied at a concrete input.

    ** Modelling conventions

    - A Python [str] is [list N] (code points), [bytes] is [list N] with
      every element below 256.  Nothing is truncated to ASCII: [isspace]
      is the full table of CPython's [str.isspace].
    - Calls into libraries (openai, requests, PIL, datetime) are the
      operations of type classes; an instance fixes one answer per
      argument for the duration of a run.  A call returns a value or
      raises: the script sets no timeout (line 104), and a call that
      never comes back is a run that never ends, of which the theorems
      say nothing.  The calls that draw ([st.markdown], [st.image] and
      the like) always return: that [st.image] encodes the image it is
      given, and can raise as [image.save] does one line of the page
      earlier than line 119, is not modelled.  The theorems quantify over
      every instance, and [user_action] and [browser_step] let every
      action choose its own, so nothing is assumed about the service,
      the network or the codec.  Only [Codec] assumes more: the laws of
      [PillowLawful] and libraries that stay the same ([served]).
    - A run is a value of [script A := SessionState -> run A].  The
      trace records, in program order, every element drawn (with all
      its texts), every library call (with its arguments) and every
      assignment to [st.session_state].  [st.rerun()] ends a run with
      the outcome [Rerun], which the handler of [except Exception] does
      not catch.
    - Streamlit stops a running script when the user changes a widget,
      at the script's next call that sends something to the browser.
      [cuts] takes every element of the trace as such a call, entering
      and leaving a [with] block included.  The spinner sends a
      message at both ends; leaving a column or an expander sends
      none, so [cuts] lists more stops than Streamlit has, and the
      atomicity theorem is the stronger for it.
    - Builtins whose behaviour the script depends on ([str.strip],
      [and], f-string interpolation, [base64.b64encode],
      [bytes.decode], [strftime], [raise_for_status]) are modelled in
      full and mapped to the line that calls them.
    - What the front end hands to a run is [Inputs]: the contents of
      the two fields and the value the button returns.  The theorems
      of [Controller], [View], [Reachable] and [Machine] about a run
      hold for every input, which is why the second test of line 154
      matters.  [Frontend] models where the inputs come from, after
      Streamlit's documented behaviour: a gesture needs its widget on
      the page, the word field takes at most [max_chars] UTF-16 code
      units (hence at most as many characters for Python),
      and a button drawn disabled cannot be pressed; that the inputs
      then satisfy [from_front_end] is a theorem
      ([press_is_submitted]).  The gestures of [Frontend] happen
      between runs; [Interrupt] treats the runs a gesture stops, on the
      side of the session state, and [Race] the browser such gestures
      leave.  The screen of a browser of [Race] is an upper bound of
      what the user can see: the old page together with what the
      stopped runs drew.  A press is delivered to the run it starts
      whether or not that run draws the button enabled, since Streamlit
      identifies a button by its label and not by its state.
    - How a browser reads the download link is modelled after the HTML
      standard (newline normalisation and the tokenizer of a start
      tag, state by state; a text that ends inside a tag gives no
      element; the first attribute of a name wins; the table of
      character references is the parameter [CharacterReferences], of
      which [ReferencesLawful] assumes that a reference is not longer
      than its text and that its text holds no double quote), RFC 2397
      and the Fetch standard (the [data:] URL: fragment, media type,
      base64 flag in any case, percent-decoding) and RFC 4648 (the
      decoder, in its strict form: the forgiving decoder of browsers
      agrees with it on every text the strict one accepts).

    ** Bounds and fuel

    [interaction] takes the number of runs it may start.  A run that
    follows [st.rerun()] sees the button released, cannot be submitted,
    hence cannot rerun: [interaction_terminates] shows fuel 2 is enough
    for every input, state and instance, and that more fuel gives the
    same runs; [refresh] of [Frontend] therefore calls it with fuel 2
    and never fails ([refresh_eq]).  No other definition uses fuel.
    Integers are unbounded ([N]) as Python's are; the byte and six-bit
    ranges of the base64 encoder are hypotheses of its lemmas where
    they matter.  [dalle3_prompt_limit] is the 4000 characters the
    images endpoint accepts for dall-e-3: a fact about the service, not
    about the script.

    ** What the theorems show

    - Refinement: [generate_mandala_image] implements [generate];
      [page] implements [next_session] / [next_ended].
    - Equivalence: the script draws the reference view
      ([page_draws_view]); the encoder computes the RFC's description
      ([b64encode_rfc_equiv]); [strip] is CPython's slice
      ([strip_do_strip]).
    - Invariant: [coherent] is preserved by every run and holds in
      every reachable state ([reachable_held]); the front end keeps the
      word within its limit and the button in step with the fields
      ([browser_invariant]).
    - Atomicity: the three assignments of the handler are one step
      wherever a run is stopped ([page_assigns_atomically]), so the
      session states reachable with stopped runs are the reachable
      ones ([reachable_stopped_iff]); but a gesture can cancel a
      request between generation and download.
    - Races: gestures that do not wait for the page keep the session
      state sound ([racy_invariant]); they can press the button with a
      blank field, which the test of line 154 then stops
      ([stale_press]), and press it twice for one result
      ([double_submit]).
    - Independence: what can happen in one session does not depend
      on the others ([sessions_independent]).
    - Simulation: every run, every reachable session state and every
      browser state is matched by the specification's machine
      ([page_simulates], [reachable_simulated], [browser_simulated]).
    - Safety: no network call without a click and two non-blank fields,
      none while typing; exactly the calls of one request otherwise; a
      failure changes nothing in the session and draws one error box;
      the only exception that can end a run comes from [image.save],
      and none does with a lawful codec ([page_never_raises]); when it
      does, it ends every run of the session until a press obtains a
      new image ([save_failure_persists]); the key
      is neither stored nor drawn ([page_key_confined]); on every path
      the page configuration comes first, the [with] blocks are
      properly nested and the widgets are distinct.
    - Liveness: every press is answered by the image or by an error box
      ([press_is_answered]); from every state of the open page a user
      whose key the service accepts can obtain an image
      ([image_obtainable]).
    - Display and download: in a reachable state that holds an image
      the page shows that image, its download link and the prompt that
      was sent for it ([page_displays_held]); activating the link
      saves, as [image/png], bytes that open as an image of the same
      dimensions; the file is offered under the name the script built
      when the stored word is written with plain characters, and never
      when it holds a double quote ([download_round_trip]).  Every file
      a page offers is the stored image ([page_offers_stored]); the
      section of the page that is meant to frame the download is empty
      ([download_section_elements]).
    - End to end: typing a key and a word and pressing the button
      leads, when the service answers, to a page that offers exactly
      one file, a PNG named after the trimmed word that opens as an
      image of the dimensions the service produced
      ([image_downloadable]).
    - Texts and bytes: [strip_spec], the prompt theorems, the base64
      round trip, UTF-8 decoding, the shape of the time stamp.

    ** Not modelled

    Image synthesis and the HTTP transport are behind the interfaces.
    The PNG codec is behind [PillowApi]; its compression is not
    modelled, only the promises of [PillowLawful], and neither is the
    encoding [st.image] does of its own to send the image to the
    browser.  Of Streamlit, what
    the script uses is modelled (runs, reruns, widget values, session
    state, the gestures of the front end, the stopping of a run); its
    rendering and its transport are not.  The page as it looks while a
    run is in progress is not modelled element by element: [Race]
    bounds it from above, which is enough for what holds of every
    browser and says nothing of what the user is sure to see.  Of the
    browser, the reading of the anchor's attributes, the processing of
    the [data:] URL and the file that is saved are modelled; the
    names of the character references (a parameter), the sanitising of
    the file name, and rendering of HTML, CSS and Markdown are not:
    the page's texts are carried verbatim in the trace. *)

From stdpp Require Import base tactics list.
From Stdlib Require Import Lia.


(** ** Hint database and tactics *)

Create HintDb py discriminated.
Create Rewrite HintDb py_simpl.

(** [py_simpl]: normalise with the rewrite rules the components export. *)
Ltac py_simpl := autorewrite with py_simpl in *.

(** [bool_cases]: split on every boolean test of the goal, remembering
    the outcome. *)
Ltac bool_cases :=
  repeat match goal with
         | |- context [if ?b then _ else _] =>
             let E := fresh "E" in destruct b eqn:E
         end.

(** [find_elem]: the element is one of those listed. *)
Ltac find_elem :=
  solve [repeat first [ apply list_elem_of_here | apply list_elem_of_further ]].

(** [miss_elem]: the element is none of those listed. *)
Ltac miss_elem :=
  let Hin := fresh "Hin" in
  intros Hin;
  repeat (apply elem_of_cons in Hin as [Hin|Hin]; [discriminate Hin|]);
  by apply elem_of_nil in Hin.

(** [same_answer]: two case analyses of one call have one answer. *)
Ltac same_answer :=
  repeat match goal with
         | H1 : ?t = _, H2 : ?t = _ |- _ => rewrite H1 in H2
         end;
  simplify_eq.

(** ** Scanning a list from either end *)

Section Scan.
Context {A : Type}.
Implicit Types (p : A -> bool) (l k : list A) (x : A).

(** Advance over the longest prefix every element of which satisfies
    [p]; what [lstrip] does with [p := isspace]. *)
Fixpoint drop_while p l : list A :=
  match l with
  | [] => []
  | x :: l' => if p x then drop_while p l' else l
  end.

(** The prefix that [drop_while] skips. *)
Fixpoint take_while p l : list A :=
  match l with
  | [] => []
  | x :: l' => if p x then x :: take_while p l' else []
  end.

(** The same scan from the right end. *)
Definition drop_while_end p l : list A :=
  reverse (drop_while p (reverse l)).

(** [l] occurs in [k] as a contiguous block. *)
Definition substr l k : Prop := exists a b, k = a ++ l ++ b.

(** Boolean tests for "is a prefix of" and "occurs in". *)
Context `{EqDecision A}.

Fixpoint is_prefix l k : bool :=
  match l, k with
  | [], _ => true
  | x :: l', y :: k' => bool_decide (x = y) && is_prefix l' k'
  | _ :: _, [] => false
  end.

Fixpoint is_substr l k : bool :=
  is_prefix l k ||
  match k with
  | [] => false
  | _ :: k' => is_substr l k'
  end.

Lemma drop_while_suffix p l : drop_while p l `suffix_of` l.
Proof.
  induction l as [|x l IH]; simpl; [done|].
  destruct (p x); [by apply suffix_cons_r | done].
Qed.

Lemma take_drop_while p l : take_while p l ++ drop_while p l = l.
Proof.
  induction l as [|x l IH]; simpl; [done|].
  destruct (p x); simpl; by rewrite ?IH.
Qed.

Lemma take_while_all p l : forallb p (take_while p l) = true.
Proof.
  induction l as [|x l IH]; simpl; [done|].
  destruct (p x) eqn:E; simpl; by rewrite ?E, ?IH.
Qed.

(** The scan takes a block of elements satisfying [p] whole when the
    next element fails [p]. *)
Lemma take_while_app_stop p l x k :
  forallb p l = true -> p x = false -> take_while p (l ++ x :: k) = l.
Proof.
  intros Hl Hx. induction l as [|y l IH]; simpl in *; [by rewrite Hx|].
  apply andb_true_iff in Hl as [-> Hl]. by rewrite IH.
Qed.

(** It stops inside the block at the first element that fails [p]. *)
Lemma take_while_prefix p l : take_while p l `prefix_of` l.
Proof. exists (drop_while p l). by rewrite take_drop_while. Qed.

Lemma take_while_app_short p l k :
  forallb p l = false -> take_while p (l ++ k) = take_while p l.
Proof.
  induction l as [|y l IH]; simpl; [done|].
  destruct (p y); simpl; [|done]. by intros ->%IH.
Qed.

Lemma drop_while_length p l : length (drop_while p l) <= length l.
Proof. apply suffix_length, drop_while_suffix. Qed.

(** The scan stops at an element that fails [p]. *)
Lemma drop_while_head p l x : head (drop_while p l) = Some x -> p x = false.
Proof.
  induction l as [|y l IH]; simpl; [done|].
  destruct (p y) eqn:E; [done|]. simpl. by intros [= <-].
Qed.

Lemma drop_while_id p l x : head l = Some x -> p x = false -> drop_while p l = l.
Proof. destruct l as [|y l]; simpl; [done|]. by intros [= ->] ->. Qed.

Lemma drop_while_nil p l : drop_while p l = [] <-> forallb p l = true.
Proof.
  induction l as [|x l IH]; simpl; [done|].
  destruct (p x); simpl; [done|]. split; discriminate.
Qed.

Lemma drop_while_idemp p l : drop_while p (drop_while p l) = drop_while p l.
Proof.
  destruct (drop_while p l) as [|x k] eqn:E; [done|].
  rewrite <- E at 2. rewrite <- E. rewrite E.
  apply (drop_while_id p (x :: k) x); [done|].
  apply (drop_while_head p l). by rewrite E.
Qed.

(** Elements that fail [p] are never dropped. *)
Lemma drop_while_app_stop p l k x :
  p x = false -> drop_while p (l ++ x :: k) = drop_while p l ++ x :: k \/
                 drop_while p l = [].
Proof.
  intros Hx. induction l as [|y l IH]; simpl; [by right|].
  destruct (p y); [done | by left].
Qed.

Lemma drop_while_all p l k :
  forallb p l = true -> drop_while p (l ++ k) = drop_while p k.
Proof.
  induction l as [|y l IH]; simpl; [done|].
  destruct (p y); simpl; [done | discriminate].
Qed.

Lemma drop_while_app_keep p l k :
  drop_while p l <> [] -> drop_while p (l ++ k) = drop_while p l ++ k.
Proof.
  induction l as [|y l IH]; simpl; [done|].
  destruct (p y); [done | by intros _].
Qed.

Lemma take_while_id p l : forallb p l = true -> take_while p l = l.
Proof.
  induction l as [|x l IH]; [done|]. simpl. intros [-> Hl]%andb_true_iff.
  by rewrite IH.
Qed.

Lemma forallb_weaken p q l :
  (forall x, p x = true -> q x = true) ->
  forallb p l = true -> forallb q l = true.
Proof.
  intros Hpq. induction l as [|x l IH]; [done|]. simpl.
  intros [Hx Hl]%andb_true_iff. by rewrite (Hpq x Hx), IH.
Qed.

Lemma filter_all p l : forallb p l = true -> List.filter p l = l.
Proof.
  induction l as [|x l IH]; [done|]. simpl. intros [-> Hl]%andb_true_iff.
  by rewrite IH.
Qed.

(** A scan for [p] removes nothing from a list no element of which
    satisfies [p]. *)
(** A prefix that misses [x] ends before the first [x]. *)
Lemma take_not_elem (x : A) j t k :
  x ∉ take j (t ++ x :: k) -> (j <= length t)%nat.
Proof.
  intros Hx. destruct (decide (j <= length t)%nat) as [|Hj]; [done|].
  exfalso. apply Hx, list_elem_of_lookup. exists (length t).
  rewrite lookup_take_lt by lia. by rewrite list_lookup_middle.
Qed.

Lemma drop_while_none p l :
  forallb (fun x => negb (p x)) l = true -> drop_while p l = l.
Proof. destruct l as [|x l]; [done|]. simpl. by intros [->%negb_true_iff _]%andb_true_iff. Qed.

Lemma forallb_reverse p l : forallb p (reverse l) = forallb p l.
Proof.
  induction l as [|x l IH]; [done|].
  rewrite reverse_cons, forallb_app, IH. simpl. by destruct (p x), (forallb p l).
Qed.

Lemma drop_while_end_prefix p l : drop_while_end p l `prefix_of` l.
Proof.
  unfold drop_while_end.
  destruct (drop_while_suffix p (reverse l)) as [k Hk].
  exists (reverse k). apply (f_equal reverse) in Hk.
  by rewrite reverse_involutive, reverse_app in Hk.
Qed.

(** What the right-hand scan removes satisfies [p] throughout. *)
Lemma drop_while_end_split p l :
  exists b, l = drop_while_end p l ++ b /\ forallb p b = true.
Proof.
  exists (reverse (take_while p (reverse l))). split.
  - unfold drop_while_end. rewrite <- reverse_app, take_drop_while.
    by rewrite reverse_involutive.
  - by rewrite forallb_reverse, take_while_all.
Qed.

Lemma drop_while_end_length p l : length (drop_while_end p l) <= length l.
Proof. apply prefix_length, drop_while_end_prefix. Qed.

Lemma drop_while_end_last p l x :
  last (drop_while_end p l) = Some x -> p x = false.
Proof.
  unfold drop_while_end. rewrite last_reverse. apply drop_while_head.
Qed.

Lemma drop_while_end_none p l :
  forallb (fun x => negb (p x)) l = true -> drop_while_end p l = l.
Proof.
  intros Hl. unfold drop_while_end.
  by rewrite drop_while_none, reverse_involutive by by rewrite forallb_reverse.
Qed.

Lemma drop_while_end_nil p l : drop_while_end p l = [] <-> forallb p l = true.
Proof.
  unfold drop_while_end. rewrite <- (forallb_reverse p l), <- drop_while_nil.
  split; [|by intros ->].
  intros H. apply (f_equal reverse) in H. by rewrite reverse_involutive in H.
Qed.

Lemma drop_while_end_idemp p l :
  drop_while_end p (drop_while_end p l) = drop_while_end p l.
Proof.
  unfold drop_while_end. by rewrite reverse_involutive, drop_while_idemp.
Qed.

(** Scanning from the right does not disturb a first element that
    fails [p]. *)
Lemma drop_while_end_cons p x l :
  p x = false -> exists k, drop_while_end p (x :: l) = x :: k.
Proof.
  intros Hx. unfold drop_while_end. rewrite reverse_cons.
  destruct (drop_while_app_stop p (reverse l) [] x Hx) as [-> | E].
  - rewrite reverse_app. simpl. eauto.
  - rewrite (drop_while_all p (reverse l) [x]) by by apply drop_while_nil.
    simpl. rewrite Hx. simpl. eauto.
Qed.

(** The right-hand scan, one element at a time from the left. *)
Lemma drop_while_end_cons_eq p x l :
  drop_while_end p (x :: l) =
  match drop_while_end p l with
  | [] => if p x then [] else [x]
  | _ :: _ => x :: drop_while_end p l
  end.
Proof.
  unfold drop_while_end. rewrite reverse_cons.
  destruct (drop_while p (reverse l)) as [|y k] eqn:E.
  - rewrite drop_while_all by by apply drop_while_nil.
    simpl. by destruct (p x).
  - rewrite drop_while_app_keep by by rewrite E.
    rewrite E, reverse_app. simpl.
    destruct (reverse (y :: k)) eqn:Er; [|done].
    apply (f_equal reverse) in Er. by rewrite reverse_involutive in Er.
Qed.

(** Whatever satisfies [p] throughout in front of [l] stays, unless the
    scan removes all of [l]. *)
Lemma drop_while_end_app p a l :
  forallb p a = true ->
  drop_while_end p (a ++ l) =
  match drop_while_end p l with
  | [] => []
  | _ :: _ => a ++ drop_while_end p l
  end.
Proof.
  intros Ha. induction a as [|x a IH].
  - change ([] ++ l) with l. destruct (drop_while_end p l); reflexivity.
  - simpl in Ha. apply andb_true_iff in Ha as [Hx Ha].
    change ((x :: a) ++ l) with (x :: a ++ l).
    rewrite drop_while_end_cons_eq, IH, Hx by done.
    destruct (drop_while_end p l); [reflexivity|]. by destruct a.
Qed.

(** The scans as slices. *)
Lemma drop_while_drop p l : drop_while p l = drop (length (take_while p l)) l.
Proof.
  induction l as [|x l IH]; simpl; [done|]. by destruct (p x).
Qed.

Lemma drop_while_end_take p l :
  drop_while_end p l = take (length (drop_while_end p l)) l.
Proof.
  destruct (drop_while_end_prefix p l) as [k Hk].
  rewrite Hk at 3. by rewrite take_app_length.
Qed.

(** *** Contiguous substrings *)

Lemma substr_refl l : substr l l.
Proof. exists [], []. by rewrite app_nil_r. Qed.

Lemma substr_app_l l k a : substr l k -> substr l (a ++ k).
Proof. intros (a' & b & ->). exists (a ++ a'), b. by rewrite <- app_assoc. Qed.

Lemma substr_app_r l k b : substr l k -> substr l (k ++ b).
Proof.
  intros (a & b' & ->). exists a, (b' ++ b). by rewrite <- !app_assoc.
Qed.

Lemma substr_trans l k m : substr l k -> substr k m -> substr l m.
Proof.
  intros (a & b & ->) (a' & b' & ->). exists (a' ++ a), (b ++ b').
  by rewrite <- !app_assoc.
Qed.

Lemma substr_prefix l k : l `prefix_of` k -> substr l k.
Proof. intros [b ->]. by exists [], b. Qed.

Lemma substr_suffix l k : l `suffix_of` k -> substr l k.
Proof. intros [a ->]. exists a, []. by rewrite app_nil_r. Qed.

Lemma substr_length l k : substr l k -> length l <= length k.
Proof. intros (a & b & ->). rewrite !length_app. lia. Qed.

Lemma substr_elem l k x : substr l k -> x ∈ l -> x ∈ k.
Proof. intros (a & b & ->) ?. rewrite !elem_of_app. auto. Qed.
(** *** Deciding [substr] *)

Lemma is_prefix_spec l k : is_prefix l k = true <-> l `prefix_of` k.
Proof.
  revert k. induction l as [|x l IH]; intros [|y k]; simpl.
  - split; [intros _; apply prefix_nil | done].
  - split; [intros _; apply prefix_nil | done].
  - split; [done | intros H%prefix_nil_inv; done].
  - rewrite andb_true_iff, bool_decide_eq_true, IH. split.
    + intros [-> H]. by apply prefix_cons.
    + intros H. split; [by apply prefix_cons_inv_1 in H
                       | by apply prefix_cons_inv_2 in H].
Qed.

Lemma is_substr_spec l k : is_substr l k = true <-> substr l k.
Proof.
  induction k as [|y k IH]; simpl;
    rewrite orb_true_iff, is_prefix_spec; [|rewrite IH]; split.
  - intros [H|?]; [by apply substr_prefix | done].
  - intros ([|] & b & H); [left; by exists b|by destruct l].
  - intros [H|H]; [by apply substr_prefix | by apply (substr_app_l _ _ [y])].
  - intros ([|z a] & b & H); [left; by exists b|right].
    injection H as -> ->. by exists a, b.
Qed.
End Scan.

(** ** Checking a decidable property of every number below a bound *)

Lemma forallb_below (P : nat -> bool) (k : nat) :
  forallb P (seq 0 k) = true -> forall n, n < k -> P n = true.
Proof. intros H n Hn. rewrite forallb_forall in H. apply H, in_seq. lia. Qed.

#[export] Hint Resolve substr_refl substr_app_l substr_app_r
  substr_prefix substr_suffix : py.
#[export] Hint Resolve drop_while_suffix drop_while_end_prefix : py.
