(* ===== verification/PyStr.v ===== *)
(** * PyStr: the Python string operations the script relies on

    A [str] is the list of its Unicode code points.  The script calls
    [str.strip()] (lines 151, 156, 161, 166), tests strings for
    truthiness ([and], [not], [if]; lines 151-166) and interpolates
    strings and integers into f-strings.  This file gives those builtins
    their CPython meaning and proves the facts the other components use:
    [strip] is characterised completely by [strip_spec] and equal to the
    index-based [do_strip] of CPython ([strip_do_strip]), and the
    value-returning [and] of line 151 is characterised by
    [py_and_truthy]. *)

From stdpp Require Import base tactics list numbers strings.
From Stdlib Require Import Lia ZifyBool ZifyN.
From Stdlib Require DecimalPos DecimalN DecimalFacts.
From S2P Require Import Prelude.


Declare Scope py_scope.
Delimit Scope py_scope with py.
Local Open Scope N_scope.

(** ** Data *)

(** A Python [str]: a sequence of code points. *)
Abbreviation str := (list N) (only parsing).

(** A Python [bytes] object: a sequence of integers below 256. *)
Abbreviation bytes := (list N) (only parsing).

Definition is_bytes (b : bytes) : Prop := Forall (fun x => x < 256) b.

(** A source-code literal, for the ASCII part of the script's text. *)
Definition lit (s : string) : str := Ascii.N_of_ascii <$> String.list_ascii_of_string s.
Arguments lit : simpl never.

(** ** [str.isspace] for one code point

    CPython's table ([_PyUnicode_IsWhitespace]): the code points of
    bidirectional class WS, B or S, and of category Zs. *)
Definition isspace (c : N) : bool :=
  (9 <=? c) && (c <=? 13)            (* \t \n \v \f \r *)
  || (28 <=? c) && (c <=? 32)        (* FS GS RS US and the space *)
  || (c =? 0x85) || (c =? 0xA0)      (* NEL, no-break space *)
  || (c =? 0x1680)
  || (0x2000 <=? c) && (c <=? 0x200A)
  || (c =? 0x2028) || (c =? 0x2029) || (c =? 0x202F)
  || (c =? 0x205F) || (c =? 0x3000).

(** ** [str.lstrip()], [str.rstrip()], [str.strip()] with no argument

    CPython's [do_strip] advances an index from the left while the
    character is whitespace, retreats one from the right likewise, and
    returns the slice between them. *)
Definition lstrip (s : str) : str := drop_while isspace s.
Definition rstrip (s : str) : str := drop_while_end isspace s.
Definition strip (s : str) : str := rstrip (lstrip s).

(** The same, with indices as [do_strip] has them: [left_index] is
    the index of the first character that is not whitespace,
    [right_index] the index after the last one (zero when there is
    none), and the result is the slice between the two, empty when they
    cross. *)
Fixpoint left_index (s : str) : nat :=
  match s with
  | c :: s' => if isspace c then S (left_index s') else O
  | [] => O
  end.

Fixpoint right_index (s : str) : nat :=
  match s with
  | [] => O
  | c :: s' =>
      match right_index s' with
      | O => if isspace c then O else 1%nat
      | S j => S (S j)
      end
  end.

Definition do_strip (s : str) : str :=
  take (right_index s - left_index s) (drop (left_index s) s).

(** ** Truth value of a string: [bool(s)] is [len(s) != 0] *)
Definition truthy (s : str) : bool :=
  match s with [] => false | _ :: _ => true end.

(** [a and b] returns [a] when [a] is falsy and [b] otherwise: the
    result is a string, not a boolean (line 151). *)
Definition py_and (a b : str) : str := if truthy a then b else a.

(** [not s] *)
Definition py_not (s : str) : bool := negb (truthy s).

(** ** [str(n)] and [{n}] inside an f-string, for a non-negative int *)
Fixpoint uint_digits (d : Decimal.uint) : str :=
  match d with
  | Decimal.Nil => []
  | Decimal.D0 d => 48 :: uint_digits d
  | Decimal.D1 d => 49 :: uint_digits d
  | Decimal.D2 d => 50 :: uint_digits d
  | Decimal.D3 d => 51 :: uint_digits d
  | Decimal.D4 d => 52 :: uint_digits d
  | Decimal.D5 d => 53 :: uint_digits d
  | Decimal.D6 d => 54 :: uint_digits d
  | Decimal.D7 d => 55 :: uint_digits d
  | Decimal.D8 d => 56 :: uint_digits d
  | Decimal.D9 d => 57 :: uint_digits d
  end.

Definition str_of_N (n : N) : str := uint_digits (N.to_uint n).

(** [int(s)] for a string of decimal digits, most significant first. *)
Definition digits_value (s : str) : N :=
  foldl (fun acc c => 10 * acc + (c - 48)) 0 s.

(** A string every character of which is whitespace (the empty string
    included): what the spec calls "empty or whitespace-only". *)
Definition blank (s : str) : bool := forallb isspace s.

(** Neither the first nor the last character is whitespace. *)
Definition trimmed (s : str) : Prop :=
  (forall c, head s = Some c -> isspace c = false) /\
  (forall c, last s = Some c -> isspace c = false).

(** ** Facts about [isspace] *)

Example isspace_ascii_space : isspace 32 = true.
Proof. reflexivity. Qed.

Example isspace_nbsp : isspace 0xA0 = true.
Proof. reflexivity. Qed.

Example isspace_letter : isspace 112 = false.
Proof. reflexivity. Qed.

(** No whitespace code point lies above U+3000. *)
Lemma isspace_bound c : isspace c = true -> c <= 0x3000.
Proof. unfold isspace. lia. Qed.

(** Printable ASCII other than the space is never whitespace. *)
Lemma isspace_printable c : 33 <= c <= 126 -> isspace c = false.
Proof. unfold isspace. lia. Qed.

(** ** Facts about [strip] *)

Lemma lstrip_suffix s : lstrip s `suffix_of` s.
Proof. apply drop_while_suffix. Qed.

Lemma rstrip_prefix s : rstrip s `prefix_of` s.
Proof. apply drop_while_end_prefix. Qed.

Lemma strip_substr s : substr (strip s) s.
Proof.
  unfold strip. eapply substr_trans.
  - apply substr_prefix, rstrip_prefix.
  - apply substr_suffix, lstrip_suffix.
Qed.

(** What holds of every character of a text holds of every character
    of its trimmed form. *)
Lemma forallb_strip (p : N -> bool) s :
  forallb p s = true -> forallb p (strip s) = true.
Proof.
  rewrite !forallb_forall. intros Hs c Hc%list_elem_of_In.
  apply Hs, list_elem_of_In. eapply substr_elem; [apply strip_substr|done].
Qed.

Lemma strip_length s : (length (strip s) <= length s)%nat.
Proof. apply substr_length, strip_substr. Qed.

Lemma lstrip_blank s : blank s = true -> lstrip s = [].
Proof. apply drop_while_nil. Qed.

Lemma strip_nil_iff s : strip s = [] <-> blank s = true.
Proof.
  unfold strip, rstrip, lstrip, blank. rewrite drop_while_end_nil.
  split.
  - intros H. destruct (drop_while isspace s) as [|c k] eqn:E.
    + by apply drop_while_nil.
    + pose proof (drop_while_head isspace s c) as Hc. rewrite E in Hc.
      simpl in H. rewrite Hc in H by done. done.
  - intros H. apply drop_while_nil in H. by rewrite H.
Qed.

Lemma strip_truthy s : truthy (strip s) = negb (blank s).
Proof.
  destruct (blank s) eqn:E.
  - apply strip_nil_iff in E. by rewrite E.
  - destruct (strip s) eqn:E'; [|done].
    apply strip_nil_iff in E'. congruence.
Qed.

Lemma strip_head s c : head (strip s) = Some c -> isspace c = false.
Proof.
  unfold strip, rstrip. intros H.
  destruct (lstrip s) as [|x k] eqn:E; [done|].
  assert (Hx : isspace x = false).
  { apply (drop_while_head isspace s). fold (lstrip s). by rewrite E. }
  destruct (drop_while_end_cons isspace x k Hx) as [k' Hk'].
  rewrite Hk' in H. simpl in H. congruence.
Qed.

Lemma strip_last s c : last (strip s) = Some c -> isspace c = false.
Proof. apply drop_while_end_last. Qed.

Lemma strip_trimmed s : trimmed (strip s).
Proof. split; [apply strip_head | apply strip_last]. Qed.

(** A string that is already trimmed is returned unchanged. *)
Lemma strip_id s : trimmed s -> strip s = s.
Proof.
  intros [Hh Hl]. unfold strip, rstrip, lstrip.
  assert (E : drop_while isspace s = s).
  { destruct s as [|c k]; [done|]. simpl. by rewrite (Hh c). }
  rewrite E. unfold drop_while_end.
  destruct (reverse s) as [|c k] eqn:Er.
  - apply (f_equal reverse) in Er. by rewrite reverse_involutive in Er.
  - simpl. rewrite (Hl c).
    + by rewrite <- Er, reverse_involutive.
    + by rewrite <- head_reverse, Er.
Qed.

Lemma strip_idemp s : strip (strip s) = strip s.
Proof. apply strip_id, strip_trimmed. Qed.

(** Whitespace around a trimmed, non-empty core is exactly what [strip]
    removes. *)
Lemma strip_app a t b :
  blank a = true -> blank b = true -> trimmed t -> t <> [] ->
  strip (a ++ t ++ b) = t.
Proof.
  intros Ha Hb [Hh Hl] Ht. unfold strip, lstrip, rstrip.
  rewrite (drop_while_all isspace a) by done.
  destruct t as [|c k]; [done|].
  simpl. rewrite (Hh c) by done.
  unfold drop_while_end.
  change (c :: k ++ b) with ((c :: k) ++ b).
  rewrite reverse_app, (drop_while_all isspace (reverse b))
    by by rewrite forallb_reverse.
  destruct (reverse (c :: k)) as [|z r] eqn:Er.
  - apply (f_equal reverse) in Er. by rewrite reverse_involutive in Er.
  - simpl. rewrite (Hl z).
    + by rewrite <- Er, reverse_involutive.
    + by rewrite <- head_reverse, Er.
Qed.

(** C38: [strip] is determined by its contract: the result is the trimmed
    core of the argument, and what surrounds it is whitespace. *)
Theorem strip_spec s t :
  strip s = t <->
  exists a b, s = a ++ t ++ b /\ blank a = true /\ blank b = true /\ trimmed t.
Proof.
  split.
  - intros <-. exists (take_while isspace s).
    destruct (drop_while_end_split isspace (lstrip s)) as (b & Hb & Hbl).
    exists b. split_and!; [|apply take_while_all|done|apply strip_trimmed].
    unfold strip, rstrip. rewrite <- Hb. symmetry. apply take_drop_while.
  - intros (a & b & -> & Ha & Hb & Ht). destruct t as [|c k].
    + apply strip_nil_iff. unfold blank in *. simpl.
      by rewrite forallb_app, Ha, Hb.
    + by apply strip_app.
Qed.

(** ** The scans and the indices *)

Lemma left_index_eq s : left_index s = length (take_while isspace s).
Proof.
  induction s as [|c s IH]; simpl; [done|]. destruct (isspace c); simpl; lia.
Qed.

Lemma right_index_eq s : right_index s = length (rstrip s).
Proof.
  unfold rstrip. induction s as [|c s IH]; [done|].
  cbn [right_index]. rewrite drop_while_end_cons_eq, IH.
  destruct (drop_while_end isspace s); [by destruct (isspace c)|done].
Qed.

(** The two scans compute the slice between the indices of
    [do_strip]: for every string, [strip] and [do_strip] agree. *)
Theorem strip_do_strip s : strip s = do_strip s.
Proof.
  unfold do_strip, strip, lstrip, rstrip.
  rewrite left_index_eq, right_index_eq, <- drop_while_drop. unfold rstrip.
  rewrite (drop_while_end_take isspace (drop_while isspace s)) at 1. f_equal.
  rewrite <- (take_drop_while isspace s) at 2.
  rewrite drop_while_end_app by apply take_while_all.
  destruct (drop_while_end isspace (drop_while isspace s)); simpl; [lia|].
  rewrite length_app. simpl. lia.
Qed.

(** ** Facts about truthiness and [and] *)

Lemma truthy_nil_iff s : truthy s = false <-> s = [].
Proof. by destruct s. Qed.

Lemma py_and_truthy a b : truthy (py_and a b) = truthy a && truthy b.
Proof. unfold py_and. by destruct (truthy a) eqn:E. Qed.

Lemma py_and_falsy_nil a b : truthy (py_and a b) = false -> py_and a b = [].
Proof. apply truthy_nil_iff. Qed.

(** ** Facts about literals and decimal digits *)

Lemma list_ascii_of_string_app (s t : string) :
  String.list_ascii_of_string (s +:+ t) =
  String.list_ascii_of_string s ++ String.list_ascii_of_string t.
Proof. induction s as [|c s IH]; [done|]. simpl. by rewrite IH. Qed.

Lemma lit_app (s t : string) : lit (s +:+ t) = lit s ++ lit t.
Proof. unfold lit. by rewrite list_ascii_of_string_app, fmap_app. Qed.

Lemma lit_length (s : string) : length (lit s) = String.length s.
Proof.
  unfold lit. rewrite length_fmap.
  induction s as [|c s IH]; simpl; congruence.
Qed.

(** A literal is made of code points below 256. *)
Lemma lit_bytes (s : string) : is_bytes (lit s).
Proof.
  unfold lit, is_bytes. apply Forall_fmap, Forall_forall. intros a _. simpl.
  apply (Ascii.N_ascii_bounded a).
Qed.

Lemma uint_digits_range d c : c ∈ uint_digits d -> 48 <= c <= 57.
Proof.
  induction d; simpl; rewrite ?elem_of_cons; [by intros ?%elem_of_nil|..];
    (intros [->|?]; [lia | auto]).
Qed.

Lemma str_of_N_digits n c : c ∈ str_of_N n -> 48 <= c <= 57.
Proof. apply uint_digits_range. Qed.

Lemma uint_digits_inj d d' : uint_digits d = uint_digits d' -> d = d'.
Proof.
  revert d'. induction d; intros []; simpl; intros [=]; f_equal; auto.
Qed.

Lemma uint_digits_nil d : uint_digits d = [] -> d = Decimal.Nil.
Proof. by destruct d. Qed.

Lemma str_of_N_nonempty n : str_of_N n <> [].
Proof.
  unfold str_of_N. intros H%uint_digits_nil. destruct n as [|p]; [done|].
  by apply (DecimalPos.Unsigned.to_uint_nonnil p).
Qed.

(** Distinct numbers print differently. *)
Lemma str_of_N_inj n m : str_of_N n = str_of_N m -> n = m.
Proof.
  intros H%uint_digits_inj. by apply DecimalN.Unsigned.to_uint_inj.
Qed.

(** Trimming does not change whether a string is blank. *)
Lemma blank_strip s : blank (strip s) = blank s.
Proof.
  destruct (blank s) eqn:E, (blank (strip s)) eqn:E'; try done.
  - apply strip_nil_iff in E. by rewrite E in E'.
  - apply strip_nil_iff in E'. rewrite strip_idemp in E'.
    apply strip_nil_iff in E'. congruence.
Qed.

(** ** The number a decimal text denotes *)

Lemma foldl_digits_shift acc s :
  foldl (fun acc c => 10 * acc + (c - 48)) acc s
  = acc * 10 ^ N.of_nat (length s) + digits_value s.
Proof.
  unfold digits_value. revert acc.
  induction s as [|c s IH]; intros acc; [simpl; lia|].
  cbn [foldl length]. rewrite IH, (IH (10 * 0 + _)).
  rewrite Nat2N.inj_succ, N.pow_succ_r'. lia.
Qed.

Lemma digits_value_cons c s :
  digits_value (c :: s) = (c - 48) * 10 ^ N.of_nat (length s) + digits_value s.
Proof. unfold digits_value at 1. cbn [foldl]. by rewrite foldl_digits_shift. Qed.

Lemma digits_value_zeros k s : digits_value (replicate k 48 ++ s) = digits_value s.
Proof. induction k as [|k IH]; [done|]. cbn [replicate app]. by rewrite digits_value_cons, IH. Qed.

Lemma usize_length d :
  DecimalPos.Unsigned.usize d = N.of_nat (length (uint_digits d)).
Proof. induction d; cbn [DecimalPos.Unsigned.usize uint_digits length]; lia. Qed.

Lemma digits_value_uint d :
  digits_value (uint_digits d) = DecimalPos.Unsigned.of_lu (Decimal.rev d).
Proof.
  induction d; [done|..]; cbn [uint_digits]; rewrite digits_value_cons, IHd;
    unfold Decimal.rev at 2; cbn [Decimal.revapp];
    match goal with
    | |- _ = DecimalPos.Unsigned.of_lu (Decimal.revapp d ?d') =>
        rewrite (DecimalPos.Unsigned.of_lu_revapp d d')
    end;
    rewrite usize_length; cbn [DecimalPos.Unsigned.of_lu]; lia.
Qed.

Lemma digits_value_str_of_N n : digits_value (str_of_N n) = n.
Proof.
  unfold str_of_N. rewrite digits_value_uint, <- DecimalPos.Unsigned.of_uint_alt.
  apply DecimalN.Unsigned.of_to.
Qed.

(** A digit string is at least the power of ten of its length, times
    its first digit. *)
Lemma digits_value_lower c s :
  (c - 48) * 10 ^ N.of_nat (length s) <= digits_value (c :: s).
Proof. rewrite digits_value_cons. lia. Qed.

Lemma uint_digits_head d c s :
  uint_digits d = c :: s -> (forall d', d <> Decimal.D0 d') -> 49 <= c.
Proof. destruct d; cbn [uint_digits]; intros [= <- _] H; try lia. by destruct (H d). Qed.

Lemma to_uint_head p d' : Pos.to_uint p <> Decimal.D0 d'.
Proof.
  intros E.
  assert (Hn : Decimal.unorm (Pos.to_uint p) = Pos.to_uint p).
  { rewrite <- DecimalPos.Unsigned.to_of, DecimalPos.Unsigned.of_to. done. }
  unfold Decimal.unorm in Hn.
  destruct (Decimal.nzhead (Pos.to_uint p)) eqn:Hz;
    try (rewrite <- Hn in E; discriminate E).
  - by apply (DecimalPos.Unsigned.to_uint_nonzero p).
  - by apply DecimalFacts.nzhead_nonzero in Hz.
Qed.

(** A number below [10 ^ k] prints with at most [k] digits. *)
Lemma str_of_N_length n k :
  (0 < k)%nat -> n < 10 ^ N.of_nat k -> (1 <= length (str_of_N n) <= k)%nat.
Proof.
  intros Hk Hn. pose proof (digits_value_str_of_N n) as Hv.
  destruct n as [|p]; [simpl; lia|].
  unfold str_of_N in *. cbn [N.to_uint] in *.
  destruct (uint_digits (Pos.to_uint p)) as [|c s] eqn:E.
  { by apply uint_digits_nil, DecimalPos.Unsigned.to_uint_nonnil in E. }
  apply uint_digits_head in E as Hc; [|apply to_uint_head].
  pose proof (digits_value_lower c s) as Hl. rewrite Hv in Hl.
  cbn [length]. split; [lia|].
  destruct (decide (length s < k)%nat) as [|Hge]; [lia|].
  assert (10 ^ N.of_nat k <= 10 ^ N.of_nat (length s)) by (apply N.pow_le_mono_r; lia).
  nia.
Qed.

(** ** Checking a decidable property of every number below a bound *)

Lemma N_forallb_below (P : N -> bool) (k : N) :
  forallb (fun i => P (N.of_nat i)) (seq 0 (N.to_nat k)) = true ->
  forall n, n < k -> P n = true.
Proof.
  intros H n Hn. rewrite <- (N2Nat.id n).
  apply (forallb_below _ _ H). lia.
Qed.

#[export] Hint Resolve strip_substr strip_trimmed : py.
#[export] Hint Rewrite strip_idemp strip_truthy py_and_truthy : py_simpl.
