(* ===== verification/Prompt.v ===== *)
(** * Prompt: [generate_mandala_prompt] (src/MandalaArt.py, lines 66-81)

    The function interpolates the inspiration word twice into a fixed
    f-string.  The three constant pieces are transcribed character by
    character (the first line of the template ends in a space before its
    newline; the blank line before "Style:" holds four spaces).

    Theorems: the word appears verbatim and quoted; the style markers the
    specification lists are present whatever the word; the length is
    affine in the word's length and stays below DALL-E 3's limit for
    every word the text field admits; the prompt determines the word. *)

From stdpp Require Import base tactics list numbers strings.
From Stdlib Require Import Lia.
From S2P Require Import Prelude PyStr.

(** The newline character of a triple-quoted literal. *)
Definition nl : str := [10%N].

(** ** The template *)

Definition prompt_head : str :=
  lit "Create a beautiful, intricate black and white mandala design"
  ++ lit " inspired by the word '".

Definition prompt_body : str :=
  lit "'. " ++ nl
  ++ lit "    The mandala should be:" ++ nl
  ++ lit "    - Completely black and white (no colors, no grayscale - "
  ++ lit "pure black lines on white background)" ++ nl
  ++ lit "    - Perfectly symmetrical and circular" ++ nl
  ++ lit "    - Featuring intricate geometric patterns, sacred geometr"
  ++ lit "y, and detailed ornamental elements" ++ nl
  ++ lit "    - Incorporating symbolic elements related to '".

Definition prompt_tail : str :=
  lit "'" ++ nl
  ++ lit "    - High contrast with crisp, clean lines" ++ nl
  ++ lit "    - Suitable for meditation and coloring" ++ nl
  ++ lit "    - Professional quality with fine details" ++ nl
  ++ lit "    - Centered on a pure white background" ++ nl
  ++ lit "    " ++ nl
  ++ lit "    Style: Traditional mandala art, spiritual, meditative, g"
  ++ lit "eometric, ornate, detailed line art".

(** The f-string of lines 68-79 with its two [{inspiration_word}]
    fields, returned on line 81. *)
Definition generate_mandala_prompt (inspiration_word : str) : str :=
  prompt_head ++ inspiration_word ++ prompt_body
  ++ inspiration_word ++ prompt_tail.

Arguments generate_mandala_prompt : simpl never.

(** The number of template characters around the two interpolations. *)
Definition prompt_overhead : nat :=
  length prompt_head + length prompt_body + length prompt_tail.

(** The longest prompt [images.generate] accepts for the dall-e-3 model. *)
Definition dalle3_prompt_limit : nat := 4000.

(** The [max_chars] of the word's text field (line 147). *)
Definition max_chars : nat := 50.

(** ** The pieces, evaluated once *)

Lemma prompt_overhead_eq : prompt_overhead = 675.
Proof. vm_compute. reflexivity. Qed.

Lemma prompt_head_length : length prompt_head = 83.
Proof. vm_compute. reflexivity. Qed.

(** The template is plain ASCII; only the word can bring other
    characters in. *)
Lemma prompt_template_ascii :
  Forall (fun c => (c < 128)%N) (prompt_head ++ prompt_body ++ prompt_tail).
Proof. apply (bool_decide_unpack _). vm_compute. exact I. Qed.

Lemma prompt_unfold w :
  generate_mandala_prompt w
  = prompt_head ++ w ++ prompt_body ++ w ++ prompt_tail.
Proof. reflexivity. Qed.

(** A block of the middle piece is a block of every prompt. *)
Lemma substr_prompt_body m w :
  substr m prompt_body -> substr m (generate_mandala_prompt w).
Proof.
  intros H. rewrite prompt_unfold.
  apply substr_app_l, substr_app_l.
  rewrite app_assoc. by apply substr_app_r, substr_app_r.
Qed.

Lemma substr_prompt_head m w :
  substr m prompt_head -> substr m (generate_mandala_prompt w).
Proof. intros H. rewrite prompt_unfold. by apply substr_app_r. Qed.

Lemma substr_prompt_tail m w :
  substr m prompt_tail -> substr m (generate_mandala_prompt w).
Proof.
  intros H. rewrite prompt_unfold. by do 4 apply substr_app_l.
Qed.

Lemma prompt_mentions_word w : substr w (generate_mandala_prompt w).
Proof. rewrite prompt_unfold. apply substr_app_l, substr_app_r, substr_refl. Qed.

(** The prompt's length is the template's 675 characters plus twice the
    word's. *)
Lemma prompt_length w :
  length (generate_mandala_prompt w) = 2 * length w + 675.
Proof.
  rewrite prompt_unfold, !length_app, <- prompt_overhead_eq.
  unfold prompt_overhead. lia.
Qed.

(** [decide_substr]: settle [substr] between two closed strings. *)
Ltac decide_substr := apply is_substr_spec; vm_compute; reflexivity.

(** ** Theorems *)

(** for every word, the prompt contains it verbatim, between the
    single quotes of the template, at both interpolation sites. *)
Lemma prompt_contains_word w :
  substr (lit "the word '" ++ w ++ lit "'. ") (generate_mandala_prompt w) /\
  substr (lit "related to '" ++ w ++ lit "'" ++ nl) (generate_mandala_prompt w).
Proof.
  rewrite prompt_unfold. split.
  - exists (take 73 prompt_head), (drop 3 prompt_body ++ w ++ prompt_tail).
    change prompt_head with (take 73 prompt_head ++ lit "the word '") at 1.
    change prompt_body with (lit "'. " ++ drop 3 prompt_body) at 1.
    by rewrite <- !app_assoc.
  - exists (prompt_head ++ w ++ take 304 prompt_body), (drop 2 prompt_tail).
    change prompt_body with (take 304 prompt_body ++ lit "related to '") at 1.
    change prompt_tail with ((lit "'" ++ nl) ++ drop 2 prompt_tail) at 1.
    by rewrite <- !app_assoc.
Qed.

(** whatever the word, the prompt asks for black and white, for
    symmetry and for sacred geometry. *)
Lemma prompt_style_markers w :
  substr (lit "black and white") (generate_mandala_prompt w) /\
  substr (lit "symmetrical") (generate_mandala_prompt w) /\
  substr (lit "sacred geometry") (generate_mandala_prompt w) /\
  substr (lit "High contrast") (generate_mandala_prompt w) /\
  substr (lit "meditation and coloring") (generate_mandala_prompt w).
Proof.
  split_and!.
  - apply substr_prompt_head. decide_substr.
  - apply substr_prompt_body. decide_substr.
  - apply substr_prompt_body. decide_substr.
  - apply substr_prompt_tail. decide_substr.
  - apply substr_prompt_tail. decide_substr.
Qed.

(** C39: The first testable property of the specification.  For every
    word, the prompt contains the word verbatim, between the single
    quotes of the template and at both interpolation sites, and
    contains the fixed style markers: black and white, symmetry, sacred
    geometry, high contrast, meditation and coloring; and its length is
    that of the template, 675 characters, plus twice that of the
    word. *)
Theorem prompt_build_spec w :
  (substr (lit "the word '" ++ w ++ lit "'. ") (generate_mandala_prompt w) /\
   substr (lit "related to '" ++ w ++ lit "'" ++ nl)
     (generate_mandala_prompt w)) /\
  (substr (lit "black and white") (generate_mandala_prompt w) /\
   substr (lit "symmetrical") (generate_mandala_prompt w) /\
   substr (lit "sacred geometry") (generate_mandala_prompt w) /\
   substr (lit "High contrast") (generate_mandala_prompt w) /\
   substr (lit "meditation and coloring") (generate_mandala_prompt w)) /\
  length (generate_mandala_prompt w) = 2 * length w + 675.
Proof.
  split_and!; try apply prompt_contains_word; try apply prompt_style_markers.
  apply prompt_length.
Qed.

(** a word that fits the text field gives a prompt DALL-E 3 accepts. *)
Theorem prompt_within_limit w :
  length w <= max_chars ->
  length (generate_mandala_prompt w) <= dalle3_prompt_limit.
Proof.
  rewrite prompt_length. unfold max_chars, dalle3_prompt_limit. lia.
Qed.

Lemma prompt_within_limit_witness :
  length (lit "peace") <= max_chars /\
  length (generate_mandala_prompt (lit "peace")) <= dalle3_prompt_limit.
Proof.
  split; [vm_compute; lia | apply prompt_within_limit; vm_compute; lia].
Defined.

(** two words with the same prompt are the same word. *)
Theorem prompt_inj w1 w2 :
  generate_mandala_prompt w1 = generate_mandala_prompt w2 -> w1 = w2.
Proof.
  intros H. assert (Hl : length w1 = length w2).
  { apply (f_equal length) in H. rewrite !prompt_length in H. lia. }
  rewrite !prompt_unfold in H. apply app_inv_head in H.
  by apply app_inj_1 in H as [? _].
Qed.

#[export] Hint Resolve prompt_mentions_word : py.
#[export] Hint Rewrite prompt_length : py_simpl.
