(* ===== verification/World.v ===== *)
(** * World: the libraries the script calls, as interfaces

    The script owns no algorithm of image synthesis, HTTP or decoding: it
    calls [openai], [requests] and [PIL].  Each library is a [Class]
    whose fields are the calls the script makes, with the argument and
    result types the script relies on.  A call either returns a value or
    raises an exception ([result]).  Components state their theorems
    under the interfaces they use; the concrete instances at the end of
    the development are the inputs of the witnesses.

    Also here: the objects those libraries hand back ([Client],
    [ImagesResponse], [Response], [Image]) and the two exceptions that
    the script's own expressions raise inside the [try] of
    [generate_mandala_image] ([response.data[0]] and
    [raise_for_status()]). *)

From stdpp Require Import base tactics list numbers strings.
From Stdlib Require Import Lia ZifyBool ZifyN.
From S2P Require Import Prelude PyStr.

Local Open Scope N_scope.

(** ** Exceptions and results *)

(** An instance of a subclass of [Exception]: its class name and
    [str(e)]. *)
Record exn := Exn { exn_type : string; exn_str : str }.

(** The result of a call that may raise. *)
Inductive result (A : Type) : Type :=
| Returns (a : A)
| Raises (e : exn).
Arguments Returns {A} a.
Arguments Raises {A} e.

#[export] Instance exn_eq_dec : EqDecision exn.
Proof. solve_decision. Defined.

#[export] Instance result_eq_dec `{EqDecision A} : EqDecision (result A).
Proof. solve_decision. Defined.

(** ** Library objects *)

(** [openai.OpenAI]: the client keeps the key it was built with. *)
Record Client := { api_key_of : str }.

(** One element of [response.data]; [url] is [Optional[str]]. *)
Record ImageDatum := { url : option str }.

(** [ImagesResponse]; [data] is [Optional[List[Image]]]. *)
Record ImagesResponse := { data : option (list ImageDatum) }.

(** The keyword arguments of [client.images.generate] (lines 93-99). *)
Record GenerateArgs := {
  gen_model : str;
  gen_prompt : str;
  gen_size : str;
  gen_quality : str;
  gen_n : N;
}.

(** [requests.Response], the attributes the script and
    [raise_for_status] read. *)
Record Response := {
  status_code : N;
  reason : str;
  resp_url : str;
  content : bytes;
}.

(** [PIL.Image.Image]: [image.size] and the pixel payload. *)
Record Image := { img_size : N * N; img_pixels : bytes }.

#[export] Instance Image_eq_dec : EqDecision Image.
Proof. solve_decision. Defined.

#[export] Instance Client_eq_dec : EqDecision Client.
Proof. solve_decision. Defined.

(** ** The interfaces *)

(** [openai]: the constructor (line 60) and [images.generate]
    (lines 93-99). *)
Class OpenAIApi := {
  openai_OpenAI : str -> result Client;
  images_generate : Client -> GenerateArgs -> result ImagesResponse;
}.

(** [requests.get] (line 104).  Its argument is whatever [.url] held,
    [None] included. *)
Class RequestsApi := {
  requests_get : option str -> result Response;
}.

(** [PIL]: [Image.open] on the downloaded bytes (line 108) and
    [image.save(buffered, format="PNG")] (line 119). *)
Class PillowApi := {
  Image_open : bytes -> result Image;
  Image_save_PNG : Image -> result bytes;
}.

(** Streamlit: the text of the [AttributeError] that [st.session_state]
    raises when an attribute that was never assigned is read. *)
Class StreamlitApi := {
  missing_attribute_message : string -> str;
}.

(** ** Exceptions raised by the script's own expressions *)

(** [response.data[0]] (line 101): subscripting [None] and indexing an
    empty list. *)
Definition TypeError_not_subscriptable : exn :=
  Exn "TypeError" (lit "'NoneType' object is not subscriptable").

Definition IndexError_out_of_range : exn :=
  Exn "IndexError" (lit "list index out of range").

(** Reading [st.session_state.<name>] when it is absent (line 196). *)
Definition AttributeError `{!StreamlitApi} (name : string) : exn :=
  Exn "AttributeError" (missing_attribute_message name).

Definition first_datum (r : ImagesResponse) : result ImageDatum :=
  match data r with
  | None => Raises TypeError_not_subscriptable
  | Some [] => Raises IndexError_out_of_range
  | Some (d :: _) => Returns d
  end.

(** [Response.raise_for_status()] (line 105): statuses 400-499 are
    client errors, 500-599 server errors, anything else passes. *)
Definition http_error_msg (r : Response) : option str :=
  if (400 <=? status_code r) && (status_code r <? 500) then
    Some (str_of_N (status_code r) ++ lit " Client Error: " ++ reason r
          ++ lit " for url: " ++ resp_url r)
  else if (500 <=? status_code r) && (status_code r <? 600) then
    Some (str_of_N (status_code r) ++ lit " Server Error: " ++ reason r
          ++ lit " for url: " ++ resp_url r)
  else None.

Definition raise_for_status (r : Response) : result unit :=
  match http_error_msg r with
  | Some msg => Raises (Exn "HTTPError" msg)
  | None => Returns tt
  end.

(** ** Facts *)

(** [response.data[0]] yields a datum exactly when [data] is a
    non-empty list. *)
Lemma first_datum_Returns r d :
  first_datum r = Returns d <-> exists ds, data r = Some (d :: ds).
Proof.
  unfold first_datum. destruct (data r) as [[|d' ds]|]; split;
    try done; try (by intros [? [=]]).
  - intros [= ->]. eauto.
  - by intros [? [= -> _]].
Qed.

(** [raise_for_status] passes exactly the statuses outside 400-599. *)
Lemma raise_for_status_Returns r :
  raise_for_status r = Returns tt <-> status_code r < 400 \/ 600 <= status_code r.
Proof.
  unfold raise_for_status, http_error_msg.
  repeat case_match; simplify_eq; split; try done; lia.
Qed.

Lemma raise_for_status_Raises r e :
  raise_for_status r = Raises e ->
  400 <= status_code r < 600 /\ exn_type e = "HTTPError" /\
  prefix (str_of_N (status_code r)) (exn_str e).
Proof.
  unfold raise_for_status.
  destruct (http_error_msg r) as [msg|] eqn:E; [|done].
  intros [= <-]. simpl. unfold http_error_msg in E.
  repeat case_match; simplify_eq; (split; [lia | split; [done | by eexists]]).
Qed.

(** The message of an HTTP 500, as the user will read it. *)
Example http_500_message :
  raise_for_status {| status_code := 500; reason := lit "Internal Server Error";
                      resp_url := lit "https://img.example/a.png"; content := [] |}
  = Raises (Exn "HTTPError"
      (lit "500 Server Error: Internal Server Error for url: https://img.example/a.png")).
Proof. vm_compute. reflexivity. Qed.
