(* ===== verification/Utf8.v ===== *)
(** * Utf8: [bytes.decode()] as called on line 120

    [base64.b64encode(...)] returns [bytes]; the script turns them into
    a [str] with [.decode()], whose default codec is UTF-8 with strict
    error handling.  [utf8_decode] is that decoder: one to four bytes
    per code point, with the ranges of the Unicode standard (no overlong
    forms, no surrogates, nothing above U+10FFFF); [decode] raises
    [UnicodeDecodeError] where it fails.

    Theorems: on ASCII bytes the decoder is the identity, which is the
    only case the script produces; whatever it accepts decodes to
    Unicode scalar values. *)

From stdpp Require Import base tactics list numbers strings.
From Stdlib Require Import Lia ZifyBool ZifyN.
From S2P Require Import Prelude PyStr World.

Local Open Scope N_scope.

(** ** Definitions *)

(** Every byte is below 128. *)
Definition is_ascii (b : bytes) : bool := forallb (fun x => x <? 128) b.

(** A continuation byte, [10xxxxxx]. *)
Definition is_cont (c : N) : bool := (128 <=? c) && (c <=? 191).

(** The second byte of a three-byte form: [E0] excludes overlong
    forms, [ED] excludes surrogates. *)
Definition second_of3 (c0 c1 : N) : bool :=
  if c0 =? 224 then (160 <=? c1) && (c1 <=? 191)
  else if c0 =? 237 then (128 <=? c1) && (c1 <=? 159)
  else is_cont c1.

(** The second byte of a four-byte form: [F0] excludes overlong forms,
    [F4] excludes code points above U+10FFFF. *)
Definition second_of4 (c0 c1 : N) : bool :=
  if c0 =? 240 then (144 <=? c1) && (c1 <=? 191)
  else if c0 =? 244 then (128 <=? c1) && (c1 <=? 143)
  else is_cont c1.

(** The code points of two, three and four bytes. *)
Definition point2 (c0 c1 : N) : N := (c0 - 192) * 64 + (c1 - 128).
Definition point3 (c0 c1 c2 : N) : N :=
  ((c0 - 224) * 64 + (c1 - 128)) * 64 + (c2 - 128).
Definition point4 (c0 c1 c2 c3 : N) : N :=
  (((c0 - 240) * 64 + (c1 - 128)) * 64 + (c2 - 128)) * 64 + (c3 - 128).

Fixpoint utf8_decode (b : bytes) : option str :=
  match b with
  | [] => Some []
  | c0 :: b1 =>
      if c0 <? 128 then cons c0 <$> utf8_decode b1
      else if (194 <=? c0) && (c0 <=? 223) then
        match b1 with
        | c1 :: b2 =>
            if is_cont c1 then cons (point2 c0 c1) <$> utf8_decode b2
            else None
        | _ => None
        end
      else if (224 <=? c0) && (c0 <=? 239) then
        match b1 with
        | c1 :: c2 :: b3 =>
            if second_of3 c0 c1 && is_cont c2
            then cons (point3 c0 c1 c2) <$> utf8_decode b3
            else None
        | _ => None
        end
      else if (240 <=? c0) && (c0 <=? 244) then
        match b1 with
        | c1 :: c2 :: c3 :: b4 =>
            if second_of4 c0 c1 && is_cont c2 && is_cont c3
            then cons (point4 c0 c1 c2 c3) <$> utf8_decode b4
            else None
        | _ => None
        end
      else None
  end.

(** The exception of a failed decoding.  Its text names the codec; the
    position and the reason, which the script never reads, are left
    out. *)
Definition UnicodeDecodeError : exn :=
  Exn "UnicodeDecodeError" (lit "'utf-8' codec can't decode bytes").

(** [b.decode()] *)
Definition decode (b : bytes) : result str :=
  match utf8_decode b with
  | Some s => Returns s
  | None => Raises UnicodeDecodeError
  end.

(** A Unicode scalar value: a code point that is not a surrogate. *)
Definition scalar (c : N) : Prop := c < 55296 \/ 57343 < c < 1114112.

(** ** Examples *)

(** The two emoji of the error texts and the spinner. *)
Example utf8_cross_mark : utf8_decode [226; 157; 140] = Some [0x274C].
Proof. reflexivity. Qed.

Example utf8_palette : utf8_decode [240; 159; 142; 168] = Some [0x1F3A8].
Proof. reflexivity. Qed.

(** An overlong form, a surrogate, a truncated sequence. *)
Example utf8_overlong : decode [192; 128] = Raises UnicodeDecodeError.
Proof. reflexivity. Qed.

Example utf8_surrogate : decode [237; 160; 128] = Raises UnicodeDecodeError.
Proof. reflexivity. Qed.

Example utf8_truncated : decode [226; 157] = Raises UnicodeDecodeError.
Proof. reflexivity. Qed.

(** ** Facts *)

(** ASCII bytes decode to themselves. *)
Lemma utf8_decode_ascii b : is_ascii b = true -> utf8_decode b = Some b.
Proof.
  unfold is_ascii. induction b as [|c b IH]; [done|].
  cbn [forallb utf8_decode]. intros [Hc Hb]%andb_true_iff.
  by rewrite Hc, IH.
Qed.

Lemma decode_ascii b : is_ascii b = true -> decode b = Returns b.
Proof. intros H. unfold decode. by rewrite utf8_decode_ascii. Qed.

(** [decode_step]: one step of the decoder, read backwards. *)
Ltac decode_step :=
  repeat match goal with
         | H : context [if ?t then _ else _] |- _ =>
             destruct t eqn:?; try discriminate H
         | H : context [match ?l with [] => _ | _ :: _ => _ end] |- _ =>
             destruct l; try discriminate H
         | H : _ <$> utf8_decode ?l = Some _ |- _ =>
             destruct (utf8_decode l) eqn:?; [|discriminate H];
             injection H as <-
         end.

Lemma scalar_point2 c0 c1 :
  (194 <=? c0) && (c0 <=? 223) = true -> is_cont c1 = true ->
  scalar (point2 c0 c1).
Proof. unfold is_cont, scalar, point2. lia. Qed.

Lemma scalar_point3 c0 c1 c2 :
  (224 <=? c0) && (c0 <=? 239) = true ->
  second_of3 c0 c1 && is_cont c2 = true -> scalar (point3 c0 c1 c2).
Proof.
  unfold second_of3, is_cont, scalar, point3.
  destruct (c0 =? 224) eqn:?, (c0 =? 237) eqn:?; lia.
Qed.

Lemma scalar_point4 c0 c1 c2 c3 :
  (240 <=? c0) && (c0 <=? 244) = true ->
  second_of4 c0 c1 && is_cont c2 && is_cont c3 = true ->
  scalar (point4 c0 c1 c2 c3).
Proof.
  unfold second_of4, is_cont, scalar, point4.
  destruct (c0 =? 240) eqn:?, (c0 =? 244) eqn:?; lia.
Qed.

Lemma utf8_decode_scalar_below n b s :
  (length b <= n)%nat -> utf8_decode b = Some s -> Forall scalar s.
Proof.
  revert b s. induction n as [|n IH]; intros [|c0 b1] s Hn H;
    cbn [length] in Hn; try lia; cbn [utf8_decode] in H;
    try (injection H as <-; constructor).
  decode_step; cbn [length] in Hn;
    (constructor; [|eapply IH; [|eassumption]; lia]).
  - unfold scalar. lia.
  - eapply scalar_point2; eassumption.
  - eapply scalar_point3; eassumption.
  - eapply scalar_point4; eassumption.
Qed.

(** whatever the decoder accepts is a string of Unicode scalar
    values. *)
Theorem utf8_decode_scalar b s : utf8_decode b = Some s -> Forall scalar s.
Proof. by apply (utf8_decode_scalar_below (length b)). Qed.
