(* ===== verification/Session.v ===== *)
(** * Session: [st.session_state] as the script uses it

    The script stores three attributes, always together (lines 159-161),
    and reads them while drawing the right-hand column (lines 194-226).
    An attribute that was never assigned is absent: [hasattr] is false
    and reading it raises.  The record below has one optional field per
    attribute; their types are those of the only assignments the script
    contains ([prompt] is the second component of the pair that
    [generate_mandala_image] returns, a string or [None]).

    The invariant [coherent] says the three attributes are present
    together or absent together, and that when present the prompt is the
    prompt of the stored word, which is non-empty and trimmed.
    [Main] proves every run of the script preserves it; line 196 reads
    [current_word] without a [hasattr] test and is safe only because of
    it. *)

From stdpp Require Import base tactics list numbers strings option.
From S2P Require Import Prelude PyStr Prompt World.

(** ** State *)

Record SessionState := {
  current_image : option Image;
  current_prompt : option (option str);
  current_word : option str;
}.

(** A new browser session: no attribute has been assigned. *)
Definition new_session : SessionState :=
  {| current_image := None; current_prompt := None; current_word := None |}.

(** ** Operations *)

(** [st.session_state.current_image = image] (line 159) *)
Definition set_current_image (image : Image) (s : SessionState) : SessionState :=
  {| current_image := Some image;
     current_prompt := current_prompt s;
     current_word := current_word s |}.

(** [st.session_state.current_prompt = prompt] (line 160) *)
Definition set_current_prompt (prompt : option str) (s : SessionState)
  : SessionState :=
  {| current_image := current_image s;
     current_prompt := Some prompt;
     current_word := current_word s |}.

(** [st.session_state.current_word = ...] (line 161) *)
Definition set_current_word (word : str) (s : SessionState) : SessionState :=
  {| current_image := current_image s;
     current_prompt := current_prompt s;
     current_word := Some word |}.

(** An assignment to an attribute of [st.session_state], as a value:
    which attribute, and what is assigned. *)
Inductive assignment :=
| Current_image (image : Image)
| Current_prompt (prompt : option str)
| Current_word (word : str).

#[export] Instance assignment_eq_dec : EqDecision assignment.
Proof. solve_decision. Defined.

(** [st.session_state.<attribute> = value] *)
Definition setattr (a : assignment) (s : SessionState) : SessionState :=
  match a with
  | Current_image image => set_current_image image s
  | Current_prompt prompt => set_current_prompt prompt s
  | Current_word word => set_current_word word s
  end.

(** The three assignments of lines 159-161, in the script's order. *)
Definition store (image : Image) (prompt : option str) (word : str)
    (s : SessionState) : SessionState :=
  set_current_word word (set_current_prompt prompt (set_current_image image s)).

(** [hasattr(st.session_state, 'current_image') and
    st.session_state.current_image] (line 194).  An [Image] object is
    always truthy, so the conjunction is the test for presence. *)
Definition has_image (s : SessionState) : bool :=
  match current_image s with Some _ => true | None => false end.

(** [hasattr(st.session_state, 'current_prompt')] (line 224) *)
Definition has_prompt (s : SessionState) : bool :=
  match current_prompt s with Some _ => true | None => false end.

(** ** Invariant *)

Definition coherent (s : SessionState) : Prop :=
  match current_image s, current_prompt s, current_word s with
  | None, None, None => True
  | Some _, Some (Some p), Some w =>
      p = generate_mandala_prompt w /\ w <> [] /\ trimmed w
  | _, _, _ => False
  end.

(** What the spec calls the held [GenerationResult]. *)
Record GenerationResult := {
  image : Image;
  promptUsed : str;
  sourceTopic : str;
}.

(** The abstraction function to the spec's holder: "at most one
    GenerationResult at a time", or empty. *)
Definition held (s : SessionState) : option GenerationResult :=
  match current_image s, current_prompt s, current_word s with
  | Some i, Some (Some p), Some w =>
      Some {| image := i; promptUsed := p; sourceTopic := w |}
  | _, _, _ => None
  end.

(** ** Facts *)

Lemma coherent_new : coherent new_session.
Proof. exact I. Qed.

(** The three assignments of lines 159-161, in the script's order,
    replace whatever was held. *)
Lemma held_store i p w s :
  held (store i (Some p) w s)
  = Some {| image := i; promptUsed := p; sourceTopic := w |}.
Proof. reflexivity. Qed.

Lemma coherent_store i w s :
  w <> [] -> trimmed w ->
  coherent (store i (Some (generate_mandala_prompt w)) w s).
Proof. by intros; simpl. Qed.

(** Under the invariant, presence of the image decides presence of the
    other two. *)
Lemma coherent_has_image s :
  coherent s -> has_image s = true ->
  exists i p w, current_image s = Some i /\
                current_prompt s = Some (Some p) /\
                current_word s = Some w.
Proof.
  unfold coherent, has_image.
  destruct (current_image s), (current_prompt s) as [[|]|], (current_word s);
    try done; eauto 10.
Qed.

Lemma coherent_has_prompt s :
  coherent s -> has_prompt s = has_image s.
Proof.
  unfold coherent, has_image, has_prompt.
  by destruct (current_image s), (current_prompt s) as [[|]|],
    (current_word s).
Qed.

Lemma coherent_held s :
  coherent s ->
  match held s with
  | Some r => promptUsed r = generate_mandala_prompt (sourceTopic r)
              /\ strip (sourceTopic r) = sourceTopic r
  | None => s = new_session
  end.
Proof.
  unfold coherent, held. destruct s as [[i|] [[p|]|] [w|]]; simpl; try done.
  intros (-> & _ & Ht). split; [done|]. by apply strip_id.
Qed.

#[export] Hint Resolve coherent_new coherent_store : py.
