(* ===== verification/Script.v ===== *)
(** * Script: one execution of the Streamlit script, as a monad

    Running the script has three effects: it draws elements and calls
    libraries (every [st.*] call and every library call appends one
    event to the trace), it reads and assigns [st.session_state] (every
    assignment appends one event too), and it can stop early, by an
    exception or by [st.rerun()].
    A [script A] maps the session state to a [run]: how it ended, the
    session state it left, and the trace of what it did, in order.

    [st.rerun()] raises a script-control exception that derives from
    [BaseException]: [except Exception] (lines 62, 112) does not catch
    it.  [try_except] below therefore handles [Raised] and lets [Rerun]
    through.  A [with] block runs its exit when the body raises
    ([with_]).

    Two runs look the same to the user when they end in the same way,
    leave the same session state and draw the same elements
    ([same_view]); this is an equivalence coarser than equality, since
    the library calls may differ, and sequencing, [with] blocks and
    handlers respect it.

    Streamlit can also stop a run from outside, when the user changes
    a widget: [cuts] lists what a run has done at the points where that
    can happen, [replay] the session state its assignments have
    produced by then.  A script is [quiet] when it assigns nothing,
    [committed] when it assigns before it draws, [atomic] when no stop
    sees some of its assignments without the others. *)

From stdpp Require Import base tactics list numbers strings.
From S2P Require Import Prelude PyStr World Session.

(** ** What the script draws *)

(** The context managers the script enters: [st.spinner(text)], a
    column returned by [st.columns], [st.expander(label)]. *)
Inductive container :=
| Spinner (text : str)
| Column (index : nat)
| Expander (label : str).

(** One call of the Streamlit API, with the arguments the script
    passes. *)
Inductive element :=
| Set_page_config (page_title page_icon layout initial_sidebar_state : str)
| Markdown (body : str) (unsafe_allow_html : bool)
| Error (body : str)
| Success (body : str)
| Info (body : str)
| Columns (spec : list N)                 (* [st.columns([1, 1])] *)
| Columns_n (count : N)                   (* [st.columns(3)] *)
| Text_input (label placeholder : str) (password : bool)
             (help : option str) (max_chars : option nat)
| Button (label : str) (disabled : bool)
| Show_image (img : Image) (caption : str) (use_container_width : bool)
| Text_area (label : str) (value : option str) (height : N)
| Enter (c : container)
| Exit (c : container).

(** One call into a library, with its arguments. *)
Inductive api_call :=
| OpenAI_new (api_key : str)
| Images_generate (client : Client) (args : GenerateArgs)
| Requests_get (url : option str)
| Image_open_of (content : bytes)
| Image_save_of (img : Image)
| Datetime_now.

Inductive event :=
| Ui (e : element)
| Api (c : api_call)
| Assign (a : assignment).

#[export] Instance container_eq_dec : EqDecision container.
Proof. solve_decision. Defined.

#[export] Instance element_eq_dec : EqDecision element.
Proof. solve_decision. Defined.

#[export] Instance GenerateArgs_eq_dec : EqDecision GenerateArgs.
Proof. solve_decision. Defined.

#[export] Instance api_call_eq_dec : EqDecision api_call.
Proof. solve_decision. Defined.

#[export] Instance event_eq_dec : EqDecision event.
Proof. solve_decision. Defined.

(** ** Runs *)

Inductive outcome (A : Type) : Type :=
| Done (a : A)          (* ran to its end and returned [a] *)
| Raised (e : exn)      (* an [Exception] is propagating *)
| Rerun.                (* [st.rerun()] was called *)
Arguments Done {A} a.
Arguments Raised {A} e.
Arguments Rerun {A}.

Record run (A : Type) : Type := Run {
  ended : outcome A;
  session : SessionState;
  trace : list event;
}.
Arguments Run {A} ended session trace.
Arguments ended {A} r.
Arguments session {A} r.
Arguments trace {A} r.

(** The elements on the page, and the library calls made, in order. *)
Fixpoint elements (t : list event) : list element :=
  match t with
  | [] => []
  | Ui e :: t => e :: elements t
  | _ :: t => elements t
  end.

Fixpoint api_calls (t : list event) : list api_call :=
  match t with
  | [] => []
  | Api c :: t => c :: api_calls t
  | _ :: t => api_calls t
  end.

(** The assignments to [st.session_state], in order. *)
Fixpoint assignments (t : list event) : list assignment :=
  match t with
  | [] => []
  | Assign a :: t => a :: assignments t
  | _ :: t => assignments t
  end.

(** The session state after the assignments of a trace. *)
Fixpoint replay (t : list event) (s : SessionState) : SessionState :=
  match t with
  | [] => s
  | Assign a :: t => replay t (setattr a s)
  | _ :: t => replay t s
  end.

(** Where a run can be stopped.  A run does not end by itself only:
    when the user changes a widget while the script is running,
    Streamlit stops the script at its next call that sends an element to
    the browser, before the element is sent, and starts the new run.
    What the stopped run has assigned to [st.session_state] stays.
    [cuts t] lists what a run with trace [t] has done when it is
    stopped: the prefixes of [t] that end before an element. *)
Fixpoint cuts (t : list event) : list (list event) :=
  match t with
  | [] => []
  | Ui e :: t => [] :: (cons (Ui e) <$> cuts t)
  | x :: t => cons x <$> cuts t
  end.

(** The texts of the [st.error] boxes among some elements. *)
Fixpoint error_messages (l : list element) : list str :=
  match l with
  | [] => []
  | Error body :: l => body :: error_messages l
  | _ :: l => error_messages l
  end.

Definition drawn {A} (r : run A) : list element := elements (trace r).
Definition called {A} (r : run A) : list api_call := api_calls (trace r).

Definition script (A : Type) : Type := SessionState -> run A.

(** ** Sequencing *)

Definition ret {A} (a : A) : script A := fun s => Run (Done a) s [].

Definition bind {A B} (m : script A) (f : A -> script B) : script B :=
  fun s =>
    match m s with
    | Run (Done a) s1 t1 =>
        match f a s1 with
        | Run o s2 t2 => Run o s2 (t1 ++ t2)
        end
    | Run (Raised e) s1 t1 => Run (Raised e) s1 t1
    | Run Rerun s1 t1 => Run Rerun s1 t1
    end.

Declare Scope script_scope.
Delimit Scope script_scope with script.
Bind Scope script_scope with script.

Notation "x <- m ;; k" := (bind m (fun x => k))
  (at level 100, m at next level, right associativity) : script_scope.
Notation "m ;; k" := (bind m (fun _ => k))
  (at level 100, right associativity) : script_scope.

Local Open Scope script_scope.

(** ** Primitive effects *)

(** [raise e] *)
Definition raise {A} (e : exn) : script A := fun s => Run (Raised e) s [].

(** [st.rerun()] (line 163) *)
Definition rerun {A} : script A := fun s => Run Rerun s [].

(** An expression that returns or raises, with no other effect. *)
Definition eval {A} (r : result A) : script A :=
  fun s => Run (match r with Returns a => Done a | Raises e => Raised e end) s [].

(** A library call: it is recorded, then it returns or raises. *)
Definition call {A} (c : api_call) (r : result A) : script A :=
  fun s =>
    Run (match r with Returns a => Done a | Raises e => Raised e end) s [Api c].

(** Any [st.*] call that draws. *)
Definition draw (e : element) : script unit :=
  fun s => Run (Done tt) s [Ui e].

(** Reading and assigning [st.session_state]. *)
Definition read : script SessionState := fun s => Run (Done s) s [].

Definition assign (a : assignment) : script unit :=
  fun s => Run (Done tt) (setattr a s) [Assign a].

(** [try: m except Exception as e: h e] *)
Definition try_except {A} (m : script A) (h : exn -> script A) : script A :=
  fun s =>
    match m s with
    | Run (Raised e) s1 t1 =>
        match h e s1 with
        | Run o s2 t2 => Run o s2 (t1 ++ t2)
        end
    | r => r
    end.

(** [with c: body]: the exit runs however the body ends. *)
Definition with_ {A} (c : container) (body : script A) : script A :=
  fun s =>
    match body s with
    | Run o s1 t1 => Run o s1 (Ui (Enter c) :: t1 ++ [Ui (Exit c)])
    end.

(** ** Predicates on scripts *)

(** The script cannot end with a propagating exception. *)
Definition no_raise {A} (m : script A) : Prop :=
  forall s e, ended (m s) <> Raised e.

(** The script leaves the session state as it found it. *)
Definition pure_session {A} (m : script A) : Prop :=
  forall s, session (m s) = s.

(** The script assigns nothing. *)
Definition quiet {A} (m : script A) : Prop :=
  forall s, assignments (trace (m s)) = [] /\ session (m s) = s.

(** The script assigns before it draws: wherever the run is stopped,
    the session state is the one it leaves. *)
Definition committed {A} (m : script A) : Prop :=
  forall s, session (m s) = replay (trace (m s)) s /\
            forall p, p ∈ cuts (trace (m s)) -> replay p s = session (m s).

(** The script's assignments are one step for whoever can stop it: the
    trace accounts for the session state it leaves, and wherever the
    run is stopped the session state is the one it started in or the
    one it would have left. *)
Definition atomic {A} (m : script A) : Prop :=
  forall s, session (m s) = replay (trace (m s)) s /\
            forall p, p ∈ cuts (trace (m s)) ->
                      replay p s = s \/ replay p s = session (m s).

(** ** Runs that look the same to the user

    Two runs are equivalent when they end in the same way, leave the
    same session state and draw the same elements; the library calls
    they make may differ.  Two scripts are equivalent when their runs
    are, from every session state. *)
Definition same_view {A} (r1 r2 : run A) : Prop :=
  ended r1 = ended r2 /\ session r1 = session r2 /\ drawn r1 = drawn r2.

#[export] Instance run_equiv {A} : Equiv (run A) := same_view.

#[export] Instance script_equiv {A} : Equiv (script A) :=
  fun m1 m2 => forall s, m1 s ≡ m2 s.

(** ** Laws *)

Lemma run_eta {T} (r : run T) : Run (ended r) (session r) (trace r) = r.
Proof. by destruct r. Qed.

Section Laws.
Context {A B C : Type}.
Implicit Types (m : script A) (f : A -> script B) (g : B -> script C).

Lemma bind_ret_l (a : A) f s : bind (ret a) f s = f a s.
Proof. unfold bind, ret. by destruct (f a s). Qed.

Lemma bind_ret_r m s : bind m ret s = m s.
Proof.
  unfold bind, ret. destruct (m s) as [[a|e|] s' d]; by rewrite ?app_nil_r.
Qed.

Lemma bind_assoc m f g s :
  bind (bind m f) g s = bind m (fun a => bind (f a) g) s.
Proof.
  unfold bind. destruct (m s) as [[a|e|] s1 d1]; [|done..].
  destruct (f a s1) as [[b|e|] s2 d2]; [|done..].
  destruct (g b s2). by rewrite app_assoc.
Qed.

Lemma bind_Done m f s a :
  ended (m s) = Done a ->
  bind m f s = Run (ended (f a (session (m s)))) (session (f a (session (m s))))
                   (trace (m s) ++ trace (f a (session (m s)))).
Proof.
  unfold bind. destruct (m s) as [o s1 t1]. simpl. intros ->.
  by destruct (f a s1).
Qed.

Lemma bind_Raised m f s e :
  ended (m s) = Raised e ->
  bind m f s = Run (Raised e) (session (m s)) (trace (m s)).
Proof. unfold bind. destruct (m s). simpl. by intros ->. Qed.

Lemma bind_Rerun m f s :
  ended (m s) = Rerun -> bind m f s = Run Rerun (session (m s)) (trace (m s)).
Proof. unfold bind. destruct (m s). simpl. by intros ->. Qed.

(** How a sequence ends, what it leaves and what it does, from its
    two parts. *)
Lemma bind_ended m f s :
  ended (bind m f s) =
  match ended (m s) with
  | Done a => ended (f a (session (m s)))
  | Raised e => Raised e
  | Rerun => Rerun
  end.
Proof.
  unfold bind. destruct (m s) as [[a|e|] s1 t1]; simpl; [|done..].
  by destruct (f a s1).
Qed.

Lemma bind_session m f s :
  session (bind m f s) =
  match ended (m s) with
  | Done a => session (f a (session (m s)))
  | _ => session (m s)
  end.
Proof.
  unfold bind. destruct (m s) as [[a|e|] s1 t1]; simpl; [|done..].
  by destruct (f a s1).
Qed.

Lemma bind_trace m f s :
  trace (bind m f s) =
  match ended (m s) with
  | Done a => trace (m s) ++ trace (f a (session (m s)))
  | _ => trace (m s)
  end.
Proof.
  unfold bind. destruct (m s) as [[a|e|] s1 t1]; simpl; [|done..].
  by destruct (f a s1).
Qed.

(** What was done before a step stays in the trace after it. *)
Lemma bind_trace_prefix m f s : trace (m s) `prefix_of` trace (bind m f s).
Proof.
  unfold bind. destruct (m s) as [[a|e|] s1 t1]; simpl; [|done..].
  destruct (f a s1). by eexists.
Qed.
End Laws.

Section Handlers.
Context {A : Type}.
Implicit Types (m : script A) (h : exn -> script A).

Lemma try_except_Done m h s a : ended (m s) = Done a -> try_except m h s = m s.
Proof. unfold try_except. destruct (m s). simpl. by intros ->. Qed.

Lemma try_except_Rerun m h s : ended (m s) = Rerun -> try_except m h s = m s.
Proof. unfold try_except. destruct (m s). simpl. by intros ->. Qed.

Lemma try_except_Raised m h s e :
  ended (m s) = Raised e ->
  try_except m h s =
  Run (ended (h e (session (m s)))) (session (h e (session (m s))))
      (trace (m s) ++ trace (h e (session (m s)))).
Proof.
  unfold try_except. destruct (m s) as [o s1 t1]. simpl. intros ->.
  by destruct (h e s1).
Qed.

(** A handler that cannot raise makes the whole [try] unable to. *)
Lemma try_except_no_raise m h :
  (forall e, no_raise (h e)) -> no_raise (try_except m h).
Proof.
  intros Hh s e. unfold try_except.
  destruct (m s) as [[a|e'|] s1 t1]; try done.
  specialize (Hh e' s1 e). by destruct (h e' s1).
Qed.

Lemma with_ended c m s : ended (with_ c m s) = ended (m s).
Proof. unfold with_. by destruct (m s). Qed.

Lemma with_session c m s : session (with_ c m s) = session (m s).
Proof. unfold with_. by destruct (m s). Qed.

Lemma with_trace c m s :
  trace (with_ c m s) = Ui (Enter c) :: trace (m s) ++ [Ui (Exit c)].
Proof. unfold with_. by destruct (m s). Qed.
End Handlers.

Lemma no_raise_ret {A} (a : A) : no_raise (ret a).
Proof. by intros s e. Qed.

Lemma no_raise_draw e : no_raise (draw e).
Proof. by intros s e'. Qed.

Lemma no_raise_bind {A B} (m : script A) (f : A -> script B) :
  no_raise m -> (forall a, no_raise (f a)) -> no_raise (bind m f).
Proof.
  intros Hm Hf s e. unfold bind. specialize (Hm s).
  destruct (m s) as [[a|e'|] s1 t1]; [|by destruct (Hm e')|done].
  specialize (Hf a s1 e). by destruct (f a s1).
Qed.

Lemma pure_session_ret {A} (a : A) : pure_session (ret a).
Proof. by intros s. Qed.

Lemma pure_session_draw e : pure_session (draw e).
Proof. by intros s. Qed.

Lemma pure_session_raise {A} e : pure_session (@raise A e).
Proof. by intros s. Qed.

Lemma pure_session_call {A} c (r : result A) : pure_session (call c r).
Proof. by intros s. Qed.

Lemma pure_session_eval {A} (r : result A) : pure_session (eval r).
Proof. by intros s. Qed.

Lemma pure_session_bind {A B} (m : script A) (f : A -> script B) :
  pure_session m -> (forall a, pure_session (f a)) -> pure_session (bind m f).
Proof.
  intros Hm Hf s. unfold bind. specialize (Hm s).
  destruct (m s) as [[a|e|] s1 t1]; simpl in *; [|done..].
  specialize (Hf a s1). destruct (f a s1). simpl in *. congruence.
Qed.

Lemma pure_session_try {A} (m : script A) h :
  pure_session m -> (forall e, pure_session (h e)) ->
  pure_session (try_except m h).
Proof.
  intros Hm Hh s. unfold try_except. specialize (Hm s).
  destruct (m s) as [[a|e|] s1 t1]; simpl in *; [done| |done].
  specialize (Hh e s1). destruct (h e s1). simpl in *. congruence.
Qed.

Lemma pure_session_with {A} c (m : script A) :
  pure_session m -> pure_session (with_ c m).
Proof. intros Hm s. rewrite with_session. apply Hm. Qed.

Lemma elements_app t1 t2 : elements (t1 ++ t2) = elements t1 ++ elements t2.
Proof. induction t1 as [|[] t1 IH]; simpl; by rewrite ?IH. Qed.

Lemma api_calls_app t1 t2 : api_calls (t1 ++ t2) = api_calls t1 ++ api_calls t2.
Proof. induction t1 as [|[] t1 IH]; simpl; by rewrite ?IH. Qed.

Lemma error_messages_app l1 l2 :
  error_messages (l1 ++ l2) = error_messages l1 ++ error_messages l2.
Proof. induction l1 as [|[] l1 IH]; simpl; by rewrite ?IH. Qed.

(** ** Assignments and the points where a run can be stopped *)

Lemma assignments_app t1 t2 :
  assignments (t1 ++ t2) = assignments t1 ++ assignments t2.
Proof. induction t1 as [|[] t1 IH]; simpl; by rewrite ?IH. Qed.

Lemma replay_app t1 t2 s : replay (t1 ++ t2) s = replay t2 (replay t1 s).
Proof. revert s. induction t1 as [|[] t1 IH]; intros s; simpl; by rewrite ?IH. Qed.

Lemma replay_quiet t s : assignments t = [] -> replay t s = s.
Proof. induction t as [|[] t IH]; simpl; auto; done. Qed.

Lemma cuts_app t1 t2 : cuts (t1 ++ t2) = cuts t1 ++ ((t1 ++.) <$> cuts t2).
Proof.
  induction t1 as [|x t1 IH]; [symmetry; apply list_fmap_id|].
  assert (Hx : cons x <$> cuts (t1 ++ t2)
               = (cons x <$> cuts t1) ++ (((x :: t1) ++.) <$> cuts t2)).
  { by rewrite IH, fmap_app, <- list_fmap_compose. }
  destruct x; cbn [app cuts]; by rewrite Hx.
Qed.

(** The cuts of a trace are its prefixes that end before an element. *)
Lemma elem_of_cuts p t : p ∈ cuts t <-> exists e rest, t = p ++ Ui e :: rest.
Proof.
  revert p. induction t as [|x t IH]; intros p.
  { rewrite elem_of_nil. split; [done|]. intros (e & rest & H). by destruct p. }
  assert (Hx : p ∈ (cons x <$> cuts t)
               <-> exists p', p = x :: p' /\ exists e rest, t = p' ++ Ui e :: rest).
  { rewrite list_elem_of_fmap. by setoid_rewrite IH. }
  assert (Hc : (exists p', p = x :: p' /\ exists e rest, t = p' ++ Ui e :: rest)
               <-> p <> [] /\ exists e rest, x :: t = p ++ Ui e :: rest).
  { split.
    - intros (p' & -> & e & rest & ->). split; [done|]. by exists e, rest.
    - intros (Hp & e & rest & Ht). destruct p as [|y p']; [done|].
      injection Ht as -> ->. exists p'. split; [done|]. by exists e, rest. }
  destruct x as [e| |]; cbn [cuts]; rewrite ?elem_of_cons, Hx, Hc;
    (split; [intros H|intros (e' & rest & Ht)]).
  - destruct H as [->|[_ H]]; [by exists e, t|done].
  - destruct p; [by left|right]. split; [done|]. by exists e', rest.
  - by destruct H.
  - split; [by intros ->|]. by exists e', rest.
  - by destruct H.
  - split; [by intros ->|]. by exists e', rest.
Qed.

(** Stopping a trace without assignments leaves the session state as
    it was. *)
Lemma cuts_quiet t p s : assignments t = [] -> p ∈ cuts t -> replay p s = s.
Proof.
  intros Ht (e & rest & ->)%elem_of_cuts. rewrite assignments_app in Ht.
  apply app_eq_nil in Ht as [Hp _]. by apply replay_quiet.
Qed.

Section Quiet.
Context {A B : Type}.
Implicit Types (m : script A) (f : A -> script B).

Lemma quiet_pure m : quiet m -> pure_session m.
Proof. intros Hm s. apply Hm. Qed.

Lemma quiet_bind m f : quiet m -> (forall a, quiet (f a)) -> quiet (bind m f).
Proof.
  intros Hm Hf s. unfold bind. destruct (Hm s) as [Ht Hs].
  destruct (m s) as [[a|e|] s1 t1]; simpl in *; [|done..].
  destruct (Hf a s1) as [Ht2 Hs2]. destruct (f a s1). simpl in *.
  rewrite assignments_app, Ht, Ht2. split; [done|congruence].
Qed.

Lemma quiet_try m (h : exn -> script A) :
  quiet m -> (forall e, quiet (h e)) -> quiet (try_except m h).
Proof.
  intros Hm Hh s. unfold try_except. destruct (Hm s) as [Ht Hs].
  destruct (m s) as [[a|e|] s1 t1]; simpl in *; [done| |done].
  destruct (Hh e s1) as [Ht2 Hs2]. destruct (h e s1). simpl in *.
  rewrite assignments_app, Ht, Ht2. split; [done|congruence].
Qed.

Lemma quiet_with c m : quiet m -> quiet (with_ c m).
Proof.
  intros Hm s. rewrite with_session, with_trace. destruct (Hm s) as [Ht Hs].
  cbn [assignments]. by rewrite assignments_app, Ht.
Qed.

Lemma quiet_committed m : quiet m -> committed m.
Proof.
  intros Hm s. destruct (Hm s) as [Ht Hs]. rewrite Hs. split.
  - by rewrite replay_quiet.
  - intros p. by apply cuts_quiet.
Qed.

(** An assignment before a script that assigns before it draws. *)
Lemma committed_assign a m : committed m -> committed (assign a ;; m).
Proof.
  intros Hm s. unfold bind, assign. destruct (Hm (setattr a s)) as [Hs Hp].
  destruct (m (setattr a s)) as [o s1 t1]. simpl in *. split; [done|].
  intros p (p' & -> & Hin)%list_elem_of_fmap. by apply Hp.
Qed.

Lemma committed_atomic m : committed m -> atomic m.
Proof. intros Hm s. destruct (Hm s) as [Hs Hp]. split; [done|]. auto. Qed.

Lemma quiet_atomic m : quiet m -> atomic m.
Proof. intros Hm. by apply committed_atomic, quiet_committed. Qed.

(** A script that assigns nothing, then one whose assignments are one
    step; and the other way round. *)
Lemma atomic_bind_r m f : quiet m -> (forall a, atomic (f a)) -> atomic (bind m f).
Proof.
  intros Hm Hf s. unfold bind. destruct (Hm s) as [Ht Hs].
  destruct (m s) as [[a|e|] s1 t1]; simpl in *; subst s1;
    [|by split; [rewrite replay_quiet|intros p; left; by apply (cuts_quiet t1)]..].
  destruct (Hf a s) as [Hs2 Hp2]. destruct (f a s) as [o s2 t2]. simpl in *.
  rewrite replay_app, cuts_app, (replay_quiet t1) by done. split; [done|].
  intros p [Hin|(p2 & -> & Hin)%list_elem_of_fmap]%elem_of_app.
  - left. by apply (cuts_quiet t1).
  - rewrite replay_app, (replay_quiet t1) by done. by apply Hp2.
Qed.

Lemma atomic_bind_l m f : atomic m -> (forall a, quiet (f a)) -> atomic (bind m f).
Proof.
  intros Hm Hf s. unfold bind. destruct (Hm s) as [Hs Hp].
  destruct (m s) as [[a|e|] s1 t1]; simpl in *; [|done..].
  destruct (Hf a s1) as [Ht2 Hs2]. destruct (f a s1) as [o s2 t2]. simpl in *.
  subst s2. rewrite replay_app, cuts_app, <- Hs, (replay_quiet t2) by done.
  split; [done|].
  intros p [Hin|(p2 & -> & Hin)%list_elem_of_fmap]%elem_of_app; [by apply Hp|].
  right. rewrite replay_app, <- Hs. by apply (cuts_quiet t2).
Qed.

Lemma atomic_with c m : atomic m -> atomic (with_ c m).
Proof.
  intros Hm s. rewrite with_session, with_trace. destruct (Hm s) as [Hs Hp].
  cbn [replay cuts]. rewrite replay_app, cuts_app. cbn [replay cuts fmap list_fmap].
  split; [done|]. intros p. rewrite elem_of_cons, list_elem_of_fmap.
  intros [->|(p' & -> & [Hin|Hin%list_elem_of_singleton]%elem_of_app)];
    cbn [replay]; [by left|by apply Hp|].
  subst p'. right. by rewrite app_nil_r.
Qed.

End Quiet.

Lemma quiet_ret {A} (a : A) : quiet (ret a).
Proof. by intros s. Qed.

Lemma quiet_draw e : quiet (draw e).
Proof. by intros s. Qed.

Lemma quiet_raise {A} e : quiet (@raise A e).
Proof. by intros s. Qed.

Lemma quiet_rerun {A} : quiet (@rerun A).
Proof. by intros s. Qed.

Lemma quiet_call {A} c (r : result A) : quiet (call c r).
Proof. by intros s. Qed.

Lemma quiet_eval {A} (r : result A) : quiet (eval r).
Proof. by intros s. Qed.

Lemma quiet_read : quiet read.
Proof. by intros s. Qed.

(** ** The equivalence and the operations that respect it *)

#[export] Instance run_equivalence {A} : Equivalence (≡@{run A}).
Proof.
  split; [by intros r | by intros r1 r2 (? & ? & ?) |].
  intros r1 r2 r3 (? & ? & ?) (? & ? & ?). split_and!; congruence.
Qed.

#[export] Instance script_equivalence {A} : Equivalence (≡@{script A}).
Proof.
  split; [by intros m s | by intros m1 m2 H s |].
  intros m1 m2 m3 H12 H23 s. by rewrite (H12 s).
Qed.

#[export] Instance ended_proper {A} : Proper ((≡) ==> (=)) (@ended A).
Proof. by intros r1 r2 (? & ? & ?). Qed.

#[export] Instance session_proper {A} : Proper ((≡) ==> (=)) (@session A).
Proof. by intros r1 r2 (? & ? & ?). Qed.

#[export] Instance drawn_proper {A} : Proper ((≡) ==> (=)) (@drawn A).
Proof. by intros r1 r2 (? & ? & ?). Qed.

Lemma drawn_Run {A} (o : outcome A) s t : drawn (Run o s t) = elements t.
Proof. reflexivity. Qed.

(** Sequencing respects the equivalence. *)
#[export] Instance bind_proper {A B} :
  Proper ((≡) ==> pointwise_relation A (≡) ==> (≡)) (@bind A B).
Proof.
  intros m1 m2 Hm f1 f2 Hf s. destruct (Hm s) as (He & Hs & Hd).
  unfold drawn in Hd.
  split_and!; unfold drawn;
    rewrite ?bind_ended, ?bind_session, ?bind_trace, <- He;
    destruct (ended (m1 s)) as [a| |]; try done; rewrite <- Hs;
    destruct (Hf a (session (m1 s))) as (He2 & Hs2 & Hd2);
    unfold drawn in *; rewrite ?elements_app; congruence.
Qed.

(** So do [with] blocks and handlers. *)
#[export] Instance with_proper {A} c : Proper ((≡) ==> (≡)) (@with_ A c).
Proof.
  intros m1 m2 Hm s. destruct (Hm s) as (He & Hs & Hd).
  split_and!; [by rewrite !with_ended | by rewrite !with_session |].
  unfold drawn in *. rewrite !with_trace. cbn [elements].
  by rewrite !elements_app, Hd.
Qed.

#[export] Instance try_except_proper {A} :
  Proper ((≡) ==> pointwise_relation exn (≡) ==> (≡)) (@try_except A).
Proof.
  intros m1 m2 Hm h1 h2 Hh s. destruct (Hm s) as (He & Hs & Hd).
  unfold try_except. destruct (m1 s) as [o1 s1 t1], (m2 s) as [o2 s2 t2].
  simpl in He, Hs. rewrite drawn_Run in Hd. subst o2 s2.
  destruct o1 as [a|e|]; [done| |done].
  destruct (Hh e s1) as (He' & Hs' & Hd').
  destruct (h1 e s1) as [o3 s3 t3], (h2 e s1) as [o4 s4 t4].
  simpl in He', Hs'. rewrite drawn_Run in Hd'. subst o4 s4.
  split_and!; [done..|]. by rewrite !drawn_Run, !elements_app, Hd, Hd'.
Qed.

(** [run_script defs]: unfold the monad and the definitions [defs] in
    the goal, without evaluating any string. *)
Ltac unfold_script :=
  cbv beta iota zeta delta
    [try_except bind call eval with_ draw ret raise rerun read assign
     drawn called ended session trace].

(** [split_scrutinee]: case analysis on the test the run is stuck on. *)
Ltac split_scrutinee :=
  match goal with
  | |- context [if ?b then _ else _] => destruct b eqn:?
  | |- context [match ?o with Some _ => _ | None => _ end] => destruct o eqn:?
  | |- context [match ?r with Returns _ => _ | Raises _ => _ end] =>
      destruct r eqn:?
  | |- context [match ?r with inl _ => _ | inr _ => _ end] => destruct r eqn:?
  end.

Ltac split_result :=
  match goal with
  | |- context [match ?r with Returns _ => _ | Raises _ => _ end] =>
      destruct r eqn:?
  end.

Ltac tidy_trace := cbn [elements api_calls error_messages app].

(** [quiet_script]: the script in the goal assigns nothing, by its
    structure and what is known of its parts (hints of [py]). *)
Ltac quiet_script :=
  repeat first
    [ progress intros
    | solve [auto 1 with py]
    | simple apply quiet_bind
    | simple apply quiet_try
    | simple apply quiet_with
    | case_match ].

(** [atomic_script]: the assignments of the script in the goal are one
    step: it is quiet, or a quiet part before or after a part whose
    assignments are one step. *)
Ltac atomic_script :=
  repeat first
    [ progress intros
    | solve [auto 1 with py]
    | apply quiet_atomic; solve [quiet_script]
    | simple apply atomic_bind_r; [solve [quiet_script]|]
    | simple apply atomic_bind_l; [|solve [quiet_script]]
    | simple apply atomic_with
    | case_match ].

#[export] Hint Resolve no_raise_ret no_raise_draw no_raise_bind
  pure_session_ret pure_session_draw pure_session_raise pure_session_call
  pure_session_eval
  pure_session_bind pure_session_try pure_session_with
  quiet_ret quiet_draw quiet_raise quiet_rerun quiet_call quiet_eval quiet_read
  quiet_bind quiet_try quiet_with : py.
