(* ===== verification/ImageClient.v ===== *)
(** * ImageClient: [create_openai_client] and [generate_mandala_image]
      (src/MandalaArt.py, lines 57-64 and 83-114)

    [generate_mandala_image] builds the client, builds the prompt, asks
    for one image, takes the locator of the first result, fetches it,
    checks the HTTP status and decodes the bytes.  Everything sits in
    one [try]; any [Exception] is reported with [st.error] and the
    function returns [(None, None)].

    [generate] is the contract of section 4.2 of the specification
    written as a function of the libraries' answers, with its four kinds
    of failure.  [generate_mandala_image_refines] states that the code
    implements it: same result, session state untouched, and a page that
    is a function of the contract's answer alone.  [pending_calls]
    reads off a trace which library calls are made while the spinner is
    on the page: the generation request and no other.  The function
    assigns nothing to [st.session_state], and the body of a download
    is decoded exactly when its status is outside 400-599. *)

From stdpp Require Import base tactics list numbers strings.
From S2P Require Import Prelude PyStr Prompt World Session Script.

Local Open Scope script_scope.

(** ** Literals *)

(** U+274C, the cross mark that opens both error messages. *)
Definition cross_mark : str := [0x274C%N].

(** U+1F3A8, the artist palette. *)
Definition palette : str := [0x1F3A8%N].

(** [f"❌ Error with API key: {str(e)}"] (line 63) *)
Definition api_key_error (e : exn) : str :=
  cross_mark ++ lit " Error with API key: " ++ exn_str e.

(** [f"❌ Error generating image: {str(e)}"] (line 113) *)
Definition generating_error (e : exn) : str :=
  cross_mark ++ lit " Error generating image: " ++ exn_str e.

(** [f"🎨 Creating your '{inspiration_word}' mandala... This may take a
    few moments"] (line 92) *)
Definition spinner_text (inspiration_word : str) : str :=
  palette ++ lit " Creating your '" ++ inspiration_word
  ++ lit "' mandala... This may take a few moments".

(** The keyword arguments of lines 94-98. *)
Definition generate_args (prompt : str) : GenerateArgs :=
  {| gen_model := lit "dall-e-3";
     gen_prompt := prompt;
     gen_size := lit "1024x1024";
     gen_quality := lit "standard";
     gen_n := 1 |}.

(** ** The contract (specification, section 4.2) *)

Inductive failure :=
| AuthError (e : exn)          (* the client could not be built *)
| GenerationError (e : exn)    (* no asset was produced, or no locator *)
| FetchError (e : exn)         (* the asset could not be retrieved *)
| DecodeError (e : exn).       (* the bytes are not an image *)

Section Client.
Context `{!OpenAIApi, !RequestsApi, !PillowApi}.

(** [generate(credential, prompt) -> Result<DecodedImage, Error>] *)
Definition generate (credential prompt : str) : failure + Image :=
  match openai_OpenAI credential with
  | Raises e => inl (AuthError e)
  | Returns client =>
  match images_generate client (generate_args prompt) with
  | Raises e => inl (GenerationError e)
  | Returns response =>
  match first_datum response with
  | Raises e => inl (GenerationError e)
  | Returns datum =>
  match requests_get (url datum) with
  | Raises e => inl (FetchError e)
  | Returns img_response =>
  match raise_for_status img_response with
  | Raises e => inl (FetchError e)
  | Returns _ =>
  match Image_open (content img_response) with
  | Raises e => inl (DecodeError e)
  | Returns image => inr image
  end end end end end end.

(** ** The code *)

(** Lines 57-64. *)
Definition create_openai_client (api_key : str) : script (option Client) :=
  try_except
    (client <- call (OpenAI_new api_key) (openai_OpenAI api_key) ;;
     ret (Some client))
    (fun e =>
       draw (Error (api_key_error e)) ;;
       ret None).

(** Lines 83-114. *)
Definition generate_mandala_image (api_key inspiration_word : str)
  : script (option Image * option str) :=
  try_except
    (client <- create_openai_client api_key ;;
     match client with
     | None => ret (None, None)
     | Some client =>
         let prompt := generate_mandala_prompt inspiration_word in
         response <-
           with_ (Spinner (spinner_text inspiration_word))
             (call (Images_generate client (generate_args prompt))
                   (images_generate client (generate_args prompt))) ;;
         datum <- eval (first_datum response) ;;
         let image_url := url datum in
         img_response <- call (Requests_get image_url)
                              (requests_get image_url) ;;
         eval (raise_for_status img_response) ;;
         image <- call (Image_open_of (content img_response))
                       (Image_open (content img_response)) ;;
         ret (Some image, Some prompt)
     end)
    (fun e =>
       draw (Error (generating_error e)) ;;
       ret (None, None)).

(** ** What the contract's answer looks like to the caller *)

(** The pair the function returns. *)
Definition returned (prompt : str) (r : failure + Image)
  : option Image * option str :=
  match r with
  | inr image => (Some image, Some prompt)
  | inl _ => (None, None)
  end.

(** The elements the function draws. *)
Definition reported (inspiration_word : str) (r : failure + Image)
  : list element :=
  let spin := Spinner (spinner_text inspiration_word) in
  match r with
  | inr _ => [Enter spin; Exit spin]
  | inl (AuthError e) => [Error (api_key_error e)]
  | inl (GenerationError e) | inl (FetchError e) | inl (DecodeError e) =>
      [Enter spin; Exit spin; Error (generating_error e)]
  end.

(** The text of the [st.error] box a failure is reported with. *)
Definition failure_message (f : failure) : str :=
  match f with
  | AuthError e => api_key_error e
  | GenerationError e | FetchError e | DecodeError e => generating_error e
  end.

(** Everything the function does, in order: its trace does not depend
    on the session state it is started in. *)
Definition client_trace (api_key inspiration_word : str) : list event :=
  trace (generate_mandala_image api_key inspiration_word new_session).

(** The library calls made while a spinner is on the page: [open]
    counts the spinners entered and not yet left. *)
Fixpoint pending_calls (open : nat) (t : list event) : list api_call :=
  match t with
  | [] => []
  | Ui (Enter (Spinner _)) :: t => pending_calls (S open) t
  | Ui (Exit (Spinner _)) :: t => pending_calls (pred open) t
  | Ui _ :: t => pending_calls open t
  | Api c :: t =>
      match open with
      | O => pending_calls open t
      | S _ => c :: pending_calls open t
      end
  | Assign _ :: t => pending_calls open t
  end.

(** How many of the four library calls are made. *)
Definition calls_made (r : failure + Image) : nat :=
  match r with
  | inl (AuthError _) => 1
  | inl (GenerationError _) => 2
  | inl (FetchError _) => 3
  | inl (DecodeError _) | inr _ => 4
  end.
End Client.

(** [run_client]: unfold one run of the client and split on the answer
    of every library call, in program order. *)
Ltac run_client :=
  cbv beta iota zeta delta
    [generate_mandala_image create_openai_client generate returned reported
     calls_made];
  unfold_script; repeat (split_result; unfold_script); tidy_trace.

Section ClientFacts.
Context `{!OpenAIApi, !RequestsApi, !PillowApi}.
Implicit Types (api_key word : str) (s : SessionState).

(** ** The run as one equation *)

(** The whole run: the pair of the contract's answer, the session state
    it was started in, and a trace that does not depend on that state. *)
Lemma generate_mandala_image_run api_key word s :
  generate_mandala_image api_key word s =
  Run (Done (returned (generate_mandala_prompt word)
               (generate api_key (generate_mandala_prompt word))))
      s (client_trace api_key word).
Proof. unfold client_trace. run_client; done. Qed.

Lemma client_trace_elements api_key word :
  elements (client_trace api_key word)
  = reported word (generate api_key (generate_mandala_prompt word)).
Proof. unfold client_trace. run_client; done. Qed.

(** Two keys that obtain the same answer give runs that look the same:
    only the recorded library calls differ. *)
Lemma generate_mandala_image_same api_key1 api_key2 word :
  generate api_key1 (generate_mandala_prompt word)
  = generate api_key2 (generate_mandala_prompt word) ->
  generate_mandala_image api_key1 word ≡ generate_mandala_image api_key2 word.
Proof.
  intros Hg s. rewrite !generate_mandala_image_run.
  split_and!; [simpl; by rewrite Hg | done |].
  by rewrite !drawn_Run, !client_trace_elements, Hg.
Qed.

Lemma generate_mandala_image_quiet api_key word :
  quiet (generate_mandala_image api_key word).
Proof. unfold generate_mandala_image, create_openai_client. quiet_script. Qed.

Lemma client_trace_assignments api_key word :
  assignments (client_trace api_key word) = [].
Proof. apply (generate_mandala_image_quiet api_key word new_session). Qed.

Lemma generate_mandala_image_session api_key word :
  pure_session (generate_mandala_image api_key word).
Proof. apply quiet_pure, generate_mandala_image_quiet. Qed.

(** Once the client object exists, the function enters the spinner,
    calls [images.generate] and leaves the spinner, whatever the call
    answers. *)
Lemma client_trace_spinner api_key word client :
  openai_OpenAI api_key = Returns client ->
  exists rest,
    client_trace api_key word =
    [Api (OpenAI_new api_key); Ui (Enter (Spinner (spinner_text word)));
     Api (Images_generate client
            (generate_args (generate_mandala_prompt word)))]
    ++ Ui (Exit (Spinner (spinner_text word))) :: rest.
Proof.
  intros Hc. unfold client_trace. run_client; simplify_eq; by eexists.
Qed.

(** ** Refinement *)

(** C2: the code implements the contract.  For every key, word and
    session state, the run ends normally with the pair that
    corresponds to the contract's answer, leaves the session state
    untouched, and draws exactly the elements determined by that
    answer. *)
Theorem generate_mandala_image_refines api_key word s :
  let r := generate_mandala_image api_key word s in
  let spec := generate api_key (generate_mandala_prompt word) in
  ended r = Done (returned (generate_mandala_prompt word) spec) /\
  session r = s /\
  drawn r = reported word spec.
Proof.
  cbn zeta. rewrite generate_mandala_image_run. unfold drawn. cbn [ended session trace].
  by rewrite client_trace_elements.
Qed.

(** The function never lets an exception escape and never asks for
    a rerun. *)
Theorem generate_mandala_image_total api_key word s :
  exists image prompt,
    ended (generate_mandala_image api_key word s) = Done (image, prompt).
Proof.
  rewrite generate_mandala_image_run. cbn [ended].
  destruct (returned _ _); eauto.
Qed.

(** image and prompt come together or not at all, and the prompt
    is the one built from the word. *)
Theorem generate_mandala_image_pair api_key word s image prompt :
  ended (generate_mandala_image api_key word s) = Done (image, prompt) ->
  (image = None /\ prompt = None) \/
  (exists img, image = Some img /\
               prompt = Some (generate_mandala_prompt word)).
Proof.
  rewrite generate_mandala_image_run. cbn [ended].
  destruct (generate _ _); simpl; intros [= <- <-]; eauto.
Qed.

(** C36: a failure draws exactly one [st.error], whose text is the
    fixed prefix followed by [str(e)]; a success draws none. *)
Theorem generate_mandala_image_errors api_key word s :
  error_messages (drawn (generate_mandala_image api_key word s))
  = match generate api_key (generate_mandala_prompt word) with
    | inl f => [failure_message f]
    | inr _ => []
    end.
Proof.
  rewrite generate_mandala_image_run. unfold drawn. cbn [trace].
  rewrite client_trace_elements. by destruct (generate _ _) as [[]|].
Qed.

(** ** Call discipline *)

(** C35: the library calls are made in the fixed order constructor,
    generation, fetch, decode, each at most once; the generation
    request carries the fixed parameters (one image, 1024x1024,
    standard quality, dall-e-3) and the prompt of the word. *)
Theorem generate_mandala_image_calls api_key word s :
  exists client image_url content,
    called (generate_mandala_image api_key word s) =
    take (calls_made (generate api_key (generate_mandala_prompt word)))
      [OpenAI_new api_key;
       Images_generate client
         (generate_args (generate_mandala_prompt word));
       Requests_get image_url;
       Image_open_of content].
Proof.
  run_client; cbn [take]; unshelve (eexists _, _, _; reflexivity);
    first [exact (Build_Client []) | exact None | exact []].
Qed.

(** C32: The spinner covers the generation request and nothing else: the
    constructor runs before it is shown, and the download and the
    decoding of the image run after it was taken down. *)
Theorem spinner_covers_generation api_key word s :
  exists client,
    pending_calls 0 (trace (generate_mandala_image api_key word s)) =
    match generate api_key (generate_mandala_prompt word) with
    | inl (AuthError _) => []
    | _ => [Images_generate client
              (generate_args (generate_mandala_prompt word))]
    end.
Proof.
  run_client; cbn [pending_calls pred]; unshelve (eexists _; reflexivity);
    exact (Build_Client []).
Qed.

(** C37: Which statuses count as a failed download.  When [requests.get]
    returns a response, its body is handed to [Image.open] exactly when
    the status is outside 400-599: a response that is no success and no
    error for [raise_for_status] (a 304, a 204 with its empty body) is
    decoded like a 200. *)
Theorem download_status_checked api_key word s client response datum r :
  openai_OpenAI api_key = Returns client ->
  images_generate client (generate_args (generate_mandala_prompt word))
  = Returns response ->
  first_datum response = Returns datum ->
  requests_get (url datum) = Returns r ->
  Image_open_of (content r) ∈ called (generate_mandala_image api_key word s)
  <-> ~ (400 <= status_code r < 600)%N.
Proof.
  intros Hc Hg Hd Hr. unfold called. rewrite generate_mandala_image_run.
  unfold client_trace. cbn [trace]. run_client; repeat progress same_answer.
  1,2: match goal with
       | H : raise_for_status _ = Returns ?u |- _ =>
           destruct u; apply raise_for_status_Returns in H
       end; (split; [lia|intros _; find_elem]).
  match goal with
  | H : raise_for_status _ = Raises _ |- _ =>
      apply raise_for_status_Raises in H as [Hs _]
  end.
  split; [miss_elem|tauto].
Qed.

End ClientFacts.

#[export] Hint Resolve generate_mandala_image_quiet : py.
