(* ===== verification/Base64.v ===== *)
(** * Base64: [base64.b64encode] as called on line 120

    The download link embeds the PNG bytes as a [data:] URL, encoded with
    the standard alphabet of RFC 4648 and padded with [=].  The encoder
    takes three bytes at a time and emits four characters, each indexed
    by six bits; a final group of one or two bytes is padded.

    [b64decode] is the decoder of the same RFC, which the browser
    applies to the [data:] URL when the link is followed.

    [b64encode_rfc] is the encoding as the RFC describes it, on the
    stream of bits cut into groups of six.

    Theorems: the encoder computes what the RFC describes; the output
    length is [4 * ceil(n / 3)]; every output
    character belongs to the alphabet or is the padding sign, hence is
    printable ASCII and can neither close the [href="..."] attribute nor
    fail to decode as UTF-8 (line 120's [.decode()]); decoding the
    output gives back the bytes that were encoded. *)

From stdpp Require Import base tactics list numbers strings.
From Stdlib Require Import Lia ZifyBool ZifyN.
From S2P Require Import Prelude PyStr World Utf8.

Local Open Scope N_scope.

(** ** Definitions *)

(** The 64 characters, in index order. *)
Definition b64_alphabet : str :=
  lit "ABCDEFGHIJKLMNOPQRSTUVWXYZabcdefghijklmnopqrstuvwxyz0123456789+/".

(** The padding sign [=]. *)
Definition b64_pad : N := 61.

(** The character for a six-bit value. *)
Definition b64_char (i : N) : N := nth (N.to_nat i) b64_alphabet b64_pad.

(** The four six-bit values of a group of three bytes. *)
Definition sextet0 (a : N) : N := N.shiftr a 2.
Definition sextet1 (a b : N) : N :=
  N.lor (N.shiftl (N.land a 3) 4) (N.shiftr b 4).
Definition sextet2 (b c : N) : N :=
  N.lor (N.shiftl (N.land b 15) 2) (N.shiftr c 6).
Definition sextet3 (c : N) : N := N.land c 63.

Fixpoint b64encode (s : bytes) : bytes :=
  match s with
  | [] => []
  | [a] =>
      [b64_char (sextet0 a); b64_char (sextet1 a 0); b64_pad; b64_pad]
  | [a; b] =>
      [b64_char (sextet0 a); b64_char (sextet1 a b);
       b64_char (sextet2 b 0); b64_pad]
  | a :: b :: c :: rest =>
      b64_char (sextet0 a) :: b64_char (sextet1 a b)
      :: b64_char (sextet2 b c) :: b64_char (sextet3 c)
      :: b64encode rest
  end.

(** A character of the alphabet, or the padding sign. *)
Definition b64_symbol (c : N) : bool :=
  (65 <=? c) && (c <=? 90) || (97 <=? c) && (c <=? 122)
  || (48 <=? c) && (c <=? 57) || (c =? 43) || (c =? 47) || (c =? 61).

(** ** The decoder

    The six-bit value of a character of the alphabet. *)
Definition b64_index (c : N) : option N :=
  if (65 <=? c) && (c <=? 90) then Some (c - 65)
  else if (97 <=? c) && (c <=? 122) then Some (c - 71)
  else if (48 <=? c) && (c <=? 57) then Some (c + 4)
  else if c =? 43 then Some 62
  else if c =? 47 then Some 63
  else None.

(** The three bytes of four six-bit values. *)
Definition octet0 (i0 i1 : N) : N := N.lor (N.shiftl i0 2) (N.shiftr i1 4).
Definition octet1 (i1 i2 : N) : N :=
  N.lor (N.shiftl (N.land i1 15) 4) (N.shiftr i2 2).
Definition octet2 (i2 i3 : N) : N := N.lor (N.shiftl (N.land i2 3) 6) i3.

(** Four characters at a time; padding is accepted in the last group
    only. *)
Fixpoint b64decode (s : str) : option bytes :=
  match s with
  | [] => Some []
  | c0 :: c1 :: c2 :: c3 :: rest =>
      match b64_index c0, b64_index c1 with
      | Some i0, Some i1 =>
          if c2 =? b64_pad then
            if (c3 =? b64_pad) && bool_decide (rest = [])
            then Some [octet0 i0 i1] else None
          else
            match b64_index c2 with
            | None => None
            | Some i2 =>
                if c3 =? b64_pad then
                  if bool_decide (rest = [])
                  then Some [octet0 i0 i1; octet1 i1 i2] else None
                else
                  match b64_index c3, b64decode rest with
                  | Some i3, Some r =>
                      Some (octet0 i0 i1 :: octet1 i1 i2 :: octet2 i2 i3 :: r)
                  | _, _ => None
                  end
            end
      | _, _ => None
      end
  | _ => None
  end.

(** ** The encoder as RFC 4648 describes it

    The input is a stream of bits, every byte with its most significant
    bit first.  The stream is cut into groups of six bits, the last one
    filled up with zero bits; each group is the index of a character of
    the alphabet; [=] signs bring the output to a multiple of four
    characters. *)
Definition bits8 (a : N) : list bool :=
  N.testbit a <$> [7; 6; 5; 4; 3; 2; 1; 0].

(** The number a list of bits denotes, most significant bit first. *)
Definition bits_value (bits : list bool) : N :=
  foldl (fun acc b => 2 * acc + N.b2n b) 0 bits.

Fixpoint sixes (bits : list bool) : list (list bool) :=
  match bits with
  | [] => []
  | b0 :: b1 :: b2 :: b3 :: b4 :: b5 :: rest =>
      [b0; b1; b2; b3; b4; b5] :: sixes rest
  | short => [take 6 (short ++ replicate 6 false)]
  end.

Fixpoint b64_padding (s : bytes) : str :=
  match s with
  | [] => []
  | [_] => [b64_pad; b64_pad]
  | [_; _] => [b64_pad]
  | _ :: _ :: _ :: rest => b64_padding rest
  end.

Definition b64encode_rfc (s : bytes) : str :=
  (b64_char ∘ bits_value <$> sixes (s ≫= bits8)) ++ b64_padding s.

(** [div_mod_lia]: linear arithmetic with division and remainder by
    constants. *)
Ltac div_mod_lia := Zify.zify; Z.to_euclidean_division_equations; lia.

(** ** Induction three bytes at a time *)

Lemma list_ind3 {A} (P : list A -> Prop) :
  P [] -> (forall a, P [a]) -> (forall a b, P [a; b]) ->
  (forall a b c l, P l -> P (a :: b :: c :: l)) ->
  forall l, P l.
Proof.
  intros H0 H1 H2 H3 l.
  assert (H : P l /\ (forall a, P (a :: l)) /\ (forall a b, P (a :: b :: l))).
  { induction l as [|x l (IH0 & IH1 & IH2)]; [by auto|].
    split_and!; auto. }
  apply H.
Qed.

(** ** Test vectors (RFC 4648, section 10) *)

Example b64_rfc_f : b64encode (lit "f") = lit "Zg==".
Proof. vm_compute. reflexivity. Qed.

Example b64_rfc_fo : b64encode (lit "fo") = lit "Zm8=".
Proof. vm_compute. reflexivity. Qed.

Example b64_rfc_foo : b64encode (lit "foo") = lit "Zm9v".
Proof. vm_compute. reflexivity. Qed.

Example b64_rfc_foobar : b64encode (lit "foobar") = lit "Zm9vYmFy".
Proof. vm_compute. reflexivity. Qed.

(** The first eight bytes of every PNG file. *)
Example b64_png_signature :
  b64encode [137; 80; 78; 71; 13; 10; 26; 10] = lit "iVBORw0KGgo=".
Proof. vm_compute. reflexivity. Qed.

(** ** Facts *)

(** Every index, in range or not, yields a symbol. *)
Lemma b64_char_symbol i : b64_symbol (b64_char i) = true.
Proof.
  unfold b64_char.
  destruct (decide (N.to_nat i < 64)%nat) as [Hi|Hi].
  - assert (H : forallb (fun k => b64_symbol (nth k b64_alphabet b64_pad))
                        (seq 0 64) = true) by (vm_compute; reflexivity).
    rewrite forallb_forall in H. apply H, in_seq. lia.
  - rewrite nth_overflow; [done|]. unfold b64_alphabet.
    rewrite lit_length. simpl. lia.
Qed.

Lemma b64_symbol_printable c : b64_symbol c = true -> 43 <= c <= 122.
Proof. unfold b64_symbol. lia. Qed.

(** The output is made of symbols only. *)
Theorem b64encode_symbols s : forallb b64_symbol (b64encode s) = true.
Proof.
  induction s as [|a|a b|a b c l IH] using list_ind3;
    cbn [b64encode forallb]; rewrite ?b64_char_symbol, ?IH; done.
Qed.

(** Four characters for every started group of three bytes. *)
Theorem b64encode_length s :
  length (b64encode s) = (4 * ((length s + 2) / 3))%nat.
Proof.
  induction s as [|a|a b|a b c l IH] using list_ind3; try done.
  cbn [b64encode length]. rewrite IH.
  replace (S (S (S (length l))) + 2)%nat with (1 * 3 + (length l + 2))%nat by lia.
  rewrite Nat.div_add_l by lia. lia.
Qed.

Lemma b64_char_alphabet i : b64_char i ∈ b64_alphabet \/ b64_char i = b64_pad.
Proof.
  unfold b64_char.
  destruct (decide (N.to_nat i < length b64_alphabet)%nat) as [Hi|Hi].
  - left. by apply list_elem_of_In, nth_In.
  - right. apply nth_overflow. lia.
Qed.

(** every character of the base64 text belongs to the alphabet of
    RFC 4648 or is the padding sign. *)
Theorem b64encode_alphabet s :
  Forall (fun c => c ∈ b64_alphabet \/ c = b64_pad) (b64encode s).
Proof.
  induction s as [|a|a b|a b c l IH] using list_ind3; cbn [b64encode];
    repeat first [ apply Forall_nil_2 | apply Forall_cons_2 | exact IH
                 | apply b64_char_alphabet | by right ].
Qed.

(** Every character of the base64 text is ASCII. *)
Corollary b64encode_ascii s : is_ascii (b64encode s) = true.
Proof.
  unfold is_ascii. apply forallb_forall. intros c Hc.
  pose proof (b64encode_symbols s) as H. rewrite forallb_forall in H.
  apply H, b64_symbol_printable in Hc. lia.
Qed.

(** The [.decode()] of line 120 never raises and changes nothing:
    [img_str] has the characters of the base64 text. *)
Lemma decode_b64encode s : decode (b64encode s) = Returns (b64encode s).
Proof. apply decode_ascii, b64encode_ascii. Qed.

(** No output character is a double quote: the encoded text cannot end
    the attribute it is placed in. *)
Lemma b64encode_not_elem c s : b64_symbol c = false -> c ∉ b64encode s.
Proof.
  intros Hc Hin%list_elem_of_In.
  pose proof (b64encode_symbols s) as H. rewrite forallb_forall in H.
  apply H in Hin. congruence.
Qed.

Corollary b64encode_no_quote s : 34 ∉ b64encode s.
Proof. by apply b64encode_not_elem. Qed.

(** ** Bit operations as arithmetic *)

Lemma land_shiftl_low x y k : y < 2 ^ k -> N.land (N.shiftl x k) y = 0.
Proof.
  intros Hy. apply N.bits_inj. intros i. rewrite N.land_spec, N.bits_0.
  destruct (N.lt_ge_cases i k) as [Hi|Hi].
  - by rewrite N.shiftl_spec_low.
  - rewrite <- (N.mod_small y (2 ^ k)) by done.
    by rewrite N.mod_pow2_bits_high, andb_false_r.
Qed.

(** Or-ing below a shifted value adds. *)
Lemma lor_shiftl_add x y k :
  y < 2 ^ k -> N.lor (N.shiftl x k) y = x * 2 ^ k + y.
Proof.
  intros Hy. rewrite <- N.shiftl_mul_pow2.
  by rewrite <- N.lxor_lor, <- N.add_nocarry_lxor by by apply land_shiftl_low.
Qed.

(** [bits_to_arith]: masks, shifts and ors of the encoder as remainders,
    quotients and sums. *)
Ltac bits_to_arith :=
  try change 3 with (N.ones 2); try change 15 with (N.ones 4);
  try change 63 with (N.ones 6);
  rewrite ?N.land_ones, ?N.shiftr_div_pow2, ?lor_shiftl_add;
  try change (2 ^ 2) with 4; try change (2 ^ 4) with 16;
  try change (2 ^ 6) with 64;
  try div_mod_lia.

Lemma sextet0_eq a : sextet0 a = a / 4.
Proof. unfold sextet0. by bits_to_arith. Qed.

Lemma sextet1_eq a b : b < 256 -> sextet1 a b = a mod 4 * 16 + b / 16.
Proof. intros Hb. unfold sextet1. by bits_to_arith. Qed.

Lemma sextet2_eq b c : c < 256 -> sextet2 b c = b mod 16 * 4 + c / 64.
Proof. intros Hc. unfold sextet2. by bits_to_arith. Qed.

Lemma sextet3_eq c : sextet3 c = c mod 64.
Proof. unfold sextet3. by bits_to_arith. Qed.

Lemma octet0_eq i0 i1 : i1 < 64 -> octet0 i0 i1 = i0 * 4 + i1 / 16.
Proof. intros H. unfold octet0. by bits_to_arith. Qed.

Lemma octet1_eq i1 i2 : i2 < 64 -> octet1 i1 i2 = i1 mod 16 * 16 + i2 / 4.
Proof. intros H. unfold octet1. by bits_to_arith. Qed.

Lemma octet2_eq i2 i3 : i3 < 64 -> octet2 i2 i3 = i2 mod 4 * 64 + i3.
Proof. intros H. unfold octet2. by bits_to_arith. Qed.

(** The four six-bit values of three bytes are below 64. *)
Lemma sextet_bounds a b c :
  a < 256 -> b < 256 -> c < 256 ->
  sextet0 a < 64 /\ sextet1 a b < 64 /\ sextet2 b c < 64 /\ sextet3 c < 64.
Proof.
  intros Ha Hb Hc.
  rewrite sextet0_eq, sextet1_eq, sextet2_eq, sextet3_eq by done.
  split_and!; div_mod_lia.
Qed.

(** The three bytes are recovered from the four values. *)
Lemma octets_sextets a b c :
  a < 256 -> b < 256 -> c < 256 ->
  octet0 (sextet0 a) (sextet1 a b) = a /\
  octet1 (sextet1 a b) (sextet2 b c) = b /\
  octet2 (sextet2 b c) (sextet3 c) = c.
Proof.
  intros Ha Hb Hc.
  destruct (sextet_bounds a b c) as (H0 & H1 & H2 & H3); [done..|].
  rewrite octet0_eq, octet1_eq, octet2_eq by done. clear H0 H1 H2 H3.
  rewrite !sextet0_eq, !sextet1_eq, !sextet2_eq, !sextet3_eq by done.
  split_and!; div_mod_lia.
Qed.

(** ** The bits of the four values *)

(** [bits_arith]: the value of a list of bits of bytes, as quotients
    and remainders. *)
Ltac bits_arith :=
  unfold bits_value; cbn [foldl]; rewrite ?N.testbit_spec';
  change (2 ^ 7) with 128; change (2 ^ 6) with 64; change (2 ^ 5) with 32;
  change (2 ^ 4) with 16; change (2 ^ 3) with 8; change (2 ^ 2) with 4;
  change (2 ^ 1) with 2; change (2 ^ 0) with 1;
  rewrite ?N.div_1_r; cbn [N.b2n]; div_mod_lia.

Lemma sextet0_bits a :
  a < 256 ->
  bits_value [N.testbit a 7; N.testbit a 6; N.testbit a 5; N.testbit a 4;
              N.testbit a 3; N.testbit a 2] = sextet0 a.
Proof. intros Ha. rewrite sextet0_eq. bits_arith. Qed.

Lemma sextet1_bits a b :
  a < 256 -> b < 256 ->
  bits_value [N.testbit a 1; N.testbit a 0; N.testbit b 7; N.testbit b 6;
              N.testbit b 5; N.testbit b 4] = sextet1 a b.
Proof. intros Ha Hb. rewrite sextet1_eq by done. bits_arith. Qed.

Lemma sextet2_bits b c :
  b < 256 -> c < 256 ->
  bits_value [N.testbit b 3; N.testbit b 2; N.testbit b 1; N.testbit b 0;
              N.testbit c 7; N.testbit c 6] = sextet2 b c.
Proof. intros Hb Hc. rewrite sextet2_eq by done. bits_arith. Qed.

Lemma sextet3_bits c :
  bits_value [N.testbit c 5; N.testbit c 4; N.testbit c 3; N.testbit c 2;
              N.testbit c 1; N.testbit c 0] = sextet3 c.
Proof. rewrite sextet3_eq. bits_arith. Qed.

(** The zero bits that fill the last group. *)
Lemma sextet1_bits_0 a :
  a < 256 ->
  bits_value [N.testbit a 1; N.testbit a 0; false; false; false; false]
  = sextet1 a 0.
Proof. intros Ha. by rewrite <- sextet1_bits. Qed.

Lemma sextet2_bits_0 b :
  b < 256 ->
  bits_value [N.testbit b 3; N.testbit b 2; N.testbit b 1; N.testbit b 0;
              false; false] = sextet2 b 0.
Proof. intros Hb. by rewrite <- sextet2_bits. Qed.

(** ** The alphabet and its inverse *)

Lemma b64_index_char i :
  i < 64 -> b64_index (b64_char i) = Some i /\ (b64_char i =? b64_pad) = false.
Proof.
  intros Hi. apply (bool_decide_unpack _), Is_true_true. revert i Hi.
  apply (N_forallb_below
           (fun i => bool_decide (b64_index (b64_char i) = Some i /\
                                  (b64_char i =? b64_pad) = false)) 64).
  vm_compute. reflexivity.
Qed.

(** [decode_group]: read one output character back. *)
Ltac decode_char :=
  match goal with
  | |- context [b64_index (b64_char ?i)] =>
      let H1 := fresh in let H2 := fresh in
      destruct (b64_index_char i) as [H1 H2]; [done|];
      rewrite ?H1, ?H2; clear H1 H2
  end.

(** ** Round trip *)

Lemma b64decode_encode s :
  is_bytes s -> b64decode (b64encode s) = Some s.
Proof.
  unfold is_bytes.
  induction s as [|a|a b|a b c l IH] using list_ind3; [done|..];
    rewrite ?Forall_cons.
  - intros [Ha _]. cbn [b64encode b64decode].
    destruct (sextet_bounds a 0 0) as (? & ? & _); [done..|].
    destruct (octets_sextets a 0 0) as (E0 & _); [done..|].
    repeat decode_char. cbn. by rewrite E0.
  - intros (Ha & Hb & _). cbn [b64encode b64decode].
    destruct (sextet_bounds a b 0) as (? & ? & ? & _); [done..|].
    destruct (octets_sextets a b 0) as (E0 & E1 & _); [done..|].
    repeat decode_char. cbn. by rewrite E0, E1.
  - intros (Ha & Hb & Hc & Hl). cbn [b64encode b64decode].
    destruct (sextet_bounds a b c) as (? & ? & ? & ?); [done..|].
    destruct (octets_sextets a b c) as (E0 & E1 & E2); [done..|].
    repeat decode_char. by rewrite IH, E0, E1, E2.
Qed.

(** ** Equivalence with the description of the RFC *)

#[local] Arguments bits_value : simpl never.
#[local] Arguments N.testbit : simpl never.
#[local] Arguments b64_char : simpl never.

(** C30: The encoder, which works on three bytes at a time with shifts and
    masks, computes what RFC 4648 describes on the stream of bits: for
    every string of bytes the two give the same text. *)
Theorem b64encode_rfc_equiv s : is_bytes s -> b64encode s = b64encode_rfc s.
Proof.
  unfold is_bytes, b64encode_rfc.
  induction s as [|a|a b|a b c l IH] using list_ind3; [done|..];
    rewrite ?Forall_cons.
  - intros [Ha _]. cbn.
    by rewrite sextet0_bits, sextet1_bits_0.
  - intros (Ha & Hb & _). cbn.
    by rewrite sextet0_bits, sextet1_bits, sextet2_bits_0.
  - intros (Ha & Hb & Hc & Hl). cbn [b64encode]. rewrite IH by done.
    cbn. by rewrite sextet0_bits, sextet1_bits, sextet2_bits, sextet3_bits.
Qed.

(** C29: decoding the text of the data URL gives back the PNG bytes the
    script encoded; hence two byte strings with the same base64 text
    are the same. *)
Theorem b64decode_b64encode s s' :
  is_bytes s -> is_bytes s' ->
  b64decode (b64encode s) = Some s /\
  (b64encode s = b64encode s' -> s = s').
Proof.
  intros Hs Hs'. split; [by apply b64decode_encode|].
  intros E. apply (f_equal b64decode) in E.
  rewrite !b64decode_encode in E by done. by injection E.
Qed.
