(* ===== verification/Timestamp.v ===== *)
(** * Timestamp: [datetime.now().strftime("%Y%m%d_%H%M%S")] (line 206)

    The download's file name carries the time at which the page was
    drawn, to the second.  [strftime] is modelled for the one format the
    script uses: four digits of year, two each of month, day, hour,
    minute and second, with an underscore before the hour.

    Theorems: the text has 15 characters, all digits but the underscore
    (so it is safe inside a file name and inside an HTML attribute), and
    two different valid times give different texts. *)

From stdpp Require Import base tactics list numbers strings.
From Stdlib Require Import Lia ZifyBool ZifyN.
From S2P Require Import Prelude PyStr World.

Local Open Scope N_scope.

(** ** Definitions *)

(** A [datetime.datetime], to the second. *)
Record datetime := {
  year : N;
  month : N;
  day : N;
  hour : N;
  minute : N;
  second : N;
}.

#[export] Instance datetime_eq_dec : EqDecision datetime.
Proof. solve_decision. Defined.

(** [datetime.now()] (line 206): one reading per run of the script. *)
Class ClockApi := {
  datetime_now : datetime;
}.

(** The ranges [datetime] enforces, for a year of four digits. *)
Definition valid_datetime (d : datetime) : Prop :=
  1000 <= year d <= 9999 /\ 1 <= month d <= 12 /\ 1 <= day d <= 31 /\
  hour d < 24 /\ minute d < 60 /\ second d < 60.

(** [str(n).zfill(width)]: pad with zeros on the left. *)
Definition zfill (width : nat) (s : str) : str :=
  replicate (width - length s) 48 ++ s.

(** The directives [%m %d %H %M %S]: two digits. *)
Definition two_digits (n : N) : str := zfill 2 (str_of_N n).

(** The directive [%Y]: four digits. *)
Definition four_digits (n : N) : str := zfill 4 (str_of_N n).

(** [d.strftime("%Y%m%d_%H%M%S")] *)
Definition strftime (d : datetime) : str :=
  four_digits (year d) ++ two_digits (month d) ++ two_digits (day d)
  ++ lit "_"
  ++ two_digits (hour d) ++ two_digits (minute d) ++ two_digits (second d).

(** A decimal digit or the underscore. *)
Definition timestamp_char (c : N) : bool :=
  (48 <=? c) && (c <=? 57) || (c =? 95).

(** ** Examples *)

Example strftime_example :
  strftime {| year := 2024; month := 3; day := 7;
              hour := 9; minute := 5; second := 0 |}
  = lit "20240307_090500".
Proof. vm_compute. reflexivity. Qed.

(** ** Padding a number to a width *)

Lemma zfill_length w n :
  (0 < w)%nat -> n < 10 ^ N.of_nat w -> length (zfill w (str_of_N n)) = w.
Proof.
  intros Hw Hn. unfold zfill. rewrite length_app, length_replicate.
  pose proof (str_of_N_length n w Hw Hn). lia.
Qed.

(** Padding loses nothing: the number is read back from the text. *)
Lemma zfill_value w n : digits_value (zfill w (str_of_N n)) = n.
Proof. unfold zfill. by rewrite digits_value_zeros, digits_value_str_of_N. Qed.

Lemma zfill_inj w n m : zfill w (str_of_N n) = zfill w (str_of_N m) -> n = m.
Proof. intros E. by rewrite <- (zfill_value w n), E, zfill_value. Qed.

Lemma two_digits_length n : n < 100 -> length (two_digits n) = 2%nat.
Proof. intros H. apply (zfill_length 2 n); [lia | exact H]. Qed.

Lemma four_digits_length n : n < 10000 -> length (four_digits n) = 4%nat.
Proof. intros H. apply (zfill_length 4 n); [lia | exact H]. Qed.

Lemma two_digits_chars n c : c ∈ two_digits n -> 48 <= c <= 57.
Proof.
  unfold two_digits, zfill. rewrite elem_of_app, elem_of_replicate.
  intros [[-> _]|H]; [lia | by apply str_of_N_digits in H].
Qed.

Lemma four_digits_chars n c : c ∈ four_digits n -> 48 <= c <= 57.
Proof.
  unfold four_digits, zfill. rewrite elem_of_app, elem_of_replicate.
  intros [[-> _]|H]; [lia | by apply str_of_N_digits in H].
Qed.

(** ** The time stamp *)

(** Every character of a time stamp is a digit or the underscore,
    whatever the clock returns. *)
Lemma strftime_chars d c : c ∈ strftime d -> timestamp_char c = true.
Proof.
  unfold strftime, timestamp_char. rewrite !elem_of_app.
  intros [H|[H|[H|[H|[H|[H|H]]]]]];
    try (apply two_digits_chars in H; lia);
    try (apply four_digits_chars in H; lia).
  apply list_elem_of_singleton in H as ->. done.
Qed.

(** the time stamp of a valid time has 15 characters, each a digit
    or the underscore. *)
Theorem strftime_shape d :
  valid_datetime d ->
  length (strftime d) = 15%nat /\ forallb timestamp_char (strftime d) = true.
Proof.
  intros (Hy & Hm & Hd & HH & HM & HS). split.
  - unfold strftime.
    rewrite !length_app, four_digits_length, !two_digits_length by lia. done.
  - apply forallb_forall. intros c Hc%list_elem_of_In.
    by apply (strftime_chars d).
Qed.

(** Two valid times that differ, differ in their time stamps. *)
Lemma strftime_inj d1 d2 :
  valid_datetime d1 -> valid_datetime d2 ->
  strftime d1 = strftime d2 -> d1 = d2.
Proof.
  intros (Hy1 & Hm1 & Hd1 & HH1 & HM1 & HS1) (Hy2 & Hm2 & Hd2 & HH2 & HM2 & HS2).
  unfold strftime. intros E.
  apply app_inj_1 in E as [Ey E]; [|by rewrite !four_digits_length by lia].
  apply app_inj_1 in E as [Em E]; [|by rewrite !two_digits_length by lia].
  apply app_inj_1 in E as [Ed E]; [|by rewrite !two_digits_length by lia].
  apply app_inv_head in E.
  apply app_inj_1 in E as [EH E]; [|by rewrite !two_digits_length by lia].
  apply app_inj_1 in E as [EM ES]; [|by rewrite !two_digits_length by lia].
  apply zfill_inj in Ey, Em, Ed, EH, EM, ES.
  destruct d1, d2; simpl in *; congruence.
Qed.

(** The time stamp holds no double quote, whatever the clock returns. *)
Corollary strftime_no_quote d : 34 ∉ strftime d.
Proof. by intros H%strftime_chars. Qed.
