(* ===== verification/Texts.v ===== *)
(** * Texts: the constant texts of the page (src/MandalaArt.py)

    Every string literal that the script passes to Streamlit unchanged,
    transcribed character by character: [lit] carries the printable
    ASCII runs, [nl] and [dq] the newline and the double quote, and a
    bracketed number a code point outside ASCII (the emoji).  The number
    in each comment is the line of the literal.  Texts that interpolate
    a value are built where they are used. *)

From stdpp Require Import base list numbers strings.
From S2P Require Import PyStr Prompt.

Local Open Scope N_scope.

(** The double quote. *)
Definition dq : str := [34].

(** line 12: the browser tab title *)
Definition page_title : str :=
  lit "Mandala Art Generator".

(** line 13: the tab icon, U+1F3A8 *)
Definition page_icon : str :=
  [0x1F3A8].

(** line 14: layout *)
Definition page_layout : str :=
  lit "wide".

(** line 15: initial_sidebar_state *)
Definition sidebar_state : str :=
  lit "expanded".

(** lines 19-55: the style sheet injected before anything is drawn *)
Definition css : str :=
  nl ++ lit "<style>" ++ nl ++ lit "    .main-header {" ++ nl
  ++ lit "        text-align: center;" ++ nl
  ++ lit "        color: #2E2E2E;" ++ nl ++ lit "        font-size: 3rem;"
  ++ nl ++ lit "        margin-bottom: 2rem;" ++ nl
  ++ lit "        text-shadow: 2px 2px 4px rgba(0,0,0,0.1);" ++ nl
  ++ lit "    }" ++ nl ++ lit "    .subtitle {" ++ nl
  ++ lit "        text-align: center;" ++ nl ++ lit "        color: #666;"
  ++ nl ++ lit "        font-size: 1.2rem;" ++ nl
  ++ lit "        margin-bottom: 3rem;" ++ nl ++ lit "    }" ++ nl
  ++ lit "    .stButton > button {" ++ nl
  ++ lit "        background: linear-gradient(45deg, #2E2E2E, #4A4A4"
  ++ lit "A);" ++ nl ++ lit "        color: white;" ++ nl
  ++ lit "        border: none;" ++ nl
  ++ lit "        padding: 0.75rem 2rem;" ++ nl
  ++ lit "        font-size: 1.1rem;" ++ nl
  ++ lit "        border-radius: 25px;" ++ nl
  ++ lit "        transition: all 0.3s ease;" ++ nl
  ++ lit "        width: 100%;" ++ nl ++ lit "    }" ++ nl
  ++ lit "    .stButton > button:hover {" ++ nl
  ++ lit "        transform: translateY(-2px);" ++ nl
  ++ lit "        box-shadow: 0 5px 15px rgba(0,0,0,0.2);" ++ nl
  ++ lit "    }" ++ nl ++ lit "    .download-section {" ++ nl
  ++ lit "        background: #f8f9fa;" ++ nl
  ++ lit "        padding: 1.5rem;" ++ nl
  ++ lit "        border-radius: 10px;" ++ nl
  ++ lit "        margin-top: 2rem;" ++ nl ++ lit "    }" ++ nl
  ++ lit "</style>" ++ nl.

(** line 126: the page header *)
Definition header_html : str :=
  lit "<h1 class=" ++ dq ++ lit "main-header" ++ dq ++ lit ">" ++ [0x1F3A8]
  ++ lit " Mandala Art Generator</h1>".

(** line 127: the subtitle *)
Definition subtitle_html : str :=
  lit "<p class=" ++ dq ++ lit "subtitle" ++ dq
  ++ lit ">Transform any word into a beautiful black and white manda"
  ++ lit "la using AI</p>".

(** line 133: heading of the left column *)
Definition inspiration_heading : str :=
  lit "### " ++ [0x1F4AD] ++ lit " Your Inspiration".

(** line 137: label of the key field *)
Definition api_key_label : str :=
  [0x1F511] ++ lit " Enter your OpenAI API Key:".

(** line 139: placeholder of the key field *)
Definition api_key_placeholder : str :=
  lit "sk-...".

(** line 140: tooltip of the key field *)
Definition api_key_help : str :=
  lit "Get your API key from https://platform.openai.com/api-keys".

(** line 145: label of the word field *)
Definition word_label : str :=
  [0x1F4A1] ++ lit " Enter a word that inspires you:".

(** line 146: placeholder of the word field *)
Definition word_placeholder : str :=
  lit "e.g., peace, love, nature, wisdom, strength...".

(** line 153: label of the button *)
Definition generate_label : str :=
  [0x1F3A8] ++ lit " Generate Mandala".

(** line 167: shown while a field is blank *)
Definition requirements_info : str :=
  [0x1F446]
  ++ lit " Please enter both your API key and inspiration word to ge"
  ++ lit "nerate a mandala".

(** line 170: label of the first expander *)
Definition howto_label : str :=
  [0x1F527] ++ lit " How to get your OpenAI API Key".

(** lines 171-179: how to get a key *)
Definition howto_text : str :=
  nl ++ lit "            1. Go to [OpenAI Platform](https://platform.op"
  ++ lit "enai.com/api-keys)" ++ nl
  ++ lit "            2. Sign in or create an account" ++ nl
  ++ lit "            3. Click " ++ dq ++ lit "Create new secret key" ++ dq
  ++ nl ++ lit "            4. Copy the key and paste it above" ++ nl
  ++ lit "            5. Make sure you have credits in your OpenAI a"
  ++ lit "ccount" ++ nl ++ lit "            " ++ nl
  ++ lit "            **Note:** Your API key is never stored and is "
  ++ lit "only used for this generation." ++ nl ++ lit "            ".

(** line 182: label of the second expander *)
Definition settings_label : str :=
  [0x2699] ++ [0xFE0F] ++ lit " Generation Settings".

(** lines 183-188: the fixed generation settings *)
Definition settings_text : str :=
  nl ++ lit "            **Model:** DALL-E 3  " ++ nl
  ++ lit "            **Size:** 1024x1024 pixels  " ++ nl
  ++ lit "            **Style:** Black and white mandala  " ++ nl
  ++ lit "            **Quality:** Standard  " ++ nl ++ lit "            ".

(** line 191: heading of the right column *)
Definition mandala_heading : str :=
  lit "### " ++ [0x1F5BC] ++ [0xFE0F] ++ lit " Your Mandala".

(** line 202: opens the download section *)
Definition download_div_open : str :=
  lit "<div class=" ++ dq ++ lit "download-section" ++ dq ++ lit ">".

(** line 203: heading of the download section *)
Definition download_heading : str :=
  lit "### " ++ [0x1F4E5] ++ lit " Download Your Mandala".

(** line 221: closes the download section *)
Definition div_close : str :=
  lit "</div>".

(** line 225: label of the prompt expander *)
Definition prompt_expander_label : str :=
  [0x1F50D] ++ lit " View AI Prompt Used".

(** line 226: label of the prompt text area *)
Definition prompt_area_label : str :=
  lit "Prompt sent to DALL-E 3:".

(** line 228: shown while no image is stored *)
Definition empty_info : str :=
  [0x1F448]
  ++ lit " Enter your API key and inspiration word, then click 'Gene"
  ++ lit "rate Mandala' to create your artwork".

(** line 231: heading of the examples *)
Definition examples_heading : str :=
  lit "### " ++ [0x1F31F] ++ lit " Example Mandalas".

(** lines 232-239: the example words *)
Definition examples_text : str :=
  nl ++ lit "            Try these inspiring words:" ++ nl
  ++ lit "            - **Peace** - Flowing, calm patterns" ++ nl
  ++ lit "            - **Nature** - Organic, leaf-like designs  " ++ nl
  ++ lit "            - **Wisdom** - Ancient, symbolic elements" ++ nl
  ++ lit "            - **Love** - Heart-centered, warm patterns" ++ nl
  ++ lit "            - **Strength** - Bold, powerful geometry" ++ nl
  ++ lit "            ".

(** line 242: a horizontal rule *)
Definition rule : str :=
  lit "---".

(** line 243: heading of the footer *)
Definition tips_heading : str :=
  lit "### " ++ [0x1F4A1] ++ lit " Tips for Better Results".

(** lines 247-252: first footer column *)
Definition tip_words : str :=
  nl ++ lit "        **" ++ [0x1F3AF] ++ lit " Choose Meaningful Words**"
  ++ nl ++ lit "        - Abstract concepts work well" ++ nl
  ++ lit "        - Emotions and feelings" ++ nl
  ++ lit "        - Nature elements" ++ nl ++ lit "        ".

(** lines 255-260: second footer column *)
Definition tip_printing : str :=
  nl ++ lit "        **" ++ [0x1F5A8] ++ [0xFE0F] ++ lit " Printing Tips**"
  ++ nl ++ lit "        - Use high-quality paper" ++ nl
  ++ lit "        - Print in actual size" ++ nl
  ++ lit "        - Perfect for coloring books" ++ nl ++ lit "        ".

(** lines 263-268: third footer column *)
Definition tip_usage : str :=
  nl ++ lit "        **" ++ [0x1F49D] ++ lit " Usage Ideas**" ++ nl
  ++ lit "        - Meditation and mindfulness" ++ nl
  ++ lit "        - Adult coloring books" ++ nl
  ++ lit "        - Wall art and decoration" ++ nl ++ lit "        ".

(** line 272: the closing note *)
Definition privacy_note : str :=
  [0x1F512]
  ++ lit " **Privacy Note:** Your API key is never stored and is onl"
  ++ lit "y used temporarily for image generation.".
