(* ===== verification/Download.v ===== *)
(** * Download: the file name and [get_image_download_link]
      (src/MandalaArt.py, lines 116-122 and 207)

    The link is an [<a>] element whose [href] is a [data:] URL holding
    the PNG encoding of the image in base64, and whose [download]
    attribute is the file name [mandala_{word}_{timestamp}.png].  Both
    values are interpolated between double quotes without escaping.

    What a browser makes of the anchor is in [Browser].

    Theorems: what the function returns on each answer of
    [image.save]; a file name built from a word and a time stamp
    without double quote holds none; file names built at different
    times differ. *)

From stdpp Require Import base tactics list numbers strings.
From Stdlib Require Import Lia ZifyBool ZifyN.
From S2P Require Import Prelude PyStr Prompt World Utf8 Session Script.
From S2P Require Import Base64 Timestamp Texts.

Local Open Scope N_scope.
Local Open Scope script_scope.

(** ** Definitions *)

(** The three constant pieces of the f-string of line 122. *)
Definition link_head : str :=
  lit "<a href=" ++ dq ++ lit "data:image/png;base64,".

Definition link_mid : str := dq ++ lit " download=" ++ dq.

Definition link_tail : str :=
  dq ++ lit " style=" ++ dq ++ lit "text-decoration: none;" ++ dq
  ++ lit "><button style=" ++ dq
  ++ lit "background: linear-gradient(45deg, #28a745, #20c997); color:"
  ++ lit " white; border: none; padding: 0.75rem 2rem; font-size: 1.1r"
  ++ lit "em; border-radius: 25px; cursor: pointer; transition: all 0."
  ++ lit "3s ease;" ++ dq ++ lit ">" ++ [0x1F4E5]
  ++ lit " Download Mandala</button></a>".

(** [filename = f"mandala_{word}_{timestamp}.png"] (line 207) *)
Definition download_filename (word timestamp : str) : str :=
  lit "mandala_" ++ word ++ lit "_" ++ timestamp ++ lit ".png".

Section Download.
Context `{!PillowApi}.

(** Lines 116-122.  [img_str] is the base64 text decoded as UTF-8. *)
Definition get_image_download_link (image : Image) (filename : str)
  : script str :=
  buffered <- call (Image_save_of image) (Image_save_PNG image) ;;
  img_str <- eval (decode (b64encode buffered)) ;;
  ret (link_head ++ img_str ++ link_mid ++ filename ++ link_tail).

End Download.

(** ** Facts *)

(** a file name built from a word and a time stamp without double
    quote holds none. *)
Lemma download_filename_no_quote word timestamp :
  34 ∉ word -> 34 ∉ timestamp -> 34 ∉ download_filename word timestamp.
Proof.
  intros Hw Ht. unfold download_filename. rewrite !elem_of_app.
  intros [H|[H|[H|[H|H]]]]; try done;
    apply list_elem_of_In in H; vm_compute in H; intuition discriminate.
Qed.

(** The file name of a stored word holds a double quote exactly when
    the word does: the time stamp holds none. *)
Lemma download_filename_quote word d :
  34 ∉ download_filename word (strftime d) <-> 34 ∉ word.
Proof.
  split.
  - intros Hf Hw. apply Hf. unfold download_filename. rewrite !elem_of_app. tauto.
  - intros Hw. apply download_filename_no_quote; [done|].
    by intros ?%strftime_chars.
Qed.

(** C40: The file name follows the clock: for the same word, file names built
    at two different valid times are different, so that the name under
    which a stored image is offered changes from one run to the next. *)
Theorem download_filename_clock word d1 d2 :
  valid_datetime d1 -> valid_datetime d2 ->
  download_filename word (strftime d1) = download_filename word (strftime d2) ->
  d1 = d2.
Proof.
  intros H1 H2 E. unfold download_filename in E.
  do 3 apply app_inv_head in E. apply app_inv_tail in E.
  by apply strftime_inj.
Qed.

Section DownloadFacts.
Context `{!PillowApi}.
Implicit Types (image : Image) (filename : str) (s : SessionState).

Lemma get_image_download_link_quiet image filename :
  quiet (get_image_download_link image filename).
Proof. unfold get_image_download_link. quiet_script. Qed.

(** the link function makes one library call, [image.save]; when it
    returns bytes the result is the anchor around their base64 text and
    the file name, the [.decode()] of that text never failing; when
    [image.save] raises, the exception propagates.  The session state
    is untouched either way. *)
Theorem get_image_download_link_spec image filename s :
  get_image_download_link image filename s =
  match Image_save_PNG image with
  | Returns buffered =>
      Run (Done (link_head ++ b64encode buffered ++ link_mid
                 ++ filename ++ link_tail))
          s [Api (Image_save_of image)]
  | Raises e => Run (Raised e) s [Api (Image_save_of image)]
  end.
Proof.
  unfold get_image_download_link. unfold_script.
  destruct (Image_save_PNG image); [|done].
  by rewrite decode_b64encode.
Qed.

End DownloadFacts.

#[export] Hint Resolve get_image_download_link_quiet : py.
