(* ===== verification/Browser.v ===== *)
(** * Browser: what a browser makes of the download link

    The right column draws the link with [unsafe_allow_html=True]: the
    text [get_image_download_link] returns reaches the HTML parser of
    the browser as written (the Markdown pass Streamlit runs first is
    not modelled).  The link is an [<a>] element whose [href] is a
    [data:] URL and whose [download] attribute is the file name; both
    values are interpolated between double quotes without escaping.

    Three steps of the browser are modelled, each after its standard.
    [start_tag] is the tokenizer of the HTML standard for a start tag:
    the newlines of the input are normalised ([normalize_newlines]);
    [tag_step] is the transition of the ten states a start tag goes
    through, one character at a time (whitespace, names in lower case,
    double-quoted, single-quoted and unquoted values, the solidus,
    U+0000 replaced by U+FFFD); [scan] runs it over the text, gives the
    attributes when the tag is closed by [>] and [None] when the text
    ends inside the tag, and replaces character references inside
    values.  The table of named references is the parameter
    [CharacterReferences]; [ReferencesLawful] states what every
    reference of the standard satisfies.  [attribute] is the value of
    the first attribute of a name.  [data_url] is the processing of a
    [data:] URL (URL standard, RFC 2397 and the Fetch standard): tabs,
    newlines and surrounding blanks are removed, the scheme is read in
    any case, the fragment is dropped, the text before the first comma
    is the media type, a trailing [;base64] selects the base64 decoder
    of [Base64] for the percent-decoded body.  [save_link] is what
    activating the anchor saves: a file offered under the name of
    [download], with the bytes of [href].  What the browser does to the
    proposed name afterwards (characters the file system refuses) is
    not modelled.

    Theorems: whenever the link is an element, [href] reads back as the
    whole data URL and [download] as a text that is shorter than the
    file name if that holds a double quote; the file name is read back
    unchanged when it is written with plain characters (no double
    quote, ampersand, carriage return or U+0000); the data URL of the
    link is of type [image/png] and holds the bytes [image.save]
    produced; activating the link saves those bytes. *)

From stdpp Require Import base tactics list numbers strings.
From Stdlib Require Import Lia ZifyBool ZifyN.
From S2P Require Import Prelude PyStr Prompt World Utf8 Session Script.
From S2P Require Import Base64 Timestamp Texts Download.

Local Open Scope N_scope.

(** ** Definitions *)

(** The value of a double-quoted HTML attribute, given the text that
    follows its opening quote: everything up to the next double quote. *)
Definition quoted (s : str) : str := take_while (fun c => negb (c =? 34)) s.

(** ** How a browser reads the anchor *)

(** The character references of HTML.  [character_reference s] reads
    the text [s] that follows an ampersand inside an attribute value:
    the characters the reference stands for and how many characters of
    [s] it takes, or [None] when the ampersand starts no reference.
    The table of named references is a parameter of the tokenizer. *)
Class CharacterReferences := character_reference : str -> option (str * nat).

(** What all references of the standard have in common: a reference
    is not longer than its text, and its text holds no double quote. *)
Class ReferencesLawful `{!CharacterReferences} : Prop := {
  reference_taken s chars k :
    character_reference s = Some (chars, k) ->
    (length chars <= k)%nat /\ 34 ∉ take k s;
}.

(** The input stream of the parser has its newlines normalised: a
    carriage return followed by a line feed is one line feed, every
    other carriage return is a line feed.  [after_cr] tells that the
    previous character was a carriage return. *)
Fixpoint newlines (after_cr : bool) (s : str) : str :=
  match s with
  | [] => []
  | c :: s =>
      if c =? 13 then 10 :: newlines true s
      else if (c =? 10) && after_cr then newlines false s
      else c :: newlines false s
  end.

Definition normalize_newlines : str -> str := newlines false.

(** ASCII lower case of one character. *)
Definition ascii_lower (c : N) : N :=
  if (65 <=? c) && (c <=? 90) then c + 32 else c.

Definition ascii_alpha (c : N) : bool :=
  (97 <=? ascii_lower c) && (ascii_lower c <=? 122).

(** The whitespace of the tokenizer: tab, line feed, form feed, space. *)
Definition html_space (c : N) : bool :=
  (c =? 9) || (c =? 10) || (c =? 12) || (c =? 32).

(** A character as it enters an attribute value or a name: U+0000
    becomes U+FFFD, and names are in lower case. *)
Definition value_char (c : N) : N := if c =? 0 then 0xFFFD else c.

Definition name_char (c : N) : N := if c =? 0 then 0xFFFD else ascii_lower c.

(** The characters that enter a double-quoted attribute value as they
    are written: all but U+0000, the carriage return, the double quote
    and the ampersand. *)
Definition html_plain (c : N) : bool :=
  negb ((c =? 0) || (c =? 13) || (c =? 34) || (c =? 38)).

(** The states of the tokenizer of the HTML standard inside a start
    tag.  Names and values are accumulated in reverse. *)
Inductive tag_state :=
| Tag_name                     (* tag name state *)
| Before_name                  (* before attribute name state *)
| Attr_name (n : str)          (* attribute name state *)
| After_name (n : str)         (* after attribute name state *)
| Before_value (n : str)       (* before attribute value state *)
| Double_quoted (n v : str)    (* attribute value (double-quoted) state *)
| Single_quoted (n v : str)    (* attribute value (single-quoted) state *)
| Unquoted (n v : str)         (* attribute value (unquoted) state *)
| After_value                  (* after attribute value (quoted) state *)
| Self_closing.                (* self-closing start tag state *)

(** Where an attribute may begin, on a character other than [>]:
    whitespace is skipped, a solidus may close the tag, any other
    character starts a name. *)
Definition begin_name (c : N) : tag_state :=
  if html_space c then Before_name
  else if c =? 47 then Self_closing
  else Attr_name [name_char c].

(** One character: the attribute it completes, if any, and the state
    after it, or [None] when the character ends the tag. *)
Definition tag_step (st : tag_state) (c : N)
  : option (str * str) * option tag_state :=
  match st with
  | Tag_name =>
      if c =? 62 then (None, None)
      else if html_space c then (None, Some Before_name)
      else if c =? 47 then (None, Some Self_closing)
      else (None, Some Tag_name)
  | Before_name | After_value | Self_closing =>
      if c =? 62 then (None, None) else (None, Some (begin_name c))
  | Attr_name n =>
      if c =? 61 then (None, Some (Before_value n))
      else if html_space c then (None, Some (After_name n))
      else if c =? 47 then (Some (reverse n, []), Some Self_closing)
      else if c =? 62 then (Some (reverse n, []), None)
      else (None, Some (Attr_name (name_char c :: n)))
  | After_name n =>
      if c =? 61 then (None, Some (Before_value n))
      else if html_space c then (None, Some (After_name n))
      else if c =? 62 then (Some (reverse n, []), None)
      else (Some (reverse n, []), Some (begin_name c))
  | Before_value n =>
      if html_space c then (None, Some (Before_value n))
      else if c =? 34 then (None, Some (Double_quoted n []))
      else if c =? 39 then (None, Some (Single_quoted n []))
      else if c =? 62 then (Some (reverse n, []), None)
      else (None, Some (Unquoted n [value_char c]))
  | Double_quoted n v =>
      if c =? 34 then (Some (reverse n, reverse v), Some After_value)
      else (None, Some (Double_quoted n (value_char c :: v)))
  | Single_quoted n v =>
      if c =? 39 then (Some (reverse n, reverse v), Some After_value)
      else (None, Some (Single_quoted n (value_char c :: v)))
  | Unquoted n v =>
      if html_space c then (Some (reverse n, reverse v), Some Before_name)
      else if c =? 62 then (Some (reverse n, reverse v), None)
      else (None, Some (Unquoted n (value_char c :: v)))
  end.

(** The states in which an ampersand may start a character reference,
    and the state after one: its characters enter the value. *)
Definition takes_references (st : tag_state) : bool :=
  match st with
  | Double_quoted _ _ | Single_quoted _ _ | Unquoted _ _ => true
  | Before_value _ => true
  | _ => false
  end.

Definition value_push (chars : str) (st : tag_state) : tag_state :=
  match st with
  | Double_quoted n v => Double_quoted n (reverse chars ++ v)
  | Single_quoted n v => Single_quoted n (reverse chars ++ v)
  | Unquoted n v => Unquoted n (reverse chars ++ v)
  | Before_value n => Unquoted n (reverse chars)
  | st => st
  end.

Section Tokenizer.
Context `{!CharacterReferences}.

(** The attributes of the tag, in order, when the text holds the [>]
    that ends it; [None] when the text ends inside the tag, which then
    is no element.  [skip] counts the characters still to pass over
    because a character reference took them. *)
Fixpoint scan (st : tag_state) (skip : nat) (s : str)
  : option (list (str * str)) :=
  match s with
  | [] => None
  | c :: s =>
      match skip with
      | S k => scan st k s
      | O =>
          match (if (c =? 38) && takes_references st
                 then character_reference s else None) with
          | Some (chars, k) => scan (value_push chars st) k s
          | None =>
              let rest :=
                match snd (tag_step st c) with
                | Some st' => scan st' 0 s
                | None => Some []
                end in
              match fst (tag_step st c) with
              | Some a => cons a <$> rest
              | None => rest
              end
          end
      end
  end.

(** The start tag a text begins with: its name and its attributes.  A
    tag starts with [<] and an ASCII letter. *)
Definition tag_open (s : str) : option (str * list (str * str)) :=
  match s with
  | 60 :: c :: rest =>
      if ascii_alpha c then
        pair (name_char <$> take_while
                (fun c => negb (html_space c || (c =? 47) || (c =? 62)))
                (c :: rest))
          <$> scan Tag_name 0 (c :: rest)
      else None
  | _ => None
  end.

Definition start_tag (html : str) : option (str * list (str * str)) :=
  tag_open (normalize_newlines html).

End Tokenizer.

(** The value of the first attribute of that name; a later attribute of
    the same name is dropped by the tokenizer. *)
Fixpoint assoc (name : str) (l : list (str * str)) : option str :=
  match l with
  | [] => None
  | (n, v) :: l => if bool_decide (n = name) then Some v else assoc name l
  end.

Definition attribute `{!CharacterReferences} (name html : str) : option str :=
  tag ← start_tag html; assoc name (snd tag).

(** ** The [data:] URL *)

(** The value of a hexadecimal digit. *)
Definition hex_value (c : N) : option N :=
  if (48 <=? c) && (c <=? 57) then Some (c - 48)
  else if (65 <=? c) && (c <=? 70) then Some (c - 55)
  else if (97 <=? c) && (c <=? 102) then Some (c - 87)
  else None.

(** Percent-decoding: a percent sign followed by two hexadecimal digits
    is the byte they write; every other character stands for itself. *)
Fixpoint percent_decode (s : str) : bytes :=
  match s with
  | [] => []
  | c :: t =>
      if c =? 37 then
        match t with
        | x :: y :: t' =>
            match hex_value x, hex_value y with
            | Some hx, Some hy => (16 * hx + hy) :: percent_decode t'
            | _, _ => c :: percent_decode t
            end
        | _ => c :: percent_decode t
        end
      else c :: percent_decode t
  end.

(** The characters the URL parser drops: ASCII tab and newline
    anywhere, C0 controls and space at both ends. *)
Definition tab_or_newline (c : N) : bool := (c =? 9) || (c =? 10) || (c =? 13).

Definition c0_or_space (c : N) : bool := c <=? 32.

Definition url_clean (s : str) : str :=
  List.filter (fun c => negb (tab_or_newline c))
    (drop_while_end c0_or_space (drop_while c0_or_space s)).

(** The characters of a URL that the parser keeps and that start no
    fragment. *)
Definition url_plain (c : N) : bool := (32 <? c) && negb (c =? 35).

(** ASCII whitespace: tab, line feed, form feed, carriage return and
    space. *)
Definition ascii_whitespace (c : N) : bool :=
  (c =? 9) || (c =? 10) || (c =? 12) || (c =? 13) || (c =? 32).

(** The media type without the base64 flag, when the text before the
    comma ends with a semicolon, spaces and [base64] in any case. *)
Definition base64_flag (header : str) : option str :=
  let r := reverse header in
  if bool_decide (ascii_lower <$> take 6 r = reverse (lit "base64")) then
    match drop_while (fun c => c =? 32) (drop 6 r) with
    | 59 :: m => Some (reverse m)
    | _ => None
    end
  else None.

(** The media type and the bytes of a [data:] URL, or [None] when the
    text is not one or its base64 body does not decode.  The scheme is
    read in any case, the fragment is dropped, the text before the
    first comma is the media type. *)
Definition data_url (url : str) : option (str * bytes) :=
  let url := take_while (fun c => negb (c =? 35)) (url_clean url) in
  if bool_decide (ascii_lower <$> take 5 url = lit "data:") then
    let rest := drop 5 url in
    let header :=
      drop_while_end ascii_whitespace
        (drop_while ascii_whitespace
           (take_while (fun c => negb (c =? 44)) rest)) in
    match drop_while (fun c => negb (c =? 44)) rest with
    | _ :: body =>
        match base64_flag header with
        | Some mime => b ← b64decode (percent_decode body); Some (mime, b)
        | None => Some (header, percent_decode body)
        end
    | [] => None
    end
  else None.

(** What activating the link saves: the text must begin with the start
    tag of an [a] element; the file is offered under the name in its
    [download] attribute, and holds the media type and bytes of the URL
    in [href]. *)
Definition save_link `{!CharacterReferences} (html : str)
  : option (str * (str * bytes)) :=
  tag ← start_tag html;
  if bool_decide (fst tag = lit "a") then
    name ← assoc (lit "download") (snd tag);
    href ← assoc (lit "href") (snd tag);
    file ← data_url href;
    Some (name, file)
  else None.

(** ** Facts about quoting *)

Lemma quoted_no_quote s : 34 ∉ quoted s.
Proof.
  unfold quoted. induction s as [|c s IH]; simpl; [by intros ?%elem_of_nil|].
  destruct (c =? 34) eqn:E; simpl; [by intros ?%elem_of_nil|].
  rewrite elem_of_cons. intros [<-|?]; [done | by apply IH].
Qed.

Lemma quoted_split t :
  34 ∈ t -> exists k, t = quoted t ++ dq ++ k.
Proof.
  intros Hin. unfold quoted.
  exists (drop 1 (drop_while (fun c => negb (c =? 34)) t)).
  rewrite <- (take_drop_while (fun c => negb (c =? 34)) t) at 1. f_equal.
  induction t as [|c t IH]; [by apply elem_of_nil in Hin|]. simpl.
  destruct (N.eqb_spec c 34) as [->|Hc]; simpl; [done|].
  apply IH. apply elem_of_cons in Hin as [Hin|Hin]; [congruence | done].
Qed.

(** ** Facts about the newlines *)

Lemma newlines_app a b :
  13 ∉ a -> newlines false (a ++ b) = a ++ newlines false b.
Proof.
  induction a as [|c a IH]; [done|]. intros [Hc Ha]%not_elem_of_cons.
  cbn [app newlines]. destruct (N.eqb_spec c 13); [done|].
  by rewrite andb_false_r, IH.
Qed.

Lemma newlines_quote f p x :
  newlines f (p ++ 34 :: x) = newlines f p ++ 34 :: newlines false x.
Proof.
  revert f. induction p as [|c p IH]; intros f; cbn [app newlines]; [done|].
  destruct (c =? 13); [by rewrite IH|]. destruct ((c =? 10) && f); by rewrite IH.
Qed.

Lemma newlines_length f s : (length (newlines f s) <= length s)%nat.
Proof.
  revert f. induction s as [|c s IH]; intros f; cbn [newlines]; [done|].
  destruct (c =? 13); [|destruct ((c =? 10) && f)]; simpl;
    pose proof (IH true); pose proof (IH false); lia.
Qed.

Lemma newlines_no_quote f s : 34 ∉ s -> 34 ∉ newlines f s.
Proof.
  revert f. induction s as [|c s IH]; intros f; cbn [newlines]; [done|].
  intros [Hc Hs]%not_elem_of_cons.
  destruct (c =? 13); [|destruct ((c =? 10) && f)]; rewrite ?not_elem_of_cons;
    auto.
Qed.

(** ** Facts about the tokenizer *)

Lemma b64_symbol_html_plain c : b64_symbol c = true -> html_plain c = true.
Proof. intros Hc%b64_symbol_printable. unfold html_plain. lia. Qed.

Lemma html_plain_no_return s : forallb html_plain s = true -> 13 ∉ s.
Proof.
  rewrite forallb_forall. intros Hs Hin%list_elem_of_In. by apply Hs in Hin.
Qed.

(** The file name of a word written with plain characters is written
    with plain characters. *)
Lemma download_filename_plain word d :
  forallb html_plain word = true ->
  forallb html_plain (download_filename word (strftime d)) = true.
Proof.
  intros Hw. unfold download_filename. rewrite !forallb_app, Hw.
  change (forallb html_plain (lit ?x)) with true. cbn [andb].
  rewrite andb_true_r. apply forallb_forall.
  intros c Hc%list_elem_of_In%strftime_chars.
  unfold timestamp_char, html_plain in *. lia.
Qed.

Section TokenizerFacts.
Context `{!CharacterReferences}.

(** A plain character enters a double-quoted value as it is. *)
Lemma scan_plain n v c s :
  html_plain c = true ->
  scan (Double_quoted n v) 0 (c :: s) = scan (Double_quoted n (c :: v)) 0 s.
Proof.
  unfold html_plain. intros Hc. cbn [scan takes_references tag_step fst snd].
  unfold value_char.
  replace (c =? 38) with false by lia. replace (c =? 34) with false by lia.
  by replace (c =? 0) with false by lia.
Qed.

(** Inside a double-quoted value the tokenizer reads plain characters
    up to the next double quote. *)
Lemma scan_double_plain n v t k :
  forallb html_plain t = true ->
  scan (Double_quoted n v) 0 (t ++ 34 :: k)
  = cons (reverse n, reverse v ++ t) <$> scan After_value 0 k.
Proof.
  revert v. induction t as [|c t IH]; intros v Ht.
  - by rewrite app_nil_r.
  - cbn [forallb] in Ht. apply andb_true_iff in Ht as [Hc Ht]. cbn [app].
    rewrite scan_plain, IH by done. by rewrite reverse_cons, <- app_assoc.
Qed.

(** Whatever the characters of a double-quoted value, it ends at the
    next double quote and is not longer than the text before it. *)
Lemma scan_double_bound `{!ReferencesLawful} t skip n v k l :
  34 ∉ t -> (skip <= length t)%nat ->
  scan (Double_quoted n v) skip (t ++ 34 :: k) = Some l ->
  exists v' l',
    l = (reverse n, v') :: l' /\
    (length v' + skip <= length v + length t)%nat.
Proof.
  revert skip v. induction t as [|c t IH]; intros skip v Hq Hs Hl.
  - destruct skip; [|simpl in Hs; lia]. cbn in Hl.
    destruct (scan After_value 0 k); simplify_eq/=.
    eexists _, _. split; [done|]. rewrite length_reverse. lia.
  - apply not_elem_of_cons in Hq as [Hc Hq].
    destruct skip as [|j]; cbn [app scan takes_references andb] in Hl.
    + destruct (c =? 38); cbn [andb] in Hl;
        [destruct (character_reference _) as [[chars j]|] eqn:Hr|].
      1:{ apply reference_taken in Hr as [Hlen Hj%take_not_elem].
          apply IH in Hl as (v' & l' & -> & Hb); [|done..].
          eexists _, _. split; [done|].
          rewrite length_app, length_reverse in Hb. simpl. lia. }
      all: cbn [tag_step fst snd] in Hl;
        replace (c =? 34) with false in Hl by lia;
        apply IH in Hl as (v' & l' & -> & Hb); [|done|lia];
        eexists _, _; (split; [done|]); simpl in *; lia.
    + apply IH in Hl as (v' & l' & -> & Hb); [|done|simpl in Hs; lia].
      eexists _, _. split; [done|]. simpl. lia.
Qed.

(** The value that starts a text is not longer than what precedes the
    first double quote, newlines normalised or not. *)
Lemma scan_double_first `{!ReferencesLawful} n p x l :
  34 ∉ p ->
  scan (Double_quoted n []) 0 (normalize_newlines (p ++ 34 :: x)) = Some l ->
  exists name rest,
    l = (reverse n, name) :: rest /\ (length name <= length p)%nat.
Proof.
  intros Hp. unfold normalize_newlines. rewrite newlines_quote.
  intros (v' & l' & -> & Hb)%scan_double_bound;
    [|by apply newlines_no_quote|lia].
  eexists _, _. split; [done|]. pose proof (newlines_length false p).
  simpl in Hb. lia.
Qed.

(** *** The anchor of the script *)

Section Link.
Context (buffered : bytes) (filename : str).

(** The link as [get_image_download_link] writes it. *)
Let link : str :=
  link_head ++ b64encode buffered ++ link_mid ++ filename ++ link_tail.

Let url : str := lit "data:image/png;base64," ++ b64encode buffered.

(** The tokenizer reads the name of the element and [href] as written,
    and stands in the value of [download] at the file name. *)
Lemma link_start_tag :
  start_tag link
  = pair (lit "a") <$> (cons (lit "href", url)
      <$> scan (Double_quoted (reverse (lit "download")) []) 0
            (normalize_newlines (filename ++ link_tail))).
Proof.
  unfold start_tag, normalize_newlines, link.
  rewrite (newlines_app link_head) by (by apply (bool_decide_unpack _)).
  rewrite (newlines_app (b64encode _))
    by (by apply b64encode_not_elem).
  rewrite (newlines_app link_mid) by (by apply (bool_decide_unpack _)).
  change (tag_open (link_head ++ ?x))
    with (pair (lit "a")
            <$> scan (Double_quoted (reverse (lit "href"))
                        (reverse (lit "data:image/png;base64,"))) 0 x).
  change (link_mid ++ ?y) with (34 :: (lit " download=" ++ dq ++ y)).
  rewrite scan_double_plain.
  2:{ eapply forallb_weaken; [apply b64_symbol_html_plain|].
      apply b64encode_symbols. }
  done.
Qed.

(** A file name written with plain characters leaves the anchor with
    the three attributes the script wrote. *)
Lemma link_attributes :
  forallb html_plain filename = true ->
  start_tag link
  = Some (lit "a", [(lit "href", url); (lit "download", filename);
                    (lit "style", lit "text-decoration: none;")]).
Proof.
  intros Hf. rewrite link_start_tag. unfold normalize_newlines.
  rewrite newlines_app by (by apply html_plain_no_return).
  change (newlines false link_tail) with (34 :: drop 1 link_tail).
  rewrite scan_double_plain by done. vm_compute. reflexivity.
Qed.

(** Whenever the anchor is an element, its first two attributes are
    [href], with the whole data URL, and [download]; a double quote in
    the file name makes the value of [download] shorter than the file
    name. *)
Lemma link_download `{!ReferencesLawful} tag :
  start_tag link = Some tag ->
  exists name rest,
    tag = (lit "a", (lit "href", url) :: (lit "download", name) :: rest) /\
    (34 ∈ filename -> (length name < length filename)%nat).
Proof.
  rewrite link_start_tag.
  destruct (scan _ 0 _) as [l|] eqn:Hl; [|done]. intros [= <-].
  destruct (decide (34 ∈ filename)) as [Hq|Hq].
  - destruct (quoted_split _ Hq) as [k Hk]. rewrite Hk, <- !app_assoc in Hl.
    apply scan_double_first in Hl as (name & rest & -> & Hlen);
      [|apply quoted_no_quote].
    exists name, rest. split; [done|]. intros _.
    apply (f_equal length) in Hk. rewrite length_app in Hk. simpl in Hk. lia.
  - change link_tail with (34 :: drop 1 link_tail) in Hl.
    apply scan_double_first in Hl as (name & rest & -> & Hlen); [|done].
    by exists name, rest.
Qed.

(** When the file name holds a double quote after plain characters,
    the value of [download] is the text before the quote. *)
Lemma link_download_quoted tag :
  34 ∈ filename -> forallb html_plain (quoted filename) = true ->
  start_tag link = Some tag ->
  assoc (lit "download") (snd tag) = Some (quoted filename).
Proof.
  intros Hq Hp. rewrite link_start_tag.
  destruct (quoted_split _ Hq) as [k Hk]. rewrite Hk at 1.
  unfold normalize_newlines.
  rewrite <- !app_assoc, newlines_app by (by apply html_plain_no_return).
  change (newlines false (dq ++ ?x)) with (34 :: newlines false x).
  rewrite scan_double_plain by done.
  destruct (scan After_value 0 _); [|done]. by intros [= <-].
Qed.

End Link.
End TokenizerFacts.

(** ** Facts about the [data:] URL *)

(** A text without percent sign decodes to itself. *)
Lemma percent_decode_id s : 37 ∉ s -> percent_decode s = s.
Proof.
  induction s as [|c s IH]; [done|]. intros [Hc Hs]%not_elem_of_cons.
  cbn [percent_decode]. destruct (N.eqb_spec c 37); [done|]. by rewrite IH.
Qed.

Lemma url_clean_plain s :
  forallb url_plain s = true ->
  take_while (fun c => negb (c =? 35)) (url_clean s) = s.
Proof.
  intros Hs. unfold url_clean.
  rewrite drop_while_none, drop_while_end_none, filter_all, take_while_id;
    try done; revert Hs; apply forallb_weaken; intros c;
    unfold url_plain, c0_or_space, tab_or_newline; lia.
Qed.

Lemma b64_symbol_plain c : b64_symbol c = true -> url_plain c = true.
Proof. intros Hc%b64_symbol_printable. unfold url_plain. lia. Qed.

(** The reader on three URLs that are not the script's: the scheme in
    capitals with a percent-encoded body and a fragment; the flag in
    capitals after a space, with a newline in the body; no comma. *)
Example data_url_examples :
  data_url (lit "DATA:text/plain,a%20b#rest") = Some (lit "text/plain", lit "a b") /\
  data_url (lit "data:image/png; BASE64,aGk" ++ [10] ++ lit "=")
  = Some (lit "image/png", lit "hi") /\
  data_url (lit "data:image/png;base64") = None.
Proof. by vm_compute. Qed.

(** The URL the script writes is a [data:] URL of type [image/png]
    whose bytes are the base64 decoding of the text after the comma. *)
Lemma data_url_png payload :
  forallb b64_symbol payload = true ->
  data_url (lit "data:image/png;base64," ++ payload)
  = (b ← b64decode payload; Some (lit "image/png", b)).
Proof.
  intros Hp. unfold data_url. rewrite url_clean_plain.
  2:{ rewrite forallb_app. apply andb_true_iff. split; [done|].
      revert Hp. apply forallb_weaken, b64_symbol_plain. }
  change (bool_decide _) with true. cbn match.
  change (drop 5 (lit "data:image/png;base64," ++ payload))
    with (lit "image/png;base64," ++ payload).
  change (take_while ?p (lit "image/png;base64," ++ payload))
    with (lit "image/png;base64").
  change (drop_while ?p (lit "image/png;base64," ++ payload))
    with (44 :: payload).
  change (base64_flag _) with (Some (lit "image/png")).
  cbn match. rewrite percent_decode_id; [done|].
  intros Hin%list_elem_of_In. rewrite forallb_forall in Hp.
  by apply Hp in Hin.
Qed.

(** The data URL of the link holds the bytes [image.save] produced. *)
Lemma link_data_url buffered :
  is_bytes buffered ->
  data_url (lit "data:image/png;base64," ++ b64encode buffered)
  = Some (lit "image/png", buffered).
Proof.
  intros Hb. rewrite data_url_png by apply b64encode_symbols.
  by rewrite b64decode_encode.
Qed.

Section Saving.
Context `{!CharacterReferences, !ReferencesLawful}.

(** What is saved from an anchor whose first attributes are [href] and
    [download]. *)
Lemma save_link_anchor html url name rest :
  start_tag html
  = Some (lit "a", (lit "href", url) :: (lit "download", name) :: rest) ->
  save_link html = (file ← data_url url; Some (name, file)).
Proof.
  intros Ht. unfold save_link. rewrite Ht. cbn [fst snd assoc mbind option_bind].
  rewrite (bool_decide_eq_false_2 (lit "href" = lit "download")) by done.
  by rewrite !bool_decide_eq_true_2 by done.
Qed.

(** Whenever activating the link saves a file, the file holds the
    bytes [image.save] produced, as [image/png], and its name is the
    file name the script built only if that holds no double quote; and
    a file is saved, under the name the script built, when the file
    name is written with plain characters. *)
Theorem link_saves_image buffered filename :
  is_bytes buffered ->
  let link := link_head ++ b64encode buffered ++ link_mid ++ filename
              ++ link_tail in
  (forall name file,
     save_link link = Some (name, file) ->
     file = (lit "image/png", buffered) /\ (name = filename -> 34 ∉ filename)) /\
  (forallb html_plain filename = true ->
   save_link link = Some (filename, (lit "image/png", buffered))).
Proof.
  intros Hb link. split.
  - intros name file. destruct (start_tag link) as [tag|] eqn:Ht;
      [|by unfold save_link; rewrite Ht].
    pose proof Ht as (name' & rest & -> & Hlen)%link_download; [|done].
    rewrite (save_link_anchor _ _ _ _ Ht), link_data_url by done.
    intros [= <- <-]. split; [done|]. intros -> Hq%Hlen. lia.
  - intros Hf. erewrite save_link_anchor by by apply link_attributes.
    by rewrite link_data_url.
Qed.

End Saving.
