(* ===== verification/Main.v ===== *)
(** * Main: [main()] and the script's top level
      (src/MandalaArt.py, lines 10-55 and 124-275)

    One run of the script draws the page from top to bottom.  The left
    column holds the two text fields and the button; when the button
    reports a click and both fields are non-blank the run calls
    [generate_mandala_image], and on success stores the image, the
    prompt and the trimmed word in the session state and calls
    [st.rerun()].  The right column shows the stored image with its
    download link, or a placeholder.

    [Inputs] is what the front end hands to one run: the contents of the
    two fields and whether the button reports a click.  [interaction]
    is what follows one user action: the run it triggers, and the second
    run that [st.rerun()] asks for. *)

From stdpp Require Import base tactics list numbers strings.
From S2P Require Import Prelude PyStr Prompt World Session Script.
From S2P Require Import ImageClient Base64 Timestamp Texts Download.

Local Open Scope N_scope.
Local Open Scope script_scope.

(** ** What the front end supplies to a run *)

Record Inputs := {
  api_key_field : str;        (* the value [st.text_input] returns, line 136 *)
  word_field : str;           (* the value [st.text_input] returns, line 144 *)
  clicked : bool;             (* the value [st.button] returns, line 153 *)
}.

(** The run that follows [st.rerun()]: the fields keep their values and
    the button, which reports a click only to the run the click
    triggered, reports none. *)
Definition after_rerun (inp : Inputs) : Inputs :=
  {| api_key_field := api_key_field inp;
     word_field := word_field inp;
     clicked := false |}.

(** ** Widgets *)

(** [st.text_input(...)]: draws the field and returns its content. *)
Definition text_input (label placeholder : str) (password : bool)
    (help : option str) (max_chars : option nat) (value : str) : script str :=
  draw (Text_input label placeholder password help max_chars) ;;
  ret value.

(** [st.button(label, disabled=...)]: draws the button and returns
    whether it was clicked. *)
Definition button (label : str) (disabled : bool) (value : bool)
  : script bool :=
  draw (Button label disabled) ;;
  ret value.

(** [st.markdown(body)] and [st.markdown(body, unsafe_allow_html=True)] *)
Definition markdown (body : str) : script unit := draw (Markdown body false).
Definition markdown_html (body : str) : script unit := draw (Markdown body true).

(** ** Texts with interpolation *)

(** [api_key.strip() and inspiration_word.strip()] (line 151): a
    string, empty exactly when one of the fields is blank. *)
Definition can_generate (api_key inspiration_word : str) : str :=
  py_and (strip api_key) (strip inspiration_word).

(** [f"✨ Your '{inspiration_word}' mandala is ready!"] (line 162); the
    word is the field's content, not its trimmed form. *)
Definition ready_message (inspiration_word : str) : str :=
  [0x2728] ++ lit " Your '" ++ inspiration_word ++ lit "' mandala is ready!".

(** [f"Mandala inspired by: {word}"] (line 199) *)
Definition caption (word : str) : str := lit "Mandala inspired by: " ++ word.

(** The f-string of lines 214-219. *)
Definition image_info (filename : str) (image : Image) (word : str) : str :=
  nl ++ lit "            **Filename:** " ++ filename ++ lit "  " ++ nl
  ++ lit "            **Format:** PNG  " ++ nl
  ++ lit "            **Size:** " ++ str_of_N (fst (img_size image))
  ++ lit "x" ++ str_of_N (snd (img_size image)) ++ lit " pixels  " ++ nl
  ++ lit "            **Inspiration:** " ++ word ++ nl ++ lit "            ".

Section Page.
Context `{!OpenAIApi, !RequestsApi, !PillowApi, !ClockApi, !StreamlitApi}.

(** ** The button's handler (lines 153-163) *)

Definition on_generate (api_key inspiration_word : str) : script unit :=
  if truthy (can_generate api_key inspiration_word) then
    result <- generate_mandala_image api_key (strip inspiration_word) ;;
    match result with
    | (Some image, prompt) =>
        assign (Current_image image) ;;
        assign (Current_prompt prompt) ;;
        assign (Current_word (strip inspiration_word)) ;;
        draw (Success (ready_message inspiration_word)) ;;
        rerun
    | (None, _) => ret tt
    end
  else ret tt.

(** ** The left column (lines 132-188) *)

Definition left_column (inp : Inputs) : script unit :=
  with_ (Column 0)
    (markdown inspiration_heading ;;
     api_key <- text_input api_key_label api_key_placeholder true
                  (Some api_key_help) None (api_key_field inp) ;;
     inspiration_word <- text_input word_label word_placeholder false
                           None (Some max_chars) (word_field inp) ;;
     pressed <- button generate_label
                  (py_not (can_generate api_key inspiration_word))
                  (clicked inp) ;;
     (if pressed then on_generate api_key inspiration_word else ret tt) ;;
     (if py_not (strip api_key) || py_not (strip inspiration_word)
      then draw (Info requirements_info) else ret tt) ;;
     with_ (Expander howto_label) (markdown howto_text) ;;
     with_ (Expander settings_label) (markdown settings_text)).

(** ** The right column (lines 190-239) *)

(** [st.session_state.current_word] (line 196) *)
Definition get_current_word : script str :=
  s <- read ;;
  match current_word s with
  | Some word => ret word
  | None => raise (AttributeError "current_word")
  end.

(** Lines 195-226: the branch taken when an image is stored. *)
Definition show_mandala (image : Image) : script unit :=
  word <- get_current_word ;;
  draw (Show_image image (caption word) true) ;;
  markdown_html download_div_open ;;
  markdown download_heading ;;
  now <- call Datetime_now (Returns datetime_now) ;;
  let timestamp := strftime now in
  let filename := download_filename word timestamp in
  download_link <- get_image_download_link image filename ;;
  markdown_html download_link ;;
  markdown (image_info filename image word) ;;
  markdown_html div_close ;;
  s <- read ;;
  match current_prompt s with
  | Some prompt =>
      with_ (Expander prompt_expander_label)
        (draw (Text_area prompt_area_label prompt 150))
  | None => ret tt
  end.

(** Lines 227-239: the branch taken when none is. *)
Definition show_placeholder : script unit :=
  draw (Info empty_info) ;;
  markdown examples_heading ;;
  markdown examples_text.

Definition right_column : script unit :=
  with_ (Column 1)
    (markdown mandala_heading ;;
     s <- read ;;
     match current_image s with
     | Some image => show_mandala image
     | None => show_placeholder
     end).

(** ** The footer (lines 241-272) *)

Definition footer : script unit :=
  markdown rule ;;
  markdown tips_heading ;;
  draw (Columns_n 3) ;;
  with_ (Column 0) (markdown tip_words) ;;
  with_ (Column 1) (markdown tip_printing) ;;
  with_ (Column 2) (markdown tip_usage) ;;
  markdown rule ;;
  markdown privacy_note.

(** ** [main()] (lines 124-272) *)

Definition main (inp : Inputs) : script unit :=
  markdown_html header_html ;;
  markdown_html subtitle_html ;;
  draw (Columns [1; 1]) ;;
  left_column inp ;;
  right_column ;;
  footer.

(** ** The script: page configuration and style sheet (lines 11-55),
       then [main()] (lines 274-275)

    Streamlit executes the script as the module [__main__], so the test
    of line 274 holds in every run. *)

Definition top_level : script unit :=
  draw (Set_page_config page_title page_icon page_layout sidebar_state) ;;
  markdown_html css.

Definition page (inp : Inputs) : script unit :=
  top_level ;;
  main inp.

(** ** One user action

    Streamlit runs the script; when the run ends with [st.rerun()] it
    runs the script again at once, with the same field contents.
    [fuel] bounds the number of runs; [interaction_terminates] shows two
    are always enough. *)
Fixpoint interaction (fuel : nat) (inp : Inputs) (s : SessionState)
  : option (list (run unit)) :=
  match fuel with
  | O => None
  | S fuel =>
      let r := page inp s in
      match ended r with
      | Rerun =>
          match interaction fuel (after_rerun inp) (session r) with
          | Some rs => Some (r :: rs)
          | None => None
          end
      | _ => Some [r]
      end
  end.

(** The session state a sequence of runs leaves behind. *)
Definition final_session (s : SessionState) (rs : list (run unit))
  : SessionState :=
  match last rs with
  | Some r => session r
  | None => s
  end.

End Page.
