(* ===== verification/Controller.v ===== *)
(** * Controller: what one run and one user action do to the session

    The specification (section 4.5) describes a controller that submits
    a request when the button is pressed with both fields non-blank,
    stores the result when the request succeeds and changes nothing when
    it fails.  This file relates [page] and [interaction] of [Main] to
    that description.

    [submitted] says whether a run reaches [generate_mandala_image];
    [answer] is what the contract of [ImageClient] answers for the run's
    fields.  The theorems give, for every run: how it ends, the session
    state it leaves, the library calls it makes and what it draws
    ([balanced], [page_configs]); the invariant [coherent]; that the
    key is neither stored nor drawn, proved by congruence for the
    equivalence [same_view] of [Script]; and that a rerun is never
    followed by another, so that a user action ends after at most two
    runs. *)

From stdpp Require Import base tactics list numbers strings.
From S2P Require Import Prelude PyStr Prompt World Session Script.
From S2P Require Import ImageClient Base64 Timestamp Texts Download Main.

Local Open Scope N_scope.
Local Open Scope script_scope.

(** ** Definitions *)

(** The run reaches the call of [generate_mandala_image]: the button
    reports a click and line 154's test passes. *)
Definition submitted (inp : Inputs) : bool :=
  clicked inp && truthy (can_generate (api_key_field inp) (word_field inp)).

(** A library call that leaves the machine: the three network calls. *)
Definition is_network_call (c : api_call) : bool :=
  match c with
  | OpenAI_new _ | Images_generate _ _ | Requests_get _ => true
  | Image_open_of _ | Image_save_of _ | Datetime_now => false
  end.

(** The network calls of a trace, in order. *)
Fixpoint network_calls (t : list event) : list api_call :=
  match t with
  | [] => []
  | Api c :: t => if is_network_call c then c :: network_calls t
                  else network_calls t
  | _ :: t => network_calls t
  end.

(** The button is drawn disabled. *)
Definition button_disabled (inp : Inputs) : bool :=
  py_not (can_generate (api_key_field inp) (word_field inp)).

(** The [with] blocks among some elements are properly nested: every
    block that is left is the innermost one entered, and with [open]
    empty none stays open. *)
Fixpoint balanced (open : list container) (l : list element) : bool :=
  match l with
  | [] => bool_decide (open = [])
  | Enter c :: l => balanced (c :: open) l
  | Exit c :: l =>
      match open with
      | c' :: open' => bool_decide (c = c') && balanced open' l
      | [] => false
      end
  | _ :: l => balanced open l
  end.

(** The calls of [st.set_page_config] among some elements. *)
Fixpoint page_configs (l : list element) : nat :=
  match l with
  | [] => 0
  | Set_page_config _ _ _ _ :: l => S (page_configs l)
  | _ :: l => page_configs l
  end.

(** What the front end can hand to a run: the word field refuses a
    character beyond [max_chars] (line 147), and a button drawn disabled
    reports no click (line 153). *)
Definition from_front_end (inp : Inputs) : Prop :=
  (length (word_field inp) <= max_chars)%nat /\
  (button_disabled inp = true -> clicked inp = false).

Section Controller.
Context `{!OpenAIApi, !RequestsApi, !PillowApi, !ClockApi, !StreamlitApi}.

(** The contract's answer for the fields of a run. *)
Definition answer (inp : Inputs) : failure + Image :=
  generate (api_key_field inp)
           (generate_mandala_prompt (strip (word_field inp))).

(** How drawing the right column ends in session state [s]. *)
Definition display_ended (s : SessionState) : outcome unit :=
  match current_image s with
  | None => Done tt
  | Some image =>
      match current_word s with
      | None => Raised (AttributeError "current_word")
      | Some _ =>
          match Image_save_PNG image with
          | Returns _ => Done tt
          | Raises e => Raised e
          end
      end
  end.

(** The session state a run leaves. *)
Definition next_session (inp : Inputs) (s : SessionState) : SessionState :=
  if submitted inp then
    match answer inp with
    | inr image =>
        store image (Some (generate_mandala_prompt (strip (word_field inp))))
              (strip (word_field inp)) s
    | inl _ => s
    end
  else s.

(** How a run ends. *)
Definition next_ended (inp : Inputs) (s : SessionState) : outcome unit :=
  if submitted inp then
    match answer inp with
    | inr _ => Rerun
    | inl _ => display_ended s
    end
  else display_ended s.

End Controller.

(** [unfold_page]: unfold the script's functions and the monad, without
    evaluating any text. *)
Ltac unfold_page :=
  cbv beta iota zeta delta
    [page top_level main left_column right_column footer on_generate
     show_mandala
     show_placeholder get_current_word get_image_download_link text_input
     button markdown markdown_html submitted answer next_session next_ended
     display_ended returned store andb
     try_except bind call eval with_ draw ret raise rerun read assign
     drawn called ended session trace];
  cbn [setattr set_current_image set_current_prompt set_current_word
       current_image current_prompt current_word
       api_key_field word_field clicked after_rerun].

(** [run_page]: unfold a run and split on every test it meets, in
    program order. *)
Ltac run_page :=
  unfold_page;
  repeat (first [ rewrite generate_mandala_image_run
                | rewrite decode_b64encode
                | split_scrutinee ];
          unfold_page).

(** ** The gate of line 151 *)

Lemma can_generate_truthy api_key word :
  truthy (can_generate api_key word) = negb (blank api_key) && negb (blank word).
Proof. unfold can_generate. by rewrite py_and_truthy, !strip_truthy. Qed.

(** C28: the button is disabled exactly when the key or the word is empty
    or made of whitespace only. *)
Theorem button_disabled_iff inp :
  button_disabled inp = blank (api_key_field inp) || blank (word_field inp).
Proof.
  unfold button_disabled, py_not. rewrite can_generate_truthy.
  by destruct (blank _), (blank _).
Qed.

(** with inputs the front end can produce, every click is
    submitted, so that the second test of line 154 never fails, and the
    prompt of the request is within what the endpoint accepts. *)
Theorem front_end_request inp :
  from_front_end inp -> clicked inp = true ->
  submitted inp = true /\
  (length (gen_prompt (generate_args
     (generate_mandala_prompt (strip (word_field inp)))))
   <= dalle3_prompt_limit)%nat.
Proof.
  intros [Hlen Hdis] Hc. unfold submitted, button_disabled, py_not in *.
  destruct (truthy (can_generate _ _)); [|by rewrite Hdis in Hc].
  rewrite Hc. split; [done|]. cbn [gen_prompt generate_args].
  rewrite prompt_length. pose proof (strip_length (word_field inp)).
  unfold max_chars, dalle3_prompt_limit in *. lia.
Qed.

(** A run that is submitted has a non-blank key and a non-blank word. *)
Lemma submitted_fields inp :
  submitted inp = true ->
  clicked inp = true /\ blank (api_key_field inp) = false /\
  blank (word_field inp) = false.
Proof.
  unfold submitted. rewrite can_generate_truthy.
  destruct (clicked inp), (blank _), (blank _); naive_solver.
Qed.

Lemma submitted_word inp :
  submitted inp = true ->
  strip (word_field inp) <> [] /\ trimmed (strip (word_field inp)).
Proof.
  intros (_ & _ & Hw)%submitted_fields. split; [|apply strip_trimmed].
  intros E%strip_nil_iff. congruence.
Qed.

Lemma after_rerun_not_submitted inp : submitted (after_rerun inp) = false.
Proof. reflexivity. Qed.

Lemma network_calls_app t1 t2 :
  network_calls (t1 ++ t2) = network_calls t1 ++ network_calls t2.
Proof.
  induction t1 as [|[e|c|a] t1 IH]; simpl; [done..| |done].
  destruct (is_network_call c); simpl; by rewrite IH.
Qed.

(** [tidy_page]: compute the elements and error boxes of an unfolded
    trace, using what is known of the client's part of it. *)
Ltac tidy_page :=
  repeat first
    [ progress cbn [elements error_messages app reported]
    | rewrite elements_app
    | rewrite error_messages_app
    | rewrite client_trace_elements
    | rewrite app_nil_r
    | match goal with
      | H : generate _ _ = _ |- context [generate _ _] => rewrite H
      end ].

(** [run_submitted Hsub Hans]: run a page that is submitted
    ([Hsub]) and answered as [Hans] says, down to the elements it
    draws. *)
Ltac run_submitted Hsub Hans :=
  revert Hsub Hans; unfold submitted, answer;
  destruct (clicked _) eqn:?, (truthy (can_generate _ _)) eqn:?;
  intros [=] Hans; run_page; same_answer; tidy_page.

Section ControllerFacts.
Context `{!OpenAIApi, !RequestsApi, !PillowApi, !ClockApi, !StreamlitApi}.
Implicit Types (inp : Inputs) (s : SessionState).

(** ** The left column *)

Lemma left_column_ended inp s :
  ended (left_column inp s) =
  if submitted inp then
    match answer inp with inr _ => Rerun | inl _ => Done tt end
  else Done tt.
Proof. run_page; done. Qed.

Lemma left_column_session inp s :
  session (left_column inp s) = next_session inp s.
Proof. run_page; done. Qed.

(** ** The right column and the footer *)

Lemma right_column_session s : session (right_column s) = s.
Proof. run_page; done. Qed.

Lemma right_column_ended s : ended (right_column s) = display_ended s.
Proof. run_page; done. Qed.

Lemma footer_run s : ended (footer s) = Done tt /\ session (footer s) = s.
Proof. by run_page. Qed.

(** ** One run of the script *)

Lemma page_session inp s : session (page inp s) = next_session inp s.
Proof. run_page; done. Qed.

Lemma page_ended inp s : ended (page inp s) = next_ended inp s.
Proof. run_page; done. Qed.

Lemma next_session_coherent inp s : coherent s -> coherent (next_session inp s).
Proof.
  intros Hs. unfold next_session.
  destruct (submitted inp) eqn:Hsub; [|done].
  destruct (answer inp); [done|].
  apply submitted_word in Hsub as [? ?]. by apply coherent_store.
Qed.

(** C1: what a run does to the session state and how it ends.  The state
    differs from the state before only when the run was submitted and
    the contract answered with an image; then the three attributes hold
    that image, the prompt built from the trimmed word, and the trimmed
    word, and the run ends with [st.rerun()].  In every other case the
    run ends as drawing the right column ends. *)
Theorem page_refines inp s :
  session (page inp s) = next_session inp s /\
  ended (page inp s) = next_ended inp s.
Proof. split; [apply page_session | apply page_ended]. Qed.

(** every run preserves the invariant of the session state, and a
    run that is not submitted leaves the session state as it was. *)
Theorem page_coherent inp s :
  coherent s ->
  coherent (session (page inp s)) /\
  (submitted inp = false -> session (page inp s) = s).
Proof.
  rewrite page_session. split; [by apply next_session_coherent|].
  unfold next_session. by intros ->.
Qed.

(** The network calls of a run: those of one call of
    [generate_mandala_image] when the run is submitted, none
    otherwise. *)
Lemma page_network_calls inp s :
  network_calls (trace (page inp s)) =
  if submitted inp
  then network_calls (client_trace (api_key_field inp) (strip (word_field inp)))
  else [].
Proof.
  unfold submitted.
  destruct (clicked inp) eqn:Hc,
    (truthy (can_generate (api_key_field inp) (word_field inp))) eqn:Ht;
    run_page; try congruence;
    cbn [app network_calls]; rewrite ?network_calls_app;
    cbn [app network_calls is_network_call]; by rewrite ?app_nil_r.
Qed.

(** C4: a run that is not submitted (no click, or a blank field) makes
    no network call, whatever the button reports. *)
Theorem page_gated inp s :
  submitted inp = false -> network_calls (trace (page inp s)) = [].
Proof. intros Hsub. by rewrite page_network_calls, Hsub. Qed.

(** a submitted run makes the network calls of one call of
    [generate_mandala_image] on the key and the trimmed word, and no
    other. *)
Theorem page_submitted_calls inp s :
  submitted inp = true ->
  network_calls (trace (page inp s))
  = network_calls (client_trace (api_key_field inp) (strip (word_field inp))).
Proof. intros Hsub. by rewrite page_network_calls, Hsub. Qed.

(** ** What the user sees *)

(** C5: a submitted run whose request fails leaves the session state
    as it was and draws one [st.error] box with the failure's text; an
    image stored by an earlier success is still drawn below it. *)
Theorem page_failure inp s f :
  submitted inp = true -> answer inp = inl f ->
  session (page inp s) = s /\
  error_messages (drawn (page inp s)) = [failure_message f] /\
  forall image word,
    current_image s = Some image -> current_word s = Some word ->
    Show_image image (caption word) true ∈ drawn (page inp s).
Proof.
  intros Hsub Hans. split; [|split].
  - rewrite page_session. unfold next_session. by rewrite Hsub, Hans.
  - run_submitted Hsub Hans; by destruct f; tidy_page.
  - intros image word Hi Hw.
    run_submitted Hsub Hans; destruct f; tidy_page; find_elem.
Qed.

(** C6: a submitted run whose request succeeds stores the image, draws
    the success message with the word as typed and ends with
    [st.rerun()] before the right column is entered; the run that
    follows draws the stored image with the trimmed word in its
    caption. *)
Theorem page_success inp s image :
  submitted inp = true -> answer inp = inr image ->
  let r := page inp s in
  let r' := page (after_rerun inp) (session r) in
  ended r = Rerun /\
  held (session r) =
    Some {| Session.image := image;
            promptUsed := generate_mandala_prompt (strip (word_field inp));
            sourceTopic := strip (word_field inp) |} /\
  Success (ready_message (word_field inp)) ∈ drawn r /\
  (Enter (Column 1) ∉ drawn r) /\
  Show_image image (caption (strip (word_field inp))) true ∈ drawn r'.
Proof.
  intros Hsub Hans. cbn zeta. split_and!.
  - rewrite page_ended. unfold next_ended. by rewrite Hsub, Hans.
  - rewrite page_session. unfold next_session. by rewrite Hsub, Hans.
  - run_submitted Hsub Hans; find_elem.
  - run_submitted Hsub Hans; miss_elem.
  - rewrite page_session. unfold next_session. rewrite Hsub, Hans.
    run_page; same_answer; tidy_page; find_elem.
Qed.

(** ** The shape of what is drawn *)

(** C34: on every path, exceptions and [st.rerun()] included, a run
    calls [st.set_page_config] first and only once, draws the style
    sheet next, and leaves every [with] block it entered, innermost
    first. *)
Theorem page_well_formed inp s :
  take 2 (drawn (page inp s))
  = [Set_page_config page_title page_icon page_layout sidebar_state;
     Markdown css true] /\
  page_configs (drawn (page inp s)) = 1%nat /\
  balanced [] (drawn (page inp s)) = true.
Proof.
  split_and!; run_page; tidy_page;
    repeat match goal with
           | f : failure |- _ => destruct f; tidy_page
           end;
    cbn [page_configs balanced]; rewrite ?bool_decide_eq_true_2 by done;
    reflexivity.
Qed.

(** ** What the key can influence *)

(** A widget hands its value to the rest of the script after drawing
    itself. *)
Lemma text_input_bind {B} label placeholder password help limit value
    (f : str -> script B) :
  (x <- text_input label placeholder password help limit value ;; f x)
  ≡ (draw (Text_input label placeholder password help limit) ;; f value).
Proof. intros s. reflexivity. Qed.

Lemma button_bind {B} label disabled value (f : bool -> script B) :
  (x <- button label disabled value ;; f x)
  ≡ (draw (Button label disabled) ;; f value).
Proof. intros s. reflexivity. Qed.

(** The handler, the left column and the page look the same for two
    keys that are both blank or both non-blank and obtain the same
    answer. *)
Lemma on_generate_same api_key1 api_key2 word :
  blank api_key1 = blank api_key2 ->
  generate api_key1 (generate_mandala_prompt (strip word))
  = generate api_key2 (generate_mandala_prompt (strip word)) ->
  on_generate api_key1 word ≡ on_generate api_key2 word.
Proof.
  intros Hb Hg. unfold on_generate. rewrite !can_generate_truthy, Hb.
  destruct (negb (blank api_key2) && negb (blank word)); [|done].
  f_equiv. by apply generate_mandala_image_same.
Qed.

Lemma left_column_same inp1 inp2 :
  word_field inp1 = word_field inp2 -> clicked inp1 = clicked inp2 ->
  blank (api_key_field inp1) = blank (api_key_field inp2) ->
  answer inp1 = answer inp2 ->
  left_column inp1 ≡ left_column inp2.
Proof.
  destruct inp1 as [k1 w c], inp2 as [k2 w2 c2]. unfold answer. simpl.
  intros Hw Hc Hb Ha. subst. unfold left_column. simpl.
  repeat setoid_rewrite text_input_bind. repeat setoid_rewrite button_bind.
  unfold py_not. rewrite !can_generate_truthy, !strip_truthy, Hb.
  repeat first [ reflexivity | by apply on_generate_same | case_match
               | f_equiv; try intros _ ].
Qed.

Lemma page_same inp1 inp2 :
  word_field inp1 = word_field inp2 -> clicked inp1 = clicked inp2 ->
  blank (api_key_field inp1) = blank (api_key_field inp2) ->
  answer inp1 = answer inp2 ->
  page inp1 ≡ page inp2.
Proof.
  intros Hw Hc Hb Ha. unfold page, top_level, main.
  repeat first [ reflexivity | by apply left_column_same
               | f_equiv; try intros _ ].
Qed.

(** C11: the key influences a run only through its blankness and through
    what the libraries answer to it.  Two runs from the same state with
    the same word and click, whose keys are both blank or both
    non-blank and obtain the same answer, end in the same way, leave the
    same session state and draw exactly the same elements: the key
    itself is neither stored nor drawn. *)
Theorem page_key_confined inp1 inp2 s :
  word_field inp1 = word_field inp2 -> clicked inp1 = clicked inp2 ->
  blank (api_key_field inp1) = blank (api_key_field inp2) ->
  answer inp1 = answer inp2 ->
  ended (page inp1 s) = ended (page inp2 s) /\
  session (page inp1 s) = session (page inp2 s) /\
  drawn (page inp1 s) = drawn (page inp2 s).
Proof. intros Hw Hc Hb Ha. by apply page_same. Qed.

(** ** One user action *)

Lemma display_ended_not_rerun s : display_ended s <> Rerun.
Proof. unfold display_ended. by repeat case_match. Qed.

Lemma page_after_rerun inp s :
  ended (page (after_rerun inp) s) <> Rerun /\
  session (page (after_rerun inp) s) = s.
Proof.
  rewrite page_ended, page_session. unfold next_ended, next_session.
  rewrite after_rerun_not_submitted. split; [apply display_ended_not_rerun|done].
Qed.

(** What an action amounts to: the run it triggers and, after
    [st.rerun()], one more run with the button released. *)
Lemma interaction_unfold fuel inp s :
  interaction (S (S fuel)) inp s =
  Some (match ended (page inp s) with
        | Rerun => [page inp s; page (after_rerun inp) (session (page inp s))]
        | _ => [page inp s]
        end).
Proof.
  cbn [interaction]. destruct (ended (page inp s)) eqn:E; try done.
  destruct (page_after_rerun inp (session (page inp s))) as [Hne _].
  destruct fuel; cbn [interaction];
    by destruct (ended (page (after_rerun inp) (session (page inp s)))).
Qed.

(** The session state after a user action is the one its first run
    leaves: the rerun that follows a success changes nothing. *)
Lemma interaction_session fuel inp s rs :
  interaction fuel inp s = Some rs -> final_session s rs = next_session inp s.
Proof.
  destruct fuel as [|[|fuel]]; [done| |].
  - cbn [interaction]. destruct (ended (page inp s)) eqn:E; try done;
      intros [= <-]; unfold final_session; simpl; apply page_session.
  - rewrite interaction_unfold. intros [= <-]. unfold final_session.
    destruct (ended (page inp s)); simpl; rewrite <- ?page_session; try done.
    apply page_after_rerun.
Qed.

(** C9: a user action always comes to an end: two runs of the script
    suffice, more fuel changes nothing, and the session state it leaves
    is the one its first run leaves. *)
Theorem interaction_terminates inp s :
  exists rs, interaction 2 inp s = Some rs /\ (length rs <= 2)%nat /\
             (forall fuel, (2 <= fuel)%nat -> interaction fuel inp s = Some rs) /\
             final_session s rs = next_session inp s.
Proof.
  eexists. split; [apply (interaction_unfold 0)|]. split_and!.
  - destruct (ended (page inp s)); simpl; lia.
  - intros [|[|fuel]] Hf; [lia..|]. apply interaction_unfold.
  - apply (interaction_session 2), (interaction_unfold 0).
Qed.

End ControllerFacts.
