(* ===== verification/View.v ===== *)
(** * View: the page as a function of the fields and the session state

    [page] of [Main] draws the page statement by statement, in the
    script's monad.  [page_view] is a reference description of the same
    page with no monad in it: the elements of the top, of the left
    column, of the right column and of the footer as lists, joined
    according to how the run ends.  [page_reference] is the run that
    draws it in one step, and [page_draws_view] shows that the script
    is equivalent to it, on every path; the proof goes column by
    column ([left_column_drawn], [right_column_drawn], [footer_drawn])
    and joins them with the laws of [bind].

    The facts the other files need are then facts about lists: which
    widgets are on the page, that there is one button and that its state
    is [button_disabled], that no two widgets are the same, that the
    only error box is the one of a failed request, that a success box
    is drawn only by a run that ends with [st.rerun()], where the image
    and the link of the right column are. *)

From stdpp Require Import base tactics list numbers strings.
From Stdlib Require Import Lia.
From S2P Require Import Prelude PyStr Prompt World Session Script.
From S2P Require Import ImageClient Base64 Timestamp Texts Download Main.
From S2P Require Import Controller.

Local Open Scope N_scope.

(** ** Definitions *)

(** The two text fields (lines 136-149). *)
Definition api_key_widget : element :=
  Text_input api_key_label api_key_placeholder true (Some api_key_help) None.

Definition word_widget : element :=
  Text_input word_label word_placeholder false None (Some max_chars).

(** The widgets among some elements: what the user can type into or
    press. *)
Definition is_widget (e : element) : bool :=
  match e with
  | Text_input _ _ _ _ _ | Button _ _ | Text_area _ _ _ => true
  | _ => false
  end.

Fixpoint widgets (l : list element) : list element :=
  match l with
  | [] => []
  | e :: l => if is_widget e then e :: widgets l else widgets l
  end.

(** Lines 11-55: the page configuration and the style sheet. *)
Definition config_view : list element :=
  [Set_page_config page_title page_icon page_layout sidebar_state;
   Markdown css true].

(** Lines 126-130: the header and the two columns. *)
Definition top_view : list element :=
  [Markdown header_html true; Markdown subtitle_html true; Columns [1; 1]].

(** Lines 133-153: the left column down to the button. *)
Definition form_view (inp : Inputs) : list element :=
  [Enter (Column 0); Markdown inspiration_heading false;
   api_key_widget; word_widget;
   Button generate_label (button_disabled inp)].

(** Lines 165-188: the hint shown while a field is blank, and the two
    expanders. *)
Definition help_view (inp : Inputs) : list element :=
  (if py_not (strip (api_key_field inp)) || py_not (strip (word_field inp))
   then [Info requirements_info] else [])
  ++ [Enter (Expander howto_label); Markdown howto_text false;
      Exit (Expander howto_label);
      Enter (Expander settings_label); Markdown settings_text false;
      Exit (Expander settings_label)].

(** Lines 241-272. *)
Definition footer_view : list element :=
  [Markdown rule false; Markdown tips_heading false; Columns_n 3;
   Enter (Column 0); Markdown tip_words false; Exit (Column 0);
   Enter (Column 1); Markdown tip_printing false; Exit (Column 1);
   Enter (Column 2); Markdown tip_usage false; Exit (Column 2);
   Markdown rule false; Markdown privacy_note false].

Section View.
Context `{!OpenAIApi, !RequestsApi, !PillowApi, !ClockApi, !StreamlitApi}.

(** Lines 203-226: what follows the image once [image.save] has
    returned the bytes. *)
Definition download_view (image : Image) (word : str) (buffered : bytes)
    (prompt : option (option str)) : list element :=
  let filename := download_filename word (strftime datetime_now) in
  [Markdown (link_head ++ b64encode buffered ++ link_mid ++ filename
             ++ link_tail) true;
   Markdown (image_info filename image word) false;
   Markdown div_close true]
  ++ match prompt with
     | Some prompt =>
         [Enter (Expander prompt_expander_label);
          Text_area prompt_area_label prompt 150;
          Exit (Expander prompt_expander_label)]
     | None => []
     end.

(** Lines 190-239: the right column in session state [s]. *)
Definition display_view (s : SessionState) : list element :=
  [Enter (Column 1); Markdown mandala_heading false]
  ++ match current_image s with
     | None =>
         [Info empty_info; Markdown examples_heading false;
          Markdown examples_text false]
     | Some image =>
         match current_word s with
         | None => []
         | Some word =>
             [Show_image image (caption word) true;
              Markdown download_div_open true;
              Markdown download_heading false]
             ++ match Image_save_PNG image with
                | Returns buffered =>
                    download_view image word buffered (current_prompt s)
                | Raises _ => []
                end
         end
     end
  ++ [Exit (Column 1)].

(** The texts of the [st.success] boxes among some elements. *)
Fixpoint success_messages (l : list element) : list str :=
  match l with
  | [] => []
  | Success body :: l => body :: success_messages l
  | _ :: l => success_messages l
  end.

(** The text area that shows the prompt (lines 222-226), when the right
    column gets that far. *)
Definition area_view (s : SessionState) : list element :=
  match current_image s, current_word s, current_prompt s with
  | Some image, Some _, Some prompt =>
      match Image_save_PNG image with
      | Returns _ => [Text_area prompt_area_label prompt 150]
      | Raises _ => []
      end
  | _, _, _ => []
  end.

(** What the handler of the button draws (lines 153-163). *)
Definition request_view (inp : Inputs) : list element :=
  if submitted inp then
    reported (strip (word_field inp)) (answer inp)
    ++ match answer inp with
       | inr _ => [Success (ready_message (word_field inp))]
       | inl _ => []
       end
  else [].

(** What [main()] draws in one run.  A run that ends with [st.rerun()]
    stops after the success message; a run in which the right column
    raises stops there; every other run draws the footer. *)
Definition main_view (inp : Inputs) (s : SessionState) : list element :=
  top_view ++ form_view inp ++ request_view inp
  ++ match next_ended inp s with
     | Rerun => [Exit (Column 0)]
     | Done _ =>
         help_view inp ++ [Exit (Column 0)] ++ display_view s ++ footer_view
     | Raised _ => help_view inp ++ [Exit (Column 0)] ++ display_view s
     end.

(** The page of one run: the top level of the script, then [main()]. *)
Definition page_view (inp : Inputs) (s : SessionState) : list element :=
  config_view ++ main_view inp s.

(** The reference script: it ends as [next_ended] says, leaves the
    session state [next_session] and draws [page_view], without calling
    any library. *)
Definition page_reference (inp : Inputs) : script unit :=
  fun s => Run (next_ended inp s) (next_session inp s) (Ui <$> page_view inp s).

End View.

(** [unfold_view]: unfold the pieces of [page_view] down to lists. *)
Ltac unfold_view :=
  cbv beta iota zeta delta
    [page_view main_view config_view top_view form_view help_view
     footer_view display_view
     download_view request_view area_view api_key_widget word_widget
     button_disabled next_ended display_ended submitted answer andb];
  cbn [current_image current_prompt current_word
       api_key_field word_field clicked app].

(** [observe_view app reported]: compute an observation of [page_view]
    that distributes over [++] ([app]) and is known on the elements of
    the client ([reported]), by cases on how the page is put
    together. *)
Ltac observe_view app reported :=
  unfold page_view, main_view, next_ended, display_ended, request_view,
    help_view, display_view, download_view, area_view, config_view, top_view,
    form_view, footer_view;
  repeat case_match; simplify_eq; rewrite !app, ?reported; reflexivity.

(** ** The script draws the view *)

(** What a sequence draws, from its two parts. *)
Lemma drawn_bind {A B} (m : script A) (f : A -> script B) s :
  drawn (bind m f s) =
  match ended (m s) with
  | Done a => drawn (m s) ++ drawn (f a (session (m s)))
  | _ => drawn (m s)
  end.
Proof.
  unfold drawn. rewrite bind_trace.
  destruct (ended (m s)); by rewrite ?elements_app.
Qed.

Lemma drawn_draw {B} e (f : unit -> script B) s :
  drawn (bind (draw e) f s) = e :: drawn (f tt s).
Proof. by rewrite drawn_bind. Qed.

Lemma widgets_app l1 l2 : widgets (l1 ++ l2) = widgets l1 ++ widgets l2.
Proof.
  induction l1 as [|e l1 IH]; [done|]. cbn [app widgets].
  destruct (is_widget e); by rewrite IH.
Qed.

Lemma elem_of_widgets e l : e ∈ widgets l <-> e ∈ l /\ is_widget e = true.
Proof.
  induction l as [|e' l IH]; cbn [widgets].
  { rewrite elem_of_nil. tauto. }
  destruct (is_widget e') eqn:E; rewrite ?elem_of_cons, IH;
    intuition congruence.
Qed.

Lemma success_messages_app l1 l2 :
  success_messages (l1 ++ l2) = success_messages l1 ++ success_messages l2.
Proof. induction l1 as [|[] l1 IH]; simpl; by rewrite ?IH. Qed.

Lemma elem_of_success_messages e l : Success e ∈ l <-> e ∈ success_messages l.
Proof.
  induction l as [|[] l IH]; cbn [success_messages];
    rewrite ?elem_of_cons, ?elem_of_nil; try (rewrite <- IH); try tauto;
    intuition congruence.
Qed.

Lemma elements_Ui l : elements (Ui <$> l) = l.
Proof. induction l as [|e l IH]; [done|]. cbn. by rewrite IH. Qed.

Lemma elem_of_error_messages e l : Error e ∈ l <-> e ∈ error_messages l.
Proof.
  induction l as [|[] l IH]; cbn [error_messages];
    rewrite ?elem_of_cons, ?elem_of_nil; try (rewrite <- IH); try tauto;
    intuition congruence.
Qed.

Section ViewFacts.
Context `{!OpenAIApi, !RequestsApi, !PillowApi, !ClockApi, !StreamlitApi}.
Implicit Types (inp : Inputs) (s : SessionState).

Lemma left_column_drawn inp s :
  drawn (left_column inp s) =
  form_view inp ++ request_view inp
  ++ match ended (left_column inp s) with
     | Rerun => []
     | _ => help_view inp
     end ++ [Exit (Column 0)].
Proof.
  rewrite left_column_ended. unfold_view.
  run_page; tidy_page; try reflexivity;
    by match goal with f : failure |- _ => destruct f end.
Qed.

Lemma right_column_drawn s : drawn (right_column s) = display_view s.
Proof.
  run_page; tidy_page; unfold_view;
    repeat match goal with H : ?t = _ |- context [?t] => rewrite H end;
    reflexivity.
Qed.

Lemma footer_drawn s : drawn (footer s) = footer_view.
Proof. reflexivity. Qed.

Lemma top_level_run s :
  top_level s =
  Run (Done tt) s
    [Ui (Set_page_config page_title page_icon page_layout sidebar_state);
     Ui (Markdown css true)].
Proof. reflexivity. Qed.

Lemma page_drawn_view inp s : drawn (page inp s) = page_view inp s.
Proof.
  unfold page, main, markdown_html, page_view, main_view, config_view,
    top_view.
  rewrite drawn_bind, top_level_run, drawn_Run. cbn [ended session elements].
  rewrite !drawn_draw, drawn_bind, left_column_drawn, left_column_ended,
    left_column_session, drawn_bind, right_column_drawn, right_column_ended,
    right_column_session, footer_drawn.
  unfold next_ended, next_session. cbn [app].
  destruct (submitted inp); [destruct (answer inp)|];
    destruct (display_ended s) as [[]| |] eqn:E;
    rewrite <- ?app_assoc; try reflexivity;
    by destruct (display_ended_not_rerun s).
Qed.

(** ** The widgets of the page *)

Lemma widgets_reported word r : widgets (reported word r) = [].
Proof. by destruct r as [[]|]. Qed.

Lemma page_view_widgets inp s :
  widgets (page_view inp s) =
  api_key_widget :: word_widget :: Button generate_label (button_disabled inp)
  :: match next_ended inp s with Rerun => [] | _ => area_view s end.
Proof. observe_view widgets_app widgets_reported. Qed.

(** What is on the page among the widgets: the two fields always, and
    the button in the state of [button_disabled] only. *)
Lemma page_view_fields inp s :
  api_key_widget ∈ page_view inp s /\ word_widget ∈ page_view inp s.
Proof.
  split; (eapply elem_of_widgets; rewrite page_view_widgets); find_elem.
Qed.

Lemma page_view_button inp s label disabled :
  Button label disabled ∈ page_view inp s <->
  label = generate_label /\ disabled = button_disabled inp.
Proof.
  split.
  - intros Hin. assert (Hw : Button label disabled ∈ widgets (page_view inp s))
      by by apply elem_of_widgets.
    rewrite page_view_widgets in Hw. unfold area_view in Hw.
    repeat case_match; simplify_eq;
      repeat (apply elem_of_cons in Hw as [Hw|Hw]; simplify_eq);
      try done; by apply elem_of_nil in Hw.
  - intros [-> ->]. eapply elem_of_widgets. rewrite page_view_widgets.
    find_elem.
Qed.

(** ** The error boxes of the page *)

Lemma success_messages_reported word r :
  success_messages (reported word r) = [].
Proof. by destruct r as [[]|]. Qed.

Lemma error_messages_reported word r :
  error_messages (reported word r)
  = match r with inl f => [failure_message f] | inr _ => [] end.
Proof. by destruct r as [[]|]. Qed.

(** The only error box of a page is the one of a failed request. *)
Lemma page_view_errors inp s :
  error_messages (page_view inp s) =
  if submitted inp then
    match answer inp with inl f => [failure_message f] | inr _ => [] end
  else [].
Proof. observe_view error_messages_app error_messages_reported. Qed.

Lemma page_view_error inp s e :
  Error e ∈ page_view inp s ->
  submitted inp = true /\ exists f, answer inp = inl f /\ e = failure_message f.
Proof.
  intros Hin%elem_of_error_messages. rewrite page_view_errors in Hin.
  destruct (submitted inp); [|by apply elem_of_nil in Hin].
  destruct (answer inp) as [f|]; [|by apply elem_of_nil in Hin].
  apply list_elem_of_singleton in Hin. eauto.
Qed.

(** The success message is drawn only by a run that ends with
    [st.rerun()]. *)
Lemma page_view_successes inp s :
  success_messages (page_view inp s) =
  match next_ended inp s with
  | Rerun => [ready_message (word_field inp)]
  | _ => []
  end.
Proof. observe_view success_messages_app success_messages_reported. Qed.

Lemma page_view_success inp s text :
  Success text ∈ page_view inp s -> next_ended inp s = Rerun.
Proof.
  intros Hin%elem_of_success_messages. rewrite page_view_successes in Hin.
  destruct (next_ended inp s); by try apply elem_of_nil in Hin.
Qed.

(** ** Where the parts of the page end up *)

Lemma page_view_request inp s e : e ∈ request_view inp -> e ∈ page_view inp s.
Proof. unfold page_view, main_view. rewrite !elem_of_app. tauto. Qed.

Lemma page_view_display inp s e :
  next_ended inp s <> Rerun -> e ∈ display_view s -> e ∈ page_view inp s.
Proof.
  unfold page_view, main_view. intros Hne He.
  destruct (next_ended inp s); [| |done]; rewrite !elem_of_app; tauto.
Qed.

Lemma request_view_failure inp f :
  submitted inp = true -> answer inp = inl f ->
  Error (failure_message f) ∈ request_view inp.
Proof.
  unfold request_view. intros -> ->. rewrite app_nil_r.
  destruct f; cbn [reported failure_message]; find_elem.
Qed.

Lemma display_view_image s image word :
  current_image s = Some image -> current_word s = Some word ->
  Show_image image (caption word) true ∈ display_view s.
Proof. unfold display_view. intros -> ->. find_elem. Qed.

(** The link of a stored image is in the right column. *)
Lemma display_view_link s image word buffered :
  current_image s = Some image -> current_word s = Some word ->
  Image_save_PNG image = Returns buffered ->
  Markdown (link_head ++ b64encode buffered ++ link_mid
            ++ download_filename word (strftime datetime_now) ++ link_tail)
           true ∈ display_view s.
Proof. unfold display_view, download_view. intros -> -> ->. find_elem. Qed.

Lemma display_view_area s image word buffered prompt :
  current_image s = Some image -> current_word s = Some word ->
  Image_save_PNG image = Returns buffered -> current_prompt s = Some prompt ->
  Text_area prompt_area_label prompt 150 ∈ display_view s.
Proof.
  unfold display_view, download_view. intros -> -> -> ->. find_elem.
Qed.

(** C12: The equivalence of the script with its reference.  On every
    path, exceptions and [st.rerun()] included, a run of the script
    looks to the user like the run of [page_reference]: it ends in the
    same way, leaves the same session state and draws the same
    elements in the same order, those of [page_view]. *)
Theorem page_draws_view inp : page inp ≡ page_reference inp.
Proof.
  intros s. split_and!; [apply page_ended | apply page_session |].
  rewrite page_drawn_view. unfold page_reference. by rewrite drawn_Run, elements_Ui.
Qed.

(** The widgets of a run are the key field, the word field and the
    button in the state of [button_disabled], followed by the text area
    of the prompt when the right column shows one; no two of them are
    the same widget, so that Streamlit can tell them apart. *)
Theorem page_widgets_distinct inp s :
  widgets (drawn (page inp s)) =
    api_key_widget :: word_widget
    :: Button generate_label (button_disabled inp)
    :: match next_ended inp s with Rerun => [] | _ => area_view s end /\
  NoDup (widgets (drawn (page inp s))).
Proof.
  rewrite page_drawn_view, page_view_widgets. split; [done|].
  unfold area_view. repeat case_match;
    repeat (apply NoDup_cons; split; [miss_elem|]); apply NoDup_nil_2.
Qed.

End ViewFacts.
