(* ===== verification/Reachable.v ===== *)
(** * Reachable: the session states user actions can produce

    A browser session starts with an empty [st.session_state]; every
    user action runs the script once or twice ([interaction]).  The
    libraries may behave differently at each action, so each step of
    [user_action] chooses its own instances of the interfaces.

    Theorems: [coherent] holds in every reachable state (by induction
    on the sequence of actions); hence the session holds nothing or one
    complete result, the unguarded read of [current_word] on line 196
    cannot fail, the only exception a run can end with is one raised by
    [image.save], and the page shows the held image with its link and
    its prompt. *)

From stdpp Require Import base tactics list numbers strings relations.
From S2P Require Import Prelude PyStr Prompt World Session Script.
From S2P Require Import ImageClient Base64 Timestamp Texts Download Main.
From S2P Require Import Controller View.

(** ** Definitions *)

Inductive user_action : SessionState -> SessionState -> Prop :=
| user_action_intro (W1 : OpenAIApi) (W2 : RequestsApi) (W3 : PillowApi)
    (W4 : ClockApi) (W5 : StreamlitApi) fuel inp s rs :
    interaction fuel inp s = Some rs ->
    user_action s (final_session s rs).

Definition reachable (s : SessionState) : Prop := rtc user_action new_session s.

(** ** Facts *)

Lemma user_action_coherent s s' : user_action s s' -> coherent s -> coherent s'.
Proof.
  intros [W1 W2 W3 W4 W5 fuel inp s0 rs Hrs] Hs.
  rewrite (interaction_session _ _ _ _ Hrs).
  by apply next_session_coherent.
Qed.

Lemma reachable_coherent s : reachable s -> coherent s.
Proof.
  revert s. apply rtc_ind_r; [apply coherent_new|].
  eauto using user_action_coherent.
Qed.

(** C3: whatever the user does and however the libraries answer, the
    session holds nothing or one complete result: image, prompt and
    word are present together, the prompt is the prompt of the word,
    and the word is non-empty and has no blank at either end. *)
Theorem reachable_held s :
  reachable s ->
  match held s with
  | Some r => current_image s = Some (image r) /\
              promptUsed r = generate_mandala_prompt (sourceTopic r) /\
              sourceTopic r <> [] /\ strip (sourceTopic r) = sourceTopic r
  | None => s = new_session
  end.
Proof.
  intros Hs%reachable_coherent. revert Hs. unfold coherent, held.
  destruct s as [[i|] [[p|]|] [w|]]; simpl; try done.
  intros (-> & ? & ?). split_and!; try done. by apply strip_id.
Qed.

Section Safety.
Context `{!OpenAIApi, !RequestsApi, !PillowApi, !ClockApi, !StreamlitApi}.

(** What a run leaves is what a user action leaves. *)
Lemma user_action_next inp s : user_action s (next_session inp s).
Proof.
  rewrite <- (interaction_session 2 inp s _ (interaction_unfold 0 inp s)).
  by econstructor; apply (interaction_unfold 0).
Qed.

(** When the encoder raises on the stored image, drawing the right
    column raises. *)
Lemma display_ended_save_raises s image e :
  reachable s -> current_image s = Some image ->
  Image_save_PNG image = Raises e -> display_ended s = Raised e.
Proof.
  intros Hs%reachable_coherent Hi Hsave. unfold display_ended, coherent in *.
  rewrite Hi in *.
  destruct (current_prompt s) as [[p|]|], (current_word s); try done.
  by rewrite Hsave.
Qed.

(** A run in such a state replaces the image or ends with the
    encoder's exception, the session state as it was. *)
Lemma next_save_raises inp s image e :
  reachable s -> current_image s = Some image ->
  Image_save_PNG image = Raises e ->
  (exists image', submitted inp = true /\ answer inp = inr image' /\
                  current_image (next_session inp s) = Some image') \/
  (next_session inp s = s /\ next_ended inp s = Raised e).
Proof.
  intros Hs Hi Hsave.
  pose proof (display_ended_save_raises s image e Hs Hi Hsave) as Hd.
  unfold next_session, next_ended.
  destruct (submitted inp); [destruct (answer inp) as [f|image']|]; eauto.
Qed.

(** C8: in a reachable session state the read of [current_word] on line
    196 never fails: a run can end with an exception only if
    [image.save] raised it while the link was built. *)
Theorem page_raises_only_from_save inp s e :
  reachable s -> ended (page inp s) = Raised e ->
  exists image, current_image s = Some image /\ Image_save_PNG image = Raises e.
Proof.
  intros Hs%reachable_coherent. rewrite page_ended.
  assert (Hd : display_ended s = Raised e -> exists image,
             current_image s = Some image /\ Image_save_PNG image = Raises e).
  { revert Hs. unfold display_ended, coherent.
    destruct (current_image s) as [image|], (current_prompt s) as [[p|]|],
      (current_word s) as [w|]; try done.
    destruct (Image_save_PNG image) eqn:E; [done|]. intros _ [= ->]. eauto. }
  unfold next_ended. by repeat case_match.
Qed.

(** C27: in a reachable session state that holds an image, a run that is
    not submitted ends normally when [image.save] returns, and draws the
    image captioned with the stored word, the link to the PNG bytes
    under the file name of that word and of the clock's time, and the
    prompt that was sent for that word. *)
Theorem page_displays_held inp s image buffered :
  reachable s -> submitted inp = false ->
  current_image s = Some image -> Image_save_PNG image = Returns buffered ->
  exists word,
    current_word s = Some word /\
    ended (page inp s) = Done tt /\
    Show_image image (caption word) true ∈ drawn (page inp s) /\
    Markdown (link_head ++ b64encode buffered ++ link_mid
              ++ download_filename word (strftime datetime_now) ++ link_tail)
             true ∈ drawn (page inp s) /\
    Text_area prompt_area_label (Some (generate_mandala_prompt word)) 150
      ∈ drawn (page inp s).
Proof.
  intros Hs%reachable_coherent Hsub Hi Hsave.
  destruct s as [ci [[p|]|] [w|]]; unfold coherent in Hs; simpl in *;
    subst ci; try done.
  destruct Hs as (-> & _ & _). exists w. split; [done|].
  assert (He : next_ended inp (Build_SessionState (Some image)
                 (Some (Some (generate_mandala_prompt w))) (Some w)) = Done tt).
  { unfold next_ended, display_ended. rewrite Hsub. simpl. by rewrite Hsave. }
  rewrite page_ended, page_drawn_view. split; [done|].
  split_and!; (apply page_view_display; [by rewrite He|]).
  - by apply display_view_image.
  - by eapply display_view_link.
  - by eapply display_view_area.
Qed.

End Safety.
