(* ===== verification/Interrupt.v ===== *)
(** * Interrupt: runs that are stopped before their end

    A run of the script does not always reach its end.  When the user
    changes a widget while the script is running, Streamlit stops the
    script at its next call that sends an element to the browser and
    starts the run of the new gesture; what the stopped run assigned to
    [st.session_state] stays ([cuts] and [replay] of [Script]).

    The script assigns its three attributes one after the other (lines
    159-161).  The specification asks that the held result is replaced
    atomically, with no partial update visible (section 4.4).  It is:
    no element is drawn between the first assignment and the last, so a
    run can only be stopped before all three or after all three.  The
    proof follows the structure of the script: every part but the
    handler assigns nothing ([quiet]), and the handler assigns before it
    draws ([committed]).

    Hence the session states that can be reached when runs may be
    stopped are those that can be reached when they are not, and every
    fact of [Reachable] holds of them.

    The specification also says there is no cancellation: once issued,
    the two network calls run to completion or failure (section 5).
    The script has one: a run stopped where the spinner is left has
    called [images.generate] and will never fetch the image. *)

From stdpp Require Import base tactics list numbers strings relations.
From S2P Require Import Prelude PyStr Prompt World Session Script.
From S2P Require Import ImageClient Base64 Timestamp Texts Download Main.
From S2P Require Import Controller View Reachable.

(** ** Definitions *)

(** The session states a gesture can leave by stopping the run of the
    script: for each point where the run can be stopped, the state the
    assignments made so far produce. *)
Definition stops `{!OpenAIApi, !RequestsApi, !PillowApi, !ClockApi,
                   !StreamlitApi} (inp : Inputs) (s : SessionState)
  : list SessionState :=
  (fun p => replay p s) <$> cuts (trace (page inp s)).

(** A run that a gesture stopped, whatever the libraries answered. *)
Inductive stopped_run : SessionState -> SessionState -> Prop :=
| stopped_run_intro (W1 : OpenAIApi) (W2 : RequestsApi) (W3 : PillowApi)
    (W4 : ClockApi) (W5 : StreamlitApi) inp s s' :
    s' ∈ stops inp s ->
    stopped_run s s'.

(** What the user can do to the session state: an action whose runs
    reach their end, or a run that is stopped. *)
Definition any_action (s s' : SessionState) : Prop :=
  user_action s s' \/ stopped_run s s'.

Definition reachable_stopped (s : SessionState) : Prop :=
  rtc any_action new_session s.

(** [find_cut t]: the part of the trace [t] before the exit of the
    first spinner. *)
Ltac find_cut t :=
  lazymatch t with
  | Ui (Exit (Spinner _)) :: _ => constr:(@nil event)
  | ?x :: ?t' => let p := find_cut t' in constr:(x :: p)
  end.

(** ** Which parts of the script assign *)

Section Parts.
Context `{!OpenAIApi, !RequestsApi, !PillowApi, !ClockApi, !StreamlitApi}.
Implicit Types (inp : Inputs) (s : SessionState).

Lemma text_input_quiet label placeholder password help limit value :
  quiet (text_input label placeholder password help limit value).
Proof. unfold text_input. quiet_script. Qed.

Lemma button_quiet label disabled value : quiet (button label disabled value).
Proof. unfold button. quiet_script. Qed.

Lemma top_level_quiet : quiet top_level.
Proof. unfold top_level, markdown_html. quiet_script. Qed.

Lemma right_column_quiet : quiet right_column.
Proof.
  unfold right_column, show_mandala, show_placeholder, get_current_word,
    markdown, markdown_html.
  quiet_script.
Qed.

Lemma footer_quiet : quiet footer.
Proof. unfold footer, markdown. quiet_script. Qed.

(** The handler assigns before it draws the success message. *)
Lemma on_generate_atomic api_key word : atomic (on_generate api_key word).
Proof.
  unfold on_generate. atomic_script.
  apply committed_atomic. do 3 apply committed_assign.
  apply quiet_committed. quiet_script.
Qed.

Lemma left_column_atomic inp : atomic (left_column inp).
Proof.
  pose proof text_input_quiet. pose proof button_quiet.
  pose proof on_generate_atomic.
  unfold left_column, markdown. atomic_script.
Qed.

Lemma page_atomic inp : atomic (page inp).
Proof.
  pose proof top_level_quiet. pose proof right_column_quiet.
  pose proof footer_quiet. pose proof left_column_atomic.
  unfold page, main, markdown_html. atomic_script.
Qed.

(** The assignments of a run: the three of lines 159-161, in that
    order, when the request succeeded, and none otherwise. *)
Lemma page_assignments inp s :
  assignments (trace (page inp s)) =
  if submitted inp then
    match answer inp with
    | inr image =>
        [Current_image image;
         Current_prompt (Some (generate_mandala_prompt (strip (word_field inp))));
         Current_word (strip (word_field inp))]
    | inl _ => []
    end
  else [].
Proof.
  run_page; same_answer;
    repeat first [ progress cbn [assignments app]
                 | rewrite assignments_app
                 | rewrite client_trace_assignments ];
    reflexivity.
Qed.

(** ** Stopped runs *)

(** A stopped run leaves the state it started in or the state it would
    have left. *)
Lemma stops_atomic inp s s' :
  s' ∈ stops inp s -> s' = s \/ s' = next_session inp s.
Proof.
  intros (p & -> & Hin)%list_elem_of_fmap.
  destruct (page_atomic inp s) as [_ Hp]. rewrite page_session in Hp. auto.
Qed.


(** The script can cancel a request.  When the run is submitted and the
    client object is created, there is a point at which the run can be
    stopped where [images.generate] has been called, [requests.get] has
    not, and the session state is as it was: the image is generated and
    never fetched. *)
Lemma generation_cancellable inp s client :
  submitted inp = true ->
  openai_OpenAI (api_key_field inp) = Returns client ->
  exists p, p ∈ cuts (trace (page inp s)) /\
    network_calls p =
    [OpenAI_new (api_key_field inp);
     Images_generate client
       (generate_args (generate_mandala_prompt (strip (word_field inp))))] /\
    replay p s = s.
Proof.
  intros Hsub Hc.
  destruct (client_trace_spinner _ (strip (word_field inp)) _ Hc) as [rest Ht].
  revert Hsub. unfold submitted.
  destruct (clicked _) eqn:?, (truthy (can_generate _ _)) eqn:?; intros [=].
  run_page; try congruence; rewrite Ht; cbn [app];
    match goal with
    | |- exists p, p ∈ cuts ?t /\ _ => let p := find_cut t in exists p
    end;
    (split; [apply elem_of_cuts; by eexists _, _|done]).
Qed.

End Parts.

(** ** The states stopped runs can reach *)

Lemma stopped_run_reachable s s' : stopped_run s s' -> reachable s -> reachable s'.
Proof.
  intros [W1 W2 W3 W4 W5 inp s0 s1 [->| ->]%stops_atomic] Hs; [done|].
  eapply rtc_r; [exact Hs|apply user_action_next].
Qed.

