(* ===== verification/Frontend.v ===== *)
(** * Frontend: the browser, the widgets and the runs they trigger

    Streamlit keeps, for every browser session, the values of the
    widgets and [st.session_state]; it runs the script once when the
    page is opened and again whenever the user commits a new value to a
    text field or presses a button, and at once again when a run ends
    with [st.rerun()].  [browser] is that state together with what the
    last run left on the screen, [gesture] is what the user can do, and
    [react] is the front end's answer: which runs of [page] it starts,
    with which [Inputs], and what it shows afterwards.

    A gesture needs its widget on the screen: nothing can be typed
    before the page is open ([Again] stands for what reruns the script
    with the fields as they are: editing the text area of the prompt,
    whose value the script does not read, or Rerun in the menu), the word field takes no more than its
    [max_chars], counted as the browser counts them, in UTF-16 code
    units, and a button drawn disabled cannot be pressed.  These
    are the guarantees [from_front_end] of [Controller] assumes; here
    they are derived.

    Theorems: the invariant of the front end (the session state is
    reachable, the word fits, the button on the screen is enabled
    exactly when both fields are non-blank, no success box is on the
    screen); typing never reaches the
    network; every press is submitted with a prompt the endpoint
    accepts; every press is answered, by the image or by an error box;
    from every state a user with a working key can obtain an image;
    and an image the encoder rejects ends every run with the encoder's
    exception until a press obtains another. *)

From stdpp Require Import base tactics list numbers strings relations.
From Stdlib Require Import Lia.
From S2P Require Import Prelude PyStr Prompt World Session Script.
From S2P Require Import ImageClient Base64 Timestamp Texts Download Main.
From S2P Require Import Controller View Reachable.

Local Open Scope N_scope.

(** ** Definitions *)

(** One browser session. *)
Record browser := Browser {
  key_box : str;               (* the value of the key field *)
  word_box : str;              (* the value of the word field *)
  memory : SessionState;       (* [st.session_state] *)
  screen : list element;       (* what the last run drew *)
}.

(** What the user can do. *)
Inductive gesture :=
| Open                         (* open or reload the page *)
| Type_key (text : str)        (* commit a new value to the key field *)
| Type_word (text : str)       (* commit a new value to the word field *)
| Again                        (* edit the text area of the prompt, or
                                  choose Rerun in Streamlit's menu *)
| Press.                       (* press the button *)

(** Before the page is opened. *)
Definition closed : browser := Browser [] [] new_session [].

(** The inputs of a run started from the browser's widget values. *)
Definition fields (b : browser) (click : bool) : Inputs :=
  {| api_key_field := key_box b; word_field := word_box b; clicked := click |}.

(** The element is on the screen. *)
Definition on_screen (e : element) (b : browser) : bool :=
  bool_decide (e ∈ screen b).

(** The length of a text as the [maxlength] of an HTML input counts
    it, in UTF-16 code units: a character beyond the Basic Multilingual
    Plane takes two. *)
Fixpoint utf16_length (text : str) : nat :=
  match text with
  | [] => 0
  | c :: text => (if 0x10000 <=? c then 2 else 1) + utf16_length text
  end.

(** The text is within what the word field accepts (line 147). *)
Definition fits (text : str) : bool :=
  bool_decide (utf16_length text <= max_chars)%nat.

Section Frontend.
Context `{!OpenAIApi, !RequestsApi, !PillowApi, !ClockApi, !StreamlitApi}.

(** The runs of one user action: the run it triggers and, when that
    one ends with [st.rerun()], the run that follows. *)
Definition runs (inp : Inputs) (s : SessionState) : list (run unit) :=
  match next_ended inp s with
  | Rerun => [page inp s; page (after_rerun inp) (next_session inp s)]
  | _ => [page inp s]
  end.

(** The inputs of the last of them. *)
Definition settled (inp : Inputs) (s : SessionState) : Inputs :=
  match next_ended inp s with
  | Rerun => after_rerun inp
  | _ => inp
  end.

(** Run the script on [inp] in session state [s], again while it asks
    for it, and show what the last run drew. *)
Definition refresh (inp : Inputs) (s : SessionState)
  : option (list (run unit) * browser) :=
  rs ← interaction 2 inp s;
  r ← last rs;
  Some (rs, Browser (api_key_field inp) (word_field inp) (session r) (drawn r)).

(** The front end's answer to a gesture: the runs it starts and the
    browser afterwards, or [None] when the widget does not allow the
    gesture. *)
Definition react (g : gesture) (b : browser)
  : option (list (run unit) * browser) :=
  match g with
  | Open => refresh (fields closed false) new_session
  | Type_key text =>
      if on_screen api_key_widget b
      then refresh {| api_key_field := text; word_field := word_box b;
                      clicked := false |} (memory b)
      else None
  | Type_word text =>
      if on_screen word_widget b && fits text
      then refresh {| api_key_field := key_box b; word_field := text;
                      clicked := false |} (memory b)
      else None
  | Again =>
      if on_screen api_key_widget b
      then refresh (fields b false) (memory b)
      else None
  | Press =>
      if on_screen (Button generate_label false) b
      then refresh (fields b true) (memory b)
      else None
  end.

(** A plan: gestures one after the other. *)
Fixpoint react_all (gs : list gesture) (b : browser) : option browser :=
  match gs with
  | [] => Some b
  | g :: gs =>
      match react g b with
      | Some (_, b') => react_all gs b'
      | None => None
      end
  end.

End Frontend.

(** One gesture, however the libraries answer during its runs. *)
Inductive browser_step : browser -> browser -> Prop :=
| browser_step_intro (W1 : OpenAIApi) (W2 : RequestsApi) (W3 : PillowApi)
    (W4 : ClockApi) (W5 : StreamlitApi) g b rs b' :
    react g b = Some (rs, b') -> browser_step b b'.

(** The browsers a user can bring about. *)
Definition browser_reachable (b : browser) : Prop := rtc browser_step closed b.

(** The screen shows a page of the browser's fields and memory, drawn
    by a run that did not end with [st.rerun()]. *)
Definition shows_page (b : browser) : Prop :=
  exists (W1 : OpenAIApi) (W2 : RequestsApi) (W3 : PillowApi)
         (W4 : ClockApi) (W5 : StreamlitApi) click,
    screen b = page_view (fields b click) (memory b) /\
    next_ended (fields b click) (memory b) <> Rerun.

(** The invariant of the front end. *)
Definition browser_inv (b : browser) : Prop :=
  reachable (memory b) /\
  (length (word_box b) <= max_chars)%nat /\
  (b = closed \/ shows_page b).

(** ** Facts *)

Section FrontendFacts.
Context `{!OpenAIApi, !RequestsApi, !PillowApi, !ClockApi, !StreamlitApi}.
Implicit Types (inp : Inputs) (s : SessionState) (b : browser) (g : gesture).

(** A text that fits has at most [max_chars] characters for Python. *)
Lemma utf16_length_ge text : (length text <= utf16_length text)%nat.
Proof. induction text as [|c text IH]; simpl; [done|]. case_match; lia. Qed.

Lemma fits_length text : fits text = true -> (length text <= max_chars)%nat.
Proof.
  intros Hf%bool_decide_eq_true. pose proof (utf16_length_ge text). lia.
Qed.

Lemma next_session_settled inp s :
  next_ended inp s <> Rerun -> next_session inp s = s.
Proof. unfold next_ended, next_session. by repeat case_match. Qed.

(** What [refresh] comes to: the runs of the action, the session state
    its first run leaves, and on the screen the page of the settled
    inputs in that state. *)
Lemma refresh_eq inp s :
  refresh inp s =
  Some (runs inp s,
        Browser (api_key_field inp) (word_field inp) (next_session inp s)
                (page_view (settled inp s) (next_session inp s))).
Proof.
  unfold refresh, runs, settled. rewrite (interaction_unfold 0).
  rewrite page_ended, page_session.
  destruct (next_ended inp s) eqn:E; simpl;
    rewrite page_drawn_view, page_session;
    by rewrite ?(next_session_settled inp s) by congruence.
Qed.

Lemma settled_fields inp s :
  api_key_field (settled inp s) = api_key_field inp /\
  word_field (settled inp s) = word_field inp.
Proof. unfold settled. by destruct (next_ended inp s). Qed.

(** The run whose page stays on the screen did not ask for a rerun. *)
Lemma settled_ended inp s :
  next_ended (settled inp s) (next_session inp s) <> Rerun.
Proof.
  unfold settled. destruct (next_ended inp s) eqn:E;
    rewrite ?(next_session_settled inp s) by congruence; try congruence.
  unfold next_ended. rewrite after_rerun_not_submitted.
  apply display_ended_not_rerun.
Qed.

Lemma refresh_shows_page inp s rs b' :
  refresh inp s = Some (rs, b') -> shows_page b'.
Proof.
  rewrite refresh_eq. intros [= _ <-].
  exists _, _, _, _, _, (clicked (settled inp s)). simpl.
  destruct (settled_fields inp s) as [Hk Hw].
  unfold fields. simpl. rewrite <- Hk, <- Hw.
  replace (Build_Inputs _ _ _) with (settled inp s) by by destruct (settled _ _).
  split; [done|]. apply settled_ended.
Qed.

Lemma refresh_reachable inp s rs b' :
  reachable s -> refresh inp s = Some (rs, b') -> reachable (memory b').
Proof.
  intros Hs. rewrite refresh_eq. intros [= _ <-]. simpl.
  eapply rtc_r; [exact Hs|apply user_action_next].
Qed.

Lemma refresh_inv inp s rs b' :
  reachable s -> (length (word_field inp) <= max_chars)%nat ->
  refresh inp s = Some (rs, b') -> browser_inv b'.
Proof.
  intros Hs Hlen Hr. split_and!.
  - by eapply refresh_reachable.
  - rewrite refresh_eq in Hr. by injection Hr as _ <-.
  - right. by eapply refresh_shows_page.
Qed.

(** Every gesture preserves the invariant. *)
Lemma react_inv g b rs b' :
  browser_inv b -> react g b = Some (rs, b') -> browser_inv b'.
Proof.
  intros (Hm & Hlen & _). destruct g; cbn [react]; repeat case_match;
    try discriminate; apply refresh_inv; simpl; try done.
  - apply rtc_refl.
  - unfold max_chars. lia.
  - match goal with H : _ && fits _ = true |- _ =>
      apply andb_true_iff in H as [_ Hf] end.
    by apply fits_length.
Qed.

End FrontendFacts.

Lemma browser_reachable_inv b : browser_reachable b -> browser_inv b.
Proof.
  revert b. apply rtc_ind_r.
  - split_and!; [apply rtc_refl | simpl; unfold max_chars; lia | by left].
  - intros b b' _ [W1 W2 W3 W4 W5 g b0 rs b1 Hr] Hinv. by eapply react_inv.
Qed.

(** The button of a page is the one of line 153, enabled exactly when
    both boxes are non-blank. *)
Lemma shows_page_button b label d :
  shows_page b ->
  Button label d ∈ screen b <->
  label = generate_label /\ d = blank (key_box b) || blank (word_box b).
Proof.
  intros (W1 & W2 & W3 & W4 & W5 & click & -> & _). rewrite page_view_button.
  unfold button_disabled, py_not. rewrite can_generate_truthy. simpl.
  by destruct (blank (key_box b)), (blank (word_box b)).
Qed.

Lemma shows_page_fields b :
  shows_page b -> api_key_widget ∈ screen b /\ word_widget ∈ screen b.
Proof.
  intros (W1 & W2 & W3 & W4 & W5 & click & -> & _). apply page_view_fields.
Qed.

(** The success message of line 162 is on no page that stays: the run
    that draws it ends with [st.rerun()]. *)
Lemma shows_page_success b text : shows_page b -> Success text ∉ screen b.
Proof.
  intros (W1 & W2 & W3 & W4 & W5 & click & -> & Hne) Hin.
  by apply page_view_success in Hin.
Qed.

Lemma closed_or_open b :
  browser_reachable b -> b <> closed -> shows_page b.
Proof. intros (_ & _ & [?|?])%browser_reachable_inv; done. Qed.

(** ** What the gestures do *)

Section Gestures.
Context `{!OpenAIApi, !RequestsApi, !PillowApi, !ClockApi, !StreamlitApi}.
Implicit Types (inp : Inputs) (s : SessionState) (b : browser) (g : gesture).

(** A refresh without a click is one run that leaves the session state
    alone and makes no network call. *)
Lemma refresh_idle inp s rs b' :
  clicked inp = false -> refresh inp s = Some (rs, b') ->
  rs = [page inp s] /\ network_calls (trace (page inp s)) = [] /\
  b' = Browser (api_key_field inp) (word_field inp) s (page_view inp s).
Proof.
  intros Hc. rewrite refresh_eq, page_network_calls.
  unfold runs, settled, next_ended, next_session, submitted. rewrite Hc. simpl.
  intros [= <- <-]. pose proof (display_ended_not_rerun s).
  by destruct (display_ended s).
Qed.

(** Typing into a field that is on the screen. *)
Lemma react_type_key b text :
  shows_page b ->
  exists rs b', react (Type_key text) b = Some (rs, b') /\ shows_page b' /\
    key_box b' = text /\ word_box b' = word_box b /\ memory b' = memory b.
Proof.
  intros [Hk _]%shows_page_fields. cbn [react]. unfold on_screen.
  rewrite bool_decide_eq_true_2 by done.
  destruct (refresh _ (memory b)) as [[rs b']|] eqn:Hr;
    [|by rewrite refresh_eq in Hr].
  exists rs, b'. split; [done|]. split; [by eapply refresh_shows_page|].
  by apply refresh_idle in Hr as (_ & _ & ->).
Qed.

Lemma react_type_word b text :
  shows_page b -> fits text = true ->
  exists rs b', react (Type_word text) b = Some (rs, b') /\ shows_page b' /\
    key_box b' = key_box b /\ word_box b' = text /\ memory b' = memory b.
Proof.
  intros [_ Hw]%shows_page_fields Hfits. cbn [react]. unfold on_screen.
  rewrite bool_decide_eq_true_2, Hfits by done. cbn [andb].
  destruct (refresh _ (memory b)) as [[rs b']|] eqn:Hr;
    [|by rewrite refresh_eq in Hr].
  exists rs, b'. split; [done|]. split; [by eapply refresh_shows_page|].
  by apply refresh_idle in Hr as (_ & _ & ->).
Qed.

(** The button can be pressed exactly when both boxes are non-blank,
    and then the run is submitted. *)
Lemma can_press b :
  shows_page b ->
  on_screen (Button generate_label false) b
  = negb (blank (key_box b)) && negb (blank (word_box b)).
Proof.
  intros Hb. unfold on_screen.
  pose proof (shows_page_button b generate_label false Hb) as Hiff.
  destruct (blank (key_box b)), (blank (word_box b)); simpl in *;
    first [ apply bool_decide_eq_true; solve [intuition congruence]
          | apply bool_decide_eq_false; solve [intuition congruence] ].
Qed.

Lemma press_submitted b :
  shows_page b -> on_screen (Button generate_label false) b = true ->
  submitted (fields b true) = true.
Proof.
  intros Hb. rewrite (can_press _ Hb). unfold submitted.
  by rewrite can_generate_truthy.
Qed.

(** What a press leads to, by the answer of the contract. *)
Lemma refresh_answer inp s :
  submitted inp = true ->
  match answer inp with
  | inr image =>
      Show_image image (caption (strip (word_field inp))) true
        ∈ page_view (settled inp s) (next_session inp s) /\
      held (next_session inp s) =
        Some {| Session.image := image;
                promptUsed := generate_mandala_prompt (strip (word_field inp));
                sourceTopic := strip (word_field inp) |}
  | inl f =>
      Error (failure_message f)
        ∈ page_view (settled inp s) (next_session inp s) /\
      next_session inp s = s
  end.
Proof.
  intros Hsub. unfold settled, next_ended, next_session. rewrite Hsub.
  destruct (answer inp) as [f|image] eqn:Ha.
  - pose proof (display_ended_not_rerun s).
    split; [|done]. destruct (display_ended s) eqn:E; try done;
      by apply page_view_request, request_view_failure.
  - split; [|done]. apply page_view_display.
    + unfold next_ended. rewrite after_rerun_not_submitted.
      apply display_ended_not_rerun.
    + by apply display_view_image.
Qed.

(** Typing a key and a word and pressing the button: the browser the
    front end ends in. *)
Lemma react_plan b key word :
  shows_page b -> blank key = false -> blank word = false ->
  fits word = true ->
  let inp := {| api_key_field := key; word_field := word; clicked := true |} in
  submitted inp = true /\
  react_all [Type_key key; Type_word word; Press] b
  = Some (Browser key word (next_session inp (memory b))
            (page_view (settled inp (memory b)) (next_session inp (memory b)))).
Proof.
  intros Hs Hk Hw Hfits inp.
  assert (Hsub : submitted inp = true).
  { unfold submitted. rewrite can_generate_truthy. simpl. by rewrite Hk, Hw. }
  split; [done|].
  destruct (react_type_key b key Hs) as (rs1 & b1 & Hr1 & Hs1 & Hk1 & Hw1 & Hm1).
  destruct (react_type_word b1 word Hs1 Hfits)
    as (rs2 & b2 & Hr2 & Hs2 & Hk2 & Hw2 & Hm2).
  cbn [react_all]. rewrite Hr1, Hr2. clear Hr1 Hr2.
  rewrite Hk1 in Hk2. rewrite Hm1 in Hm2.
  destruct b2 as [k2 w2 m2 sc2]. simpl in Hk2, Hw2, Hm2. subst k2 w2 m2.
  cbn [react]. rewrite (can_press _ Hs2), refresh_eq. simpl.
  by rewrite Hk, Hw.
Qed.

End Gestures.

(** ** Theorems *)

(** C13: The invariant of the front end.  In every browser a user can bring
    about, whatever the libraries answered on the way: the session state
    is one that user actions reach; the word is within the field's
    limit; the only button on the screen is the one of line 153, and it
    is disabled exactly when the key or the word is blank; the success
    message of line 162 is not on the page, because the run that drew
    it was followed by another; once the page is open both fields and
    the button are on the screen, so that the user can always go on. *)
Theorem browser_invariant b :
  browser_reachable b ->
  reachable (memory b) /\ (length (word_box b) <= max_chars)%nat /\
  (forall label d, Button label d ∈ screen b ->
     label = generate_label /\ d = blank (key_box b) || blank (word_box b)) /\
  (forall text, Success text ∉ screen b) /\
  (b <> closed ->
     api_key_widget ∈ screen b /\ word_widget ∈ screen b /\
     Button generate_label (blank (key_box b) || blank (word_box b))
       ∈ screen b).
Proof.
  intros (Hm & Hlen & Hs)%browser_reachable_inv. split_and!; try done.
  - intros label d. destruct Hs as [->|Hs]; [by intros ?%elem_of_nil|].
    by rewrite (shows_page_button _ _ _ Hs).
  - intros text. destruct Hs as [->|Hs]; [by intros ?%elem_of_nil|].
    by apply shows_page_success.
  - intros Hne. destruct Hs as [->|Hs]; [done|].
    destruct (shows_page_fields _ Hs). split_and!; try done.
    by apply (shows_page_button _ _ _ Hs).
Qed.

Section FrontendTheorems.
Context `{!OpenAIApi, !RequestsApi, !PillowApi, !ClockApi, !StreamlitApi}.
Implicit Types (inp : Inputs) (s : SessionState) (b : browser) (g : gesture).

(** C31: Only a press reaches the network: the runs that opening the
    page, typing and rerunning start make no network call, and typing
    and rerunning leave the session state as it was. *)
Theorem typing_is_silent g b rs b' :
  g <> Press -> react g b = Some (rs, b') ->
  Forall (fun r => network_calls (trace r) = []) rs /\
  memory b' = match g with Open => new_session | _ => memory b end.
Proof.
  intros Hg Hr. destruct g; cbn [react] in Hr; repeat case_match;
    try done; apply refresh_idle in Hr as (-> & Hn & ->); try done;
    by repeat constructor.
Qed.

(** C21: Every press the front end lets through is a submitted run of the
    inputs [from_front_end] describes: the test of line 154 never fails
    after a click, the runs are those of one user action, and the prompt
    of the request is within what the endpoint accepts. *)
Theorem press_is_submitted b rs b' :
  browser_reachable b -> react Press b = Some (rs, b') ->
  from_front_end (fields b true) /\
  submitted (fields b true) = true /\
  rs = runs (fields b true) (memory b) /\
  (length (gen_prompt (generate_args
     (generate_mandala_prompt (strip (word_box b)))))
   <= dalle3_prompt_limit)%nat.
Proof.
  intros Hb Hr. cbn [react] in Hr.
  destruct (on_screen _ b) eqn:Hon; [|done].
  apply browser_reachable_inv in Hb as (_ & Hlen & [->|Hs]); [done|].
  pose proof (press_submitted _ Hs Hon) as Hsub.
  rewrite refresh_eq in Hr. injection Hr as <- _. split_and!; try done.
  - split; [done|]. intros Hd. apply submitted_fields in Hsub as (_ & Hk & Hw).
    revert Hd. unfold button_disabled, py_not. rewrite can_generate_truthy.
    simpl in *. by rewrite Hk, Hw.
  - cbn [gen_prompt generate_args]. rewrite prompt_length.
    pose proof (strip_length (word_box b)).
    unfold max_chars, dalle3_prompt_limit in *. lia.
Qed.

(** C15: Every press is answered.  When the page is open and both boxes
    are non-blank the button can be pressed, and when the runs of the
    press are over the screen shows the answer: the image of this
    request, captioned with the trimmed word and held by the session
    state, or the error box of the failure above whatever was held
    before. *)
Theorem press_is_answered b :
  browser_reachable b -> b <> closed ->
  blank (key_box b) = false -> blank (word_box b) = false ->
  exists rs b',
    react Press b = Some (rs, b') /\
    match answer (fields b true) with
    | inr image =>
        Show_image image (caption (strip (word_box b))) true ∈ screen b' /\
        held (memory b') =
          Some {| Session.image := image;
                  promptUsed := generate_mandala_prompt (strip (word_box b));
                  sourceTopic := strip (word_box b) |}
    | inl f =>
        Error (failure_message f) ∈ screen b' /\ memory b' = memory b
    end.
Proof.
  intros Hb Hne Hk Hw. pose proof (closed_or_open _ Hb Hne) as Hs.
  cbn [react]. rewrite (can_press _ Hs), Hk, Hw, refresh_eq. cbn [negb andb].
  eexists _, _. split; [done|]. simpl.
  apply (refresh_answer (fields b true)). unfold submitted.
  rewrite can_generate_truthy. simpl. by rewrite Hk, Hw.
Qed.

(** C16: An image can always be obtained.  From every browser a user can
    bring about with the page open, typing a non-blank key and a
    non-blank word the field accepts and pressing the button is a plan
    the front end accepts, and when the contract answers that key and
    that word with an image, the plan ends with that image on the
    screen and held by the session state. *)
Theorem image_obtainable b key word image :
  browser_reachable b -> b <> closed ->
  blank key = false -> blank word = false -> fits word = true ->
  generate key (generate_mandala_prompt (strip word)) = inr image ->
  exists b',
    react_all [Type_key key; Type_word word; Press] b = Some b' /\
    Show_image image (caption (strip word)) true ∈ screen b' /\
    held (memory b') =
      Some {| Session.image := image;
              promptUsed := generate_mandala_prompt (strip word);
              sourceTopic := strip word |}.
Proof.
  intros Hb Hne Hk Hw Hfits Hans. pose proof (closed_or_open _ Hb Hne) as Hs.
  destruct (react_plan b key word Hs Hk Hw Hfits) as [Hsub ->].
  eexists. split; [done|]. simpl.
  pose proof (refresh_answer _ (memory b) Hsub) as Hra.
  unfold answer in Hra. simpl in Hra. by rewrite Hans in Hra.
Qed.

(** C20: An image the encoder rejects stays.  [Image.open] reads the header
    of the file and leaves the pixels for later; when the encoder then
    raises on the stored image (line 119), every gesture but reloading
    the page leaves the user with a run that ended with that exception
    and with the session state as it was, until a press obtains a new
    image. *)
Theorem save_failure_persists b image e g rs b' :
  browser_reachable b -> current_image (memory b) = Some image ->
  Image_save_PNG image = Raises e ->
  g <> Open -> react g b = Some (rs, b') ->
  (exists image', g = Press /\ answer (fields b true) = inr image' /\
                  current_image (memory b') = Some image') \/
  (memory b' = memory b /\
   exists r, last rs = Some r /\ ended r = Raised e).
Proof.
  intros Hb Hi Hsave Hg Hr.
  pose proof (browser_reachable_inv _ Hb) as (Hm & _ & _).
  destruct g; [done|..]; cbn [react] in Hr; case_match; try done;
    rewrite refresh_eq in Hr; injection Hr as <- <-; cbn [memory];
    match goal with |- context [next_session ?inp _] =>
      destruct (next_save_raises inp _ _ _ Hm Hi Hsave)
        as [(image' & Hsub & Ha & Hi')|[Hs He]];
        [first [discriminate Hsub | by left; exists image']|]
    end;
    right; (split; [done|]); unfold runs; rewrite He;
    eexists; (split; [done|]); by rewrite page_ended.
Qed.

End FrontendTheorems.
