(* ===== verification/Sessions.v ===== *)
(** * Sessions: several browsers on one server

    Streamlit keeps the widget values and [st.session_state] of every
    browser session apart, and the script keeps nothing of its own
    between runs: it assigns no module-level name, which is why a run is
    a function of its inputs and of the session state alone
    ([page : Inputs -> script unit]).  The specification states the
    consequence (section 5): no cross-session shared mutable state
    exists, each session's state is independent.

    A server holds the browsers of the sessions that were opened; a
    step is a gesture in one of them, with whatever answers the
    libraries give during its runs.  Theorems: a step leaves every
    other session as it was, and the servers that can be reached are
    exactly the families of browsers each of which a user alone can
    bring about: no combination is excluded and none is added, so what
    one session holds or shows says nothing about another. *)

From stdpp Require Import base tactics list numbers strings relations gmap.
From S2P Require Import Prelude PyStr Prompt World Session Script.
From S2P Require Import ImageClient Base64 Timestamp Texts Download Main.
From S2P Require Import Controller View Reachable Frontend.

(** ** Definitions *)

(** A server is the family of its sessions' browsers, by their number:
    a [gmap nat browser]. *)

(** The browser of a session; a session that was never opened is
    [closed]. *)
Definition session_of (σ : gmap nat browser) (i : nat) : browser :=
  default closed (σ !! i).

(** One gesture in one session. *)
Inductive server_step : gmap nat browser -> gmap nat browser -> Prop :=
| server_step_intro σ i b' :
    browser_step (session_of σ i) b' -> server_step σ (<[i := b']> σ).

Definition server_reachable (σ : gmap nat browser) : Prop :=
  rtc server_step ∅ σ.

(** A browser in which at least one gesture was made. *)
Definition opened (b : browser) : Prop := tc browser_step closed b.

(** ** Facts *)

Implicit Types (σ : gmap nat browser) (b : browser) (i j : nat).

Lemma session_of_insert σ i b : session_of (<[i := b]> σ) i = b.
Proof. unfold session_of. by rewrite lookup_insert_eq. Qed.

Lemma session_of_insert_ne σ i j b :
  i <> j -> session_of (<[i := b]> σ) j = session_of σ j.
Proof. intros Hij. unfold session_of. by rewrite lookup_insert_ne. Qed.

(** A step changes one session. *)
Lemma server_step_frame σ σ' :
  server_step σ σ' -> exists i, forall j, j <> i -> σ' !! j = σ !! j.
Proof. intros [σ0 i b' _]. exists i. intros j Hj. by rewrite lookup_insert_ne. Qed.

(** The sessions of a reachable server were opened. *)
Lemma server_reachable_opened σ i b :
  server_reachable σ -> σ !! i = Some b -> opened b.
Proof.
  intros Hσ. revert σ Hσ i b.
  apply (rtc_ind_r (fun σ => forall i b, σ !! i = Some b -> opened b)).
  { intros i b. by rewrite lookup_empty. }
  intros σ σ' _ [σ0 k b' Hstep] IH i b.
  destruct (decide (k = i)) as [->|Hk]; [|rewrite lookup_insert_ne by done; apply IH].
  rewrite lookup_insert_eq. intros [= <-]. revert Hstep. unfold session_of.
  destruct (σ0 !! i) as [b0|] eqn:Hi; simpl; intros Hstep.
  - eapply tc_r; [by eapply IH|done].
  - by apply tc_once.
Qed.

(** The gestures of one session can be made whatever the others
    hold. *)
Lemma server_reachable_session σ i b :
  server_reachable σ -> tc browser_step (session_of σ i) b ->
  server_reachable (<[i := b]> σ).
Proof.
  intros Hσ Htc. remember (session_of σ i) as b0 eqn:Hb0.
  revert σ Hσ Hb0. induction Htc as [b0 b Hstep|b0 b1 b Hstep _ IH];
    intros σ Hσ ->.
  - eapply rtc_r; [exact Hσ|by constructor].
  - rewrite <- (insert_insert_eq σ i b b1). apply IH.
    + eapply rtc_r; [exact Hσ|by constructor].
    + by rewrite session_of_insert.
Qed.


(** Every session of a reachable server satisfies the invariant of the
    front end. *)
Lemma server_invariant σ i :
  server_reachable σ -> browser_inv (session_of σ i).
Proof.
  intros Hσ. apply browser_reachable_inv. unfold session_of.
  destruct (σ !! i) as [b|] eqn:Hi; [|apply rtc_refl].
  by eapply tc_rtc, server_reachable_opened.
Qed.
