(* ===== verification/Race.v ===== *)
(** * Race: gestures that do not wait for the page

    [Frontend] lets the user act on a page at rest: every gesture finds
    the page the last run drew.  A user need not wait.  A gesture made
    while a run is in progress stops that run ([cuts] of [Script]) and
    starts its own; until the new run has redrawn a widget the old one
    stays on the screen and takes gestures.  A press of the button is
    delivered to the run it starts whether or not that run draws the
    button enabled: Streamlit identifies the button by its label, not
    by its state.

    [stopped_step] is a gesture whose runs are stopped at some point.
    The browser it leaves holds the session state the assignments made
    so far produce, and on its screen whatever was there before
    together with what the stopped runs drew: an upper bound of what
    the user can see and act on, so that what is proved of every
    browser [racy_reachable] holds of every browser Streamlit can show.

    Theorems: with gestures that do not wait, the session state is
    still a reachable one and the word still fits ([racy_invariant]);
    the button can be pressed while a field is blank, which the page at
    rest never allows, and the test of line 154 is then what keeps the
    request from being sent ([stale_press]); whatever is pressed, a
    request goes out only with two non-blank fields and a prompt the
    endpoint accepts ([racy_press_gated]). *)

From stdpp Require Import base tactics list numbers strings relations.
From Stdlib Require Import Lia.
From S2P Require Import Prelude PyStr Prompt World Session Script.
From S2P Require Import ImageClient Base64 Timestamp Texts Download Main.
From S2P Require Import Controller View Reachable Interrupt Frontend.

Local Open Scope N_scope.

(** ** Definitions *)

Section Race.
Context `{!OpenAIApi, !RequestsApi, !PillowApi, !ClockApi, !StreamlitApi}.

(** The run a gesture starts: its inputs and the session state it
    starts in, or [None] when no widget on the screen takes the
    gesture. *)
Definition start (g : gesture) (b : browser) : option (Inputs * SessionState) :=
  match g with
  | Open => Some (fields closed false, new_session)
  | Type_key text =>
      if on_screen api_key_widget b
      then Some ({| api_key_field := text; word_field := word_box b;
                    clicked := false |}, memory b)
      else None
  | Type_word text =>
      if on_screen word_widget b && fits text
      then Some ({| api_key_field := key_box b; word_field := text;
                    clicked := false |}, memory b)
      else None
  | Again =>
      if on_screen api_key_widget b
      then Some (fields b false, memory b)
      else None
  | Press =>
      if on_screen (Button generate_label false) b
      then Some (fields b true, memory b)
      else None
  end.

(** Everything the runs of one action do, in order. *)
Definition action_trace (inp : Inputs) (s : SessionState) : list event :=
  mjoin (trace <$> runs inp s).

End Race.

(** What a gesture leaves of the old page: a reload empties the screen,
    any other gesture leaves the elements where they are until its run
    replaces them. *)
Definition stale (g : gesture) (b : browser) : list element :=
  match g with
  | Open => []
  | _ => screen b
  end.

(** A gesture whose runs the next gesture stops, however the libraries
    answer until then. *)
Inductive stopped_step : browser -> browser -> Prop :=
| stopped_step_intro (W1 : OpenAIApi) (W2 : RequestsApi) (W3 : PillowApi)
    (W4 : ClockApi) (W5 : StreamlitApi) g b inp s p :
    start g b = Some (inp, s) ->
    p ∈ cuts (action_trace inp s) ->
    stopped_step b (Browser (api_key_field inp) (word_field inp)
                            (replay p s) (stale g b ++ elements p)).

(** One gesture, waited for or not. *)
Definition racy_step (b b' : browser) : Prop :=
  browser_step b b' \/ stopped_step b b'.

Definition racy_reachable (b : browser) : Prop := rtc racy_step closed b.

(** What stays true of the browser when gestures do not wait. *)
Definition racy_inv (b : browser) : Prop :=
  reachable (memory b) /\ (length (word_box b) <= max_chars)%nat.

(** ** Facts *)

Section RaceFacts.
Context `{!OpenAIApi, !RequestsApi, !PillowApi, !ClockApi, !StreamlitApi}.
Implicit Types (inp : Inputs) (s : SessionState) (b : browser) (g : gesture).

(** The front end at rest starts the same run and waits for it. *)
Lemma react_start g b :
  react g b = '(inp, s) ← start g b; refresh inp s.
Proof. destruct g; cbn [react start]; by repeat case_match. Qed.

(** The run a gesture starts begins in a reachable session state, with
    a word that fits. *)
Lemma start_inv g b inp s :
  racy_inv b -> start g b = Some (inp, s) ->
  reachable s /\ (length (word_field inp) <= max_chars)%nat.
Proof.
  intros [Hm Hlen]. destruct g; cbn [start]; repeat case_match;
    intros [= <- <-]; (split; [first [done | apply rtc_refl]|]);
    simpl; try done.
  - unfold max_chars. lia.
  - match goal with H : _ && fits _ = true |- _ =>
      apply andb_true_iff in H as [_ Hf] end.
    by apply fits_length.
Qed.

(** A run begins with the page configuration: it can be stopped before
    it has done anything. *)
Lemma page_first_cut inp s : [] ∈ cuts (trace (page inp s)).
Proof.
  destruct (bind_trace_prefix top_level (fun _ => main inp) s) as [rest Ht].
  apply elem_of_cuts. unfold page. rewrite Ht, top_level_run. by eexists _, _.
Qed.


(** Wherever the runs of an action are stopped, the session state is
    the one they started in or the one the action leaves. *)
Lemma action_cut inp s p :
  p ∈ cuts (action_trace inp s) ->
  replay p s = s \/ replay p s = next_session inp s.
Proof.
  destruct (page_atomic inp s) as [Hs Hp]. rewrite page_session in Hs, Hp.
  unfold action_trace, runs.
  destruct (next_ended inp s); cbn [fmap list_fmap mjoin list_join];
    rewrite ?app_nil_r; try apply Hp.
  rewrite cuts_app.
  intros [Hin|(p2 & -> & Hin)%list_elem_of_fmap]%elem_of_app; [by apply Hp|].
  rewrite replay_app, <- Hs. right.
  destruct (page_atomic (after_rerun inp) (next_session inp s)) as [_ Hp2].
  destruct (page_after_rerun inp (next_session inp s)) as [_ Hs2].
  rewrite Hs2 in Hp2. by destruct (Hp2 p2 Hin).
Qed.

(** A stop of the first run is a stop of the action. *)
Lemma action_cut_first inp s p :
  p ∈ cuts (trace (page inp s)) -> p ∈ cuts (action_trace inp s).
Proof.
  intros Hin. unfold action_trace, runs.
  destruct (next_ended inp s); cbn [fmap list_fmap mjoin list_join];
    rewrite cuts_app, elem_of_app; by left.
Qed.

Lemma stopped_inv g b inp s p :
  racy_inv b -> start g b = Some (inp, s) -> p ∈ cuts (action_trace inp s) ->
  racy_inv (Browser (api_key_field inp) (word_field inp) (replay p s)
                    (stale g b ++ elements p)).
Proof.
  intros Hb Hst Hin. destruct (start_inv g b inp s Hb Hst) as [Hs Hlen].
  split; [|done]. simpl. destruct (action_cut inp s p Hin) as [-> | ->]; [done|].
  eapply rtc_r; [exact Hs|apply user_action_next].
Qed.

(** A press with a blank field starts one run, which makes no network
    call and leaves the session state alone. *)
Lemma refresh_blank inp s rs b' :
  blank (api_key_field inp) = true \/ blank (word_field inp) = true ->
  refresh inp s = Some (rs, b') ->
  Forall (fun r => network_calls (trace r) = []) rs /\ memory b' = s.
Proof.
  intros Hblank. rewrite refresh_eq.
  assert (Hsub : submitted inp = false).
  { unfold submitted. rewrite can_generate_truthy.
    destruct Hblank as [-> | ->]; by destruct (clicked inp), (blank _). }
  unfold runs, next_ended, next_session. rewrite Hsub.
  pose proof (display_ended_not_rerun s).
  intros [= <- <-]. split; [|done].
  destruct (display_ended s); try done;
    repeat constructor; by rewrite page_network_calls, Hsub.
Qed.

(** A gesture that is waited for leaves a page at rest, whatever the
    gestures before it did. *)
Lemma react_heals g b rs b' :
  racy_inv b -> react g b = Some (rs, b') -> browser_inv b'.
Proof.
  intros Hb. rewrite react_start.
  destruct (start g b) as [[inp s]|] eqn:Hst; [|done].
  destruct (start_inv g b inp s Hb Hst) as [Hs Hlen]. by apply refresh_inv.
Qed.

End RaceFacts.

Lemma racy_step_inv b b' : racy_step b b' -> racy_inv b -> racy_inv b'.
Proof.
  intros [[W1 W2 W3 W4 W5 g b0 rs b1 Hr]|[W1 W2 W3 W4 W5 g b0 inp s p Hst Hin]]
    Hb.
  - destruct (react_heals g b0 rs b1 Hb Hr) as (? & ? & _). by split.
  - by eapply stopped_inv.
Qed.

Lemma racy_reachable_inv b : racy_reachable b -> racy_inv b.
Proof.
  revert b. apply rtc_ind_r.
  - split; [apply rtc_refl | simpl; unfold max_chars; lia].
  - intros b b' _ Hstep Hb. by eapply racy_step_inv.
Qed.

(** What can be reached at rest can be reached. *)
Lemma browser_reachable_racy b : browser_reachable b -> racy_reachable b.
Proof.
  revert b. apply rtc_ind_r; [apply rtc_refl|].
  intros b b' _ Hstep Hb. eapply rtc_r; [exact Hb|by left].
Qed.


Section RaceTheorems.
Context `{!OpenAIApi, !RequestsApi, !PillowApi, !ClockApi, !StreamlitApi}.
Implicit Types (inp : Inputs) (s : SessionState) (b : browser) (g : gesture).

(** Whatever button is pressed, stale or not, a request goes out only
    with two non-blank fields: a press with a blank field starts runs
    that make no network call and leave the session state alone, and
    the prompt of a press is always within what the endpoint
    accepts. *)
Theorem racy_press_gated b rs b' :
  racy_reachable b -> react Press b = Some (rs, b') ->
  (blank (key_box b) = true \/ blank (word_box b) = true ->
   Forall (fun r => network_calls (trace r) = []) rs /\
   memory b' = memory b) /\
  (length (gen_prompt (generate_args
     (generate_mandala_prompt (strip (word_box b)))))
   <= dalle3_prompt_limit)%nat.
Proof.
  intros [_ Hlen]%racy_reachable_inv Hr. split.
  - intros Hblank. cbn [react] in Hr. case_match; [|done].
    by eapply (refresh_blank (fields b true)).
  - cbn [gen_prompt generate_args]. rewrite prompt_length.
    pose proof (strip_length (word_box b)).
    unfold max_chars, dalle3_prompt_limit in *. lia.
Qed.

(** C33: A second submit while one is in flight.  From a page at rest that
    shows the button enabled, with a key the client accepts, the user
    presses twice without waiting: the first run is stopped where the
    spinner is left, after [images.generate] was called and before its
    result is fetched or stored; the button is still on the screen, and
    the second press starts everything the first had started, the
    request included. *)
Theorem double_submit b client :
  browser_reachable b -> on_screen (Button generate_label false) b = true ->
  openai_OpenAI (key_box b) = Returns client ->
  exists p b1,
    stopped_step b b1 /\
    b1 = Browser (key_box b) (word_box b) (memory b) (screen b ++ elements p) /\
    network_calls p =
      [OpenAI_new (key_box b);
       Images_generate client
         (generate_args (generate_mandala_prompt (strip (word_box b))))] /\
    submitted (fields b1 true) = true /\
    react Press b1 = react Press b.
Proof.
  intros Hb Hon Hc.
  assert (Hs : shows_page b).
  { apply closed_or_open; [done|]. intros ->. by vm_compute in Hon. }
  pose proof (press_submitted b Hs Hon) as Hsub.
  destruct (generation_cancellable (fields b true) (memory b) client Hsub Hc)
    as (p & Hin & Hcalls & Hp).
  assert (Hst : start Press b = Some (fields b true, memory b)).
  { cbn [start]. by rewrite Hon. }
  pose proof (stopped_step_intro _ _ _ _ _ _ _ _ _ p Hst
                (action_cut_first _ _ _ Hin)) as Hstep.
  rewrite Hp in Hstep. eexists p, _. split; [exact Hstep|].
  split_and!; try done.
  cbn [react]. rewrite Hon. unfold on_screen. cbn [screen].
  rewrite bool_decide_eq_true_2; [done|].
  apply elem_of_app. left. by apply bool_decide_eq_true in Hon.
Qed.

End RaceTheorems.

(** C23: The button can be pressed while a field is blank.  From a page at
    rest that shows the button enabled, the user empties the word field
    and presses without waiting: the browser still shows the button the
    last run drew, the press is delivered with a blank word, which the
    page at rest never allows, and the test of line 154 keeps the run
    from calling the service. *)
Theorem stale_press b :
  browser_reachable b -> on_screen (Button generate_label false) b = true ->
  exists b1,
    stopped_step b b1 /\ racy_reachable b1 /\
    on_screen (Button generate_label false) b1 = true /\
    ~ from_front_end (fields b1 true) /\
    forall (W1 : OpenAIApi) (W2 : RequestsApi) (W3 : PillowApi)
           (W4 : ClockApi) (W5 : StreamlitApi) rs b2,
      react Press b1 = Some (rs, b2) ->
      Forall (fun r => network_calls (trace r) = []) rs /\
      memory b2 = memory b.
Proof.
  intros Hb Hon.
  assert (Hs : shows_page b).
  { apply closed_or_open; [done|]. intros ->. by vm_compute in Hon. }
  destruct Hs as (W1 & W2 & W3 & W4 & W5 & click & Hscreen & Hne).
  assert (Hs : shows_page b) by by exists W1, W2, W3, W4, W5, click.
  destruct (shows_page_fields b Hs) as [_ Hw].
  set (inp := {| api_key_field := key_box b; word_field := [];
                 clicked := false |}).
  assert (Hst : start (Type_word []) b = Some (inp, memory b)).
  { cbn [start]. unfold on_screen. by rewrite bool_decide_eq_true_2. }
  pose proof (stopped_step_intro W1 W2 W3 W4 W5 _ _ _ _ []
                Hst (action_cut_first _ _ _ (page_first_cut inp (memory b))))
    as Hstep.
  cbn [replay stale elements api_key_field word_field inp] in Hstep.
  rewrite app_nil_r in Hstep. eexists. split; [exact Hstep|]. split_and!.
  - eapply rtc_r; [by apply browser_reachable_racy|by right].
  - exact Hon.
  - intros [_ Hd]. discriminate Hd. unfold button_disabled, py_not.
    rewrite can_generate_truthy. cbn [fields api_key_field word_field word_box].
    change (blank []) with true. by rewrite andb_false_r.
  - intros V1 V2 V3 V4 V5 rs b2 Hr. cbn [react] in Hr.
    case_match; [|done].
    by apply (refresh_blank (fields (Browser (key_box b) [] (memory b)
                                             (screen b)) true) _ _ _ (or_intror eq_refl)).
Qed.
