(* ===== verification/Codec.v ===== *)
(** * Codec: the promises of the image codec and what follows from them

    The script decodes the downloaded bytes with [Image.open] (line 108)
    and encodes the stored image with [image.save(..., format="PNG")]
    (line 119) on every run that displays it.  The specification
    promises of the encoder (section 4.3) that it has no failure mode on
    an image that was validly decoded, and (section 8) that decoding
    what it produced gives an image of the same dimensions.
    [PillowLawful] states these promises of a [PillowApi].

    With libraries that stay the same from run to run, every image the
    session state ever holds came out of [Image.open] ([served],
    [holds_decoded]).  Hence, with a lawful codec: no run of the script
    ends with an exception, and the link of every displayed image leads
    the browser, through the [href] attribute and the base64 decoder, to
    bytes that open as an image of the stored image's dimensions; the
    file is offered under the name the script built when the word is
    written with plain characters, and never when it holds a double
    quote. *)

From stdpp Require Import base tactics list numbers strings relations.
From S2P Require Import Prelude PyStr Prompt World Session Script.
From S2P Require Import ImageClient Base64 Timestamp Texts Download Browser.
From S2P Require Import Main Controller View Reachable.

Local Open Scope N_scope.

(** ** Definitions *)

Section Codec.
Context `{!OpenAIApi, !RequestsApi, !PillowApi, !ClockApi, !StreamlitApi}.

(** The image came out of [Image.open]. *)
Definition decoded (image : Image) : Prop :=
  exists b, Image_open b = Returns image.

(** The promises of the codec. *)
Class PillowLawful : Prop := {
  (* section 4.3: no failure mode for any validly decoded image *)
  save_decoded image :
    decoded image -> exists buffered, Image_save_PNG image = Returns buffered;
  (* the encoding is a string of bytes *)
  save_bytes image buffered :
    Image_save_PNG image = Returns buffered -> is_bytes buffered;
  (* section 8: decoding the encoded bytes gives the same dimensions *)
  open_saved image buffered :
    decoded image -> Image_save_PNG image = Returns buffered ->
    exists image', Image_open buffered = Returns image' /\
                   img_size image' = img_size image;
}.

(** One run of the script with these libraries. *)
Definition run_step (s s' : SessionState) : Prop :=
  exists inp, s' = session (page inp s).

(** The session states that runs with these libraries reach. *)
Definition served (s : SessionState) : Prop := rtc run_step new_session s.

(** The image the session state holds, if any, came out of
    [Image.open]. *)
Definition holds_decoded (s : SessionState) : Prop :=
  forall image, current_image s = Some image -> decoded image.

End Codec.

(** ** Facts *)

Section CodecFacts.
Context `{!OpenAIApi, !RequestsApi, !PillowApi, !ClockApi, !StreamlitApi}.
Implicit Types (inp : Inputs) (s : SessionState) (image : Image).

(** What the contract delivers was decoded. *)
Lemma generate_decoded credential prompt image :
  generate credential prompt = inr image -> decoded image.
Proof.
  unfold generate, decoded. intros Hg. repeat case_match; simplify_eq. eauto.
Qed.

Lemma next_session_decoded inp s :
  holds_decoded s -> holds_decoded (next_session inp s).
Proof.
  intros Hs. unfold next_session.
  destruct (submitted inp); [|done].
  destruct (answer inp) as [f|image] eqn:Ha; [done|].
  intros image' [= <-]. by eapply generate_decoded.
Qed.

Lemma served_decoded s : served s -> holds_decoded s.
Proof.
  revert s. apply rtc_ind_r; [by intros image|].
  intros s s' _ [inp ->] Hs. rewrite page_session.
  by apply next_session_decoded.
Qed.

(** The runs with these libraries are among the user actions of
    [Reachable]. *)
Lemma served_reachable s : served s -> reachable s.
Proof.
  revert s. apply rtc_ind_r; [apply rtc_refl|].
  intros s s' _ [inp ->] Hs. eapply rtc_r; [exact Hs|].
  rewrite page_session. apply user_action_next.
Qed.

Section Lawful.
Context `{!PillowLawful}.

(** A session state that holds an image holds its word. *)
Lemma served_word s image :
  served s -> current_image s = Some image ->
  exists word, current_word s = Some word.
Proof.
  intros Hs%served_reachable%reachable_coherent Hi. unfold coherent in Hs.
  rewrite Hi in Hs.
  destruct (current_prompt s) as [[p|]|], (current_word s) as [w|]; try done.
  by eexists.
Qed.

(** With a lawful codec the right column never raises. *)
Lemma display_ended_lawful s : served s -> display_ended s = Done tt.
Proof.
  intros Hs. pose proof (served_decoded s Hs) as Hd.
  apply served_reachable, reachable_coherent in Hs.
  unfold display_ended, coherent, holds_decoded in *.
  destruct (current_image s) as [image|]; [|done].
  destruct (current_prompt s) as [[p|]|], (current_word s) as [w|]; try done.
  destruct (save_decoded image (Hd image eq_refl)) as [buffered ->]. done.
Qed.

(** C19: With a lawful codec, no run of the script ends with an exception:
    whatever the fields, the click and the answers of the service, a
    run in a session state these libraries reach ends normally or with
    [st.rerun()]. *)
Theorem page_never_raises inp s e :
  served s -> ended (page inp s) <> Raised e.
Proof.
  intros Hs. rewrite page_ended. unfold next_ended.
  rewrite (display_ended_lawful s Hs). by repeat case_match.
Qed.

Section Saved.
Context `{!CharacterReferences, !ReferencesLawful}.

(** C18: The download round trip.  In a session state that holds an image,
    every run that draws the right column draws a link to the bytes
    [image.save] produced, which open as an image with the pixel
    dimensions of the stored one.  Whenever a browser saves a file
    from the link, the file is of type [image/png] and holds these
    bytes, and it is offered under the name the script built from the
    stored word only if the word holds no double quote.  When the word
    is written with plain characters (no double quote, ampersand,
    carriage return or U+0000) the browser does save the file, under
    that name. *)
Theorem download_round_trip inp s image :
  served s -> current_image s = Some image -> ended (page inp s) <> Rerun ->
  exists link word buffered image',
    Markdown link true ∈ drawn (page inp s) /\
    current_word s = Some word /\
    Image_open buffered = Returns image' /\
    img_size image' = img_size image /\
    (forall name file,
       save_link link = Some (name, file) ->
       file = (lit "image/png", buffered) /\
       (name = download_filename word (strftime datetime_now) -> 34 ∉ word)) /\
    (forallb html_plain word = true ->
     save_link link
     = Some (download_filename word (strftime datetime_now),
             (lit "image/png", buffered))).
Proof.
  intros Hs Hi Hne. rewrite page_ended in Hne. rewrite page_drawn_view.
  pose proof (served_decoded s Hs image Hi) as Hd.
  destruct (save_decoded image Hd) as [buffered Hsave].
  destruct (open_saved image buffered Hd Hsave) as (image' & Hopen & Hsize).
  destruct (served_word s image Hs Hi) as [word Hw].
  destruct (link_saves_image buffered
              (download_filename word (strftime datetime_now)))
    as [Hfile Hname]; [by eapply save_bytes|].
  eexists _, word, buffered, image'. split_and!; try done.
  - by eapply page_view_display, display_view_link.
  - intros name file [-> Hq]%Hfile. by rewrite download_filename_quote in Hq.
  - intros Hp. by apply Hname, download_filename_plain.
Qed.

End Saved.
End Lawful.
End CodecFacts.
