(* ===== verification/Delivery.v ===== *)
(** * Delivery: from the press of the button to the saved file

    The parts of the development meet here.  The front end of
    [Frontend] starts the runs of the script; the script of [Main] asks
    the client of [ImageClient] for an image, stores it and draws the
    page of [View]; the right column encodes the stored image
    ([Download]) and draws the link; the browser of [Browser] reads the
    link and saves a file; the codec of [Codec] opens it again.

    [html_texts] lists the texts a page hands to the HTML parser, the
    bodies of the elements drawn with [unsafe_allow_html=True];
    Streamlit makes each an element of the page of its own.
    [downloads] lists the files they offer: a text offers a file when
    it begins with an anchor that saves one ([save_link]).  The style
    sheet, the header, the subtitle and the two [div] tags of the
    download section offer none.

    Theorems: the HTML of the right column is the opening tag of the
    download section, the link and the closing tag, as three elements
    (so the section the style sheet gives a background to is empty);
    whatever the fields and the session state, every file a
    page offers holds the bytes [image.save] produced for the stored
    image; and a user who types a key and a word written with plain
    characters and presses the button is offered, when the service
    answers with an image, exactly one file: a PNG named after the
    trimmed word that opens as an image of the dimensions of the one
    the service produced. *)

From stdpp Require Import base tactics list numbers strings relations.
From S2P Require Import Prelude PyStr Prompt World Session Script.
From S2P Require Import ImageClient Base64 Timestamp Texts Download Browser.
From S2P Require Import Main Controller View Reachable Frontend Codec.

Local Open Scope N_scope.

(** ** Definitions *)

(** The texts a page hands to the HTML parser: the bodies of the
    elements drawn with [unsafe_allow_html=True], each an element of
    its own. *)
Definition html_texts (l : list element) : list str :=
  omap (fun e => match e with Markdown body true => Some body | _ => None end) l.

(** The files a page offers, from top to bottom (lines 211 and 122):
    those of the anchors among its HTML texts. *)
Definition downloads `{!CharacterReferences} (l : list element)
  : list (str * (str * bytes)) :=
  omap save_link (html_texts l).

(** ** Facts *)

Lemma html_texts_app l1 l2 : html_texts (l1 ++ l2) = html_texts l1 ++ html_texts l2.
Proof. apply omap_app. Qed.

Lemma html_texts_reported word r : html_texts (reported word r) = [].
Proof. by destruct r as [[]|]. Qed.

Section DeliveryFacts.
Context `{!OpenAIApi, !RequestsApi, !PillowApi, !ClockApi, !StreamlitApi}.
Implicit Types (inp : Inputs) (s : SessionState) (image : Image).

(** The HTML of the right column: the opening tag of the download
    section, the link and the closing tag, three elements of the page.
    The heading, the link and the file's description are drawn between
    the two tags and not inside them. *)
Lemma display_view_html s :
  html_texts (display_view s) =
  match current_image s, current_word s with
  | Some image, Some word =>
      download_div_open
      :: match Image_save_PNG image with
         | Returns buffered =>
             [link_head ++ b64encode buffered ++ link_mid
              ++ download_filename word (strftime datetime_now) ++ link_tail;
              div_close]
         | Raises _ => []
         end
  | _, _ => []
  end.
Proof.
  unfold display_view, download_view.
  by repeat case_match; rewrite ?html_texts_app.
Qed.

(** The HTML of a page: the style sheet, the header and the subtitle,
    then that of the right column. *)
Lemma page_view_html inp s :
  html_texts (page_view inp s) =
  [css; header_html; subtitle_html]
  ++ match next_ended inp s with
     | Rerun => []
     | _ => html_texts (display_view s)
     end.
Proof.
  assert (Hreq : html_texts (request_view inp) = []).
  { unfold request_view. repeat case_match; try done;
      by rewrite html_texts_app, html_texts_reported. }
  assert (Hhelp : html_texts (help_view inp) = []).
  { unfold help_view. by case_match. }
  unfold page_view, main_view.
  rewrite !html_texts_app, Hreq.
  destruct (next_ended inp s); rewrite ?html_texts_app, ?Hhelp;
    cbn [app]; try reflexivity.
  all: change (html_texts footer_view) with (@nil str); by rewrite ?app_nil_r.
Qed.

Context `{!CharacterReferences}.

(** The texts the script draws as HTML besides the link are no
    anchors. *)
Lemma save_link_chrome :
  omap save_link [css; header_html; subtitle_html] = [] /\
  save_link download_div_open = None /\ save_link div_close = None.
Proof. by vm_compute. Qed.

(** The files of a page are those of the link of its right column. *)
Lemma page_view_downloads inp s :
  downloads (page_view inp s) =
  match next_ended inp s with
  | Rerun => []
  | _ =>
      match current_image s, current_word s with
      | Some image, Some word =>
          match Image_save_PNG image with
          | Returns buffered =>
              option_list (save_link
                (link_head ++ b64encode buffered ++ link_mid
                 ++ download_filename word (strftime datetime_now)
                 ++ link_tail))
          | Raises _ => []
          end
      | _, _ => []
      end
  end.
Proof.
  destruct save_link_chrome as (Hchrome & Hopen & Hclose).
  unfold downloads. rewrite page_view_html, omap_app, Hchrome.
  destruct (next_ended inp s); try reflexivity;
    rewrite display_view_html; repeat case_match; try reflexivity;
    cbn [app omap list_omap]; rewrite ?Hopen, ?Hclose; try reflexivity;
    by destruct (save_link _).
Qed.

(** The download section is empty.  On every page that shows the
    stored image the script opens the section (line 202) and closes it
    (line 220) in two elements of their own: the first holds the
    opening tag of the [div] and nothing else, the second a closing tag
    that closes nothing, and the heading, the link and the description
    of the file lie between them as their siblings. *)
Theorem download_section_elements inp s image word buffered :
  next_ended inp s <> Rerun ->
  current_image s = Some image -> current_word s = Some word ->
  Image_save_PNG image = Returns buffered ->
  html_texts (drawn (page inp s))
  = [css; header_html; subtitle_html; download_div_open;
     link_head ++ b64encode buffered ++ link_mid
     ++ download_filename word (strftime datetime_now) ++ link_tail;
     div_close] /\
  start_tag download_div_open
  = Some (lit "div", [(lit "class", lit "download-section")]) /\
  start_tag div_close = None.
Proof.
  intros Hne Hi Hw Hsave. split; [|by vm_compute].
  rewrite page_drawn_view, page_view_html, display_view_html, Hi, Hw, Hsave.
  by destruct (next_ended inp s).
Qed.

End DeliveryFacts.

(** ** Theorems *)

Section DeliveryTheorems.
Context `{!OpenAIApi, !RequestsApi, !PillowApi, !ClockApi, !StreamlitApi}.
Context `{!PillowLawful, !CharacterReferences, !ReferencesLawful}.
Implicit Types (inp : Inputs) (s : SessionState) (b : browser).


(** C17: From the press of the button to the saved file.  From every
    browser a user can bring about with the page open, typing a
    non-blank key, typing a non-blank word the field accepts and that
    is written with plain characters, and pressing the button is a plan
    the front end accepts; when the service answers that key and that
    word with an image, the page the plan ends with offers exactly one
    file: a PNG, named after the trimmed word and the time of the run,
    whose bytes open as an image with the pixel dimensions of the image
    the service produced. *)
Theorem image_downloadable b key word image :
  browser_reachable b -> b <> closed ->
  blank key = false -> blank word = false -> fits word = true ->
  forallb html_plain word = true ->
  generate key (generate_mandala_prompt (strip word)) = inr image ->
  exists b' buffered image',
    react_all [Type_key key; Type_word word; Press] b = Some b' /\
    downloads (screen b')
    = [(download_filename (strip word) (strftime datetime_now),
        (lit "image/png", buffered))] /\
    Image_open buffered = Returns image' /\
    img_size image' = img_size image.
Proof.
  intros Hb Hne Hk Hw Hfits Hplain Hans.
  pose proof (closed_or_open _ Hb Hne) as Hs.
  destruct (react_plan b key word Hs Hk Hw Hfits) as [Hsub ->].
  pose proof (generate_decoded _ _ _ Hans) as Hd.
  destruct (save_decoded image Hd) as [buffered Hsave].
  destruct (open_saved image buffered Hd Hsave) as (image' & Hopen & Hsize).
  eexists _, buffered, image'. split_and!; try done. cbn [screen].
  rewrite page_view_downloads.
  pose proof (settled_ended
    {| api_key_field := key; word_field := word; clicked := true |}
    (memory b)) as Hend.
  destruct (link_saves_image buffered
              (download_filename (strip word) (strftime datetime_now)))
    as [_ Hname]; [by eapply save_bytes|].
  rewrite download_filename_plain in Hname by by apply forallb_strip.
  destruct (next_ended _ _); [| |done];
    unfold next_session, answer; rewrite Hsub;
    cbn [api_key_field word_field]; rewrite Hans;
    cbn [store set_current_word set_current_prompt set_current_image
         current_image current_word];
    by rewrite Hsave, Hname.
Qed.

End DeliveryTheorems.
