(* ===== verification/Machine.v ===== *)
(** * Machine: the state machine of the specification and its
      implementation by the script

    Section 4.5 of the specification describes the controller as a
    machine with the phases [Idle], [AwaitingInput], [Requesting],
    [Succeeded] and [Failed] around a holder of at most one
    [GenerationResult].  [step] is that machine, labelled by what
    happens: the fields get filled, the user submits, the client
    delivers an image or refuses.

    The script has no variable for the phase: a run passes through
    [Requesting] while [generate_mandala_image] is being called and ends
    in [Succeeded] or [Failed].  [labels] reads off a run the labels it
    performs, and [page_simulates] shows that the machine can perform
    them and ends with the holder the script's session state holds.

    Theorems: the invariant of the machine, by induction on its steps;
    determinism of the machine on given labels; the simulation, for one
    run, for every sequence of user actions, and for the front end of
    [Frontend], where [stands_for] also relates the phase of the
    machine to what the page shows. *)

From stdpp Require Import base tactics list numbers strings relations.
From S2P Require Import Prelude PyStr Prompt World Session Script.
From S2P Require Import ImageClient Base64 Timestamp Texts Download Main.
From S2P Require Import Controller View Reachable Frontend.

(** ** The machine *)

Inductive phase :=
| Idle
| AwaitingInput
| Requesting (topic : str)
| Succeeded
| Failed.

Record machine := Machine {
  phase_of : phase;
  holder : option GenerationResult;
}.

Inductive label :=
| Fill
| Submit (credential topic : str)
| Deliver (i : Image)
| Refuse (f : failure).

(** No request is in flight. *)
Definition at_rest (p : phase) : bool :=
  match p with Requesting _ => false | _ => true end.

(** The result a delivery builds for the topic of the request. *)
Definition result_for (topic : str) (i : Image) : GenerationResult :=
  {| image := i;
     promptUsed := generate_mandala_prompt topic;
     sourceTopic := topic |}.

Inductive step : machine -> label -> machine -> Prop :=
| step_fill h :
    step (Machine Idle h) Fill (Machine AwaitingInput h)
| step_submit p h credential topic :
    at_rest p = true -> blank credential = false -> blank topic = false ->
    step (Machine p h) (Submit credential topic) (Machine (Requesting topic) h)
| step_deliver topic h i :
    step (Machine (Requesting topic) h) (Deliver i)
         (Machine Succeeded (Some (result_for topic i)))
| step_refuse topic h f :
    step (Machine (Requesting topic) h) (Refuse f) (Machine Failed h).

(** A sequence of steps. *)
Inductive steps : machine -> list label -> machine -> Prop :=
| steps_nil m : steps m [] m
| steps_cons m l m' ls m'' :
    step m l m' -> steps m' ls m'' -> steps m (l :: ls) m''.

Definition initial : machine := Machine Idle None.

(** The machine's invariant: nothing is held before the first success,
    something is held after a success, and what is held was built from
    its topic. *)
Definition machine_inv (m : machine) : Prop :=
  match phase_of m with
  | Idle | AwaitingInput => holder m = None
  | Succeeded => holder m <> None
  | Requesting topic => blank topic = false
  | Failed => True
  end /\
  match holder m with
  | Some r => promptUsed r = generate_mandala_prompt (sourceTopic r) /\
              blank (sourceTopic r) = false
  | None => True
  end.

(** ** The script as an implementation *)

Section Implementation.
Context `{!OpenAIApi, !RequestsApi, !PillowApi, !ClockApi, !StreamlitApi}.

(** The labels a run performs: none unless it is submitted; then the
    submission of the key and the trimmed word, followed by the
    client's answer. *)
Definition labels (inp : Inputs) : list label :=
  if submitted inp then
    [Submit (api_key_field inp) (strip (word_field inp));
     match answer inp with
     | inr i => Deliver i
     | inl f => Refuse f
     end]
  else [].

(** The phase in which a run leaves the machine. *)
Definition phase_after (inp : Inputs) (p : phase) : phase :=
  if submitted inp then
    match answer inp with
    | inr _ => Succeeded
    | inl _ => Failed
    end
  else p.

End Implementation.

(** The machine [m] stands for the session state [s] between two
    runs. *)
Definition abstracts (m : machine) (s : SessionState) : Prop :=
  at_rest (phase_of m) = true /\ holder m = held s.

(** What the page shows of the machine's phase: an error box only in
    [Failed]; in [Succeeded] the image of the held result under the
    caption of its topic. *)
Definition shows_phase (m : machine) (b : browser) : Prop :=
  (forall e, Error e ∈ screen b -> phase_of m = Failed) /\
  (phase_of m = Succeeded ->
   exists r, holder m = Some r /\
     Show_image (image r) (caption (sourceTopic r)) true ∈ screen b).

(** The machine [m] stands for the browser [b]. *)
Definition stands_for (m : machine) (b : browser) : Prop :=
  abstracts m (memory b) /\ shows_phase m b.

(** ** The machine alone *)

Lemma step_inv m l m' : step m l m' -> machine_inv m -> machine_inv m'.
Proof.
  intros Hstep [Hp Hh]. destruct Hstep; unfold machine_inv in *; simpl in *.
  - done.
  - done.
  - split; [done|]. split; [done|exact Hp].
  - done.
Qed.

Lemma steps_inv m ls m' : steps m ls m' -> machine_inv m -> machine_inv m'.
Proof. induction 1; eauto using step_inv. Qed.

Lemma steps_app m ls m' ls' m'' :
  steps m ls m' -> steps m' ls' m'' -> steps m (ls ++ ls') m''.
Proof. induction 1; simpl; eauto using steps. Qed.

Lemma step_deterministic m l m1 m2 : step m l m1 -> step m l m2 -> m1 = m2.
Proof. intros H1 H2. destruct H1; inversion H2; by subst. Qed.

(** every state the machine reaches from [initial] satisfies its
    invariant: nothing is held in [Idle] and [AwaitingInput], a result
    is held in [Succeeded], and a held result carries the prompt of its
    non-blank topic. *)
Theorem machine_reaches_inv ls m : steps initial ls m -> machine_inv m.
Proof. intros H. by apply (steps_inv _ _ _ H). Qed.

(** on given labels the machine has one behaviour. *)
Theorem steps_deterministic m ls m1 m2 :
  steps m ls m1 -> steps m ls m2 -> m1 = m2.
Proof.
  intros H1. revert m2. induction H1 as [|m l m' ls m'' Hs _ IH]; intros m2 H2.
  - by inversion H2.
  - inversion H2; subst. apply IH.
    by rewrite (step_deterministic _ _ _ _ Hs ltac:(eassumption)).
Qed.

(** ** Simulation *)

Section Simulation.
Context `{!OpenAIApi, !RequestsApi, !PillowApi, !ClockApi, !StreamlitApi}.
Implicit Types (inp : Inputs) (s : SessionState) (m : machine).

Lemma held_next_session inp s :
  held (next_session inp s) =
  if submitted inp then
    match answer inp with
    | inr i => Some (result_for (strip (word_field inp)) i)
    | inl _ => held s
    end
  else held s.
Proof. unfold next_session. by repeat case_match. Qed.

Lemma next_session_simulates inp s m :
  abstracts m s ->
  exists m',
    steps m (labels inp) m' /\
    phase_of m' = phase_after inp (phase_of m) /\
    abstracts m' (next_session inp s).
Proof.
  intros [Hrest Hh]. destruct m as [p h]. simpl in *.
  unfold abstracts, labels, phase_after. rewrite held_next_session.
  destruct (submitted inp) eqn:Hsub; [|eauto using steps].
  apply submitted_fields in Hsub as (_ & Hk & Hw).
  rewrite <- blank_strip in Hw.
  destruct (answer inp) as [f|i]; eexists (Machine _ _);
    (split; [eauto using steps, step|]); simpl; by subst.
Qed.

(** C10: the script implements the machine.  From a machine state that
    stands for the session state, the machine performs the labels of
    the run, ends in [Succeeded] after a delivery, in [Failed] after a
    refusal and where it was when nothing was submitted, and its holder
    is again what the session state holds. *)
Theorem page_simulates inp s m :
  abstracts m s ->
  exists m',
    steps m (labels inp) m' /\
    phase_of m' = phase_after inp (phase_of m) /\
    abstracts m' (session (page inp s)).
Proof. rewrite page_session. apply next_session_simulates. Qed.

End Simulation.

(** Every session state that user actions can reach is the state of
    a run of the machine from [initial]: the script never holds a result
    the machine could not hold. *)
Theorem reachable_simulated s :
  reachable s -> exists ls m, steps initial ls m /\ abstracts m s.
Proof.
  revert s. apply rtc_ind_r; [exists [], initial; split; [constructor | done]|].
  intros s s' _ [W1 W2 W3 W4 W5 fuel inp s0 rs Hrs] (ls & m & Hsteps & Habs).
  rewrite (interaction_session _ _ _ _ Hrs).
  destruct (next_session_simulates inp s0 m Habs) as (m' & Hs' & _ & Habs').
  exists (ls ++ labels inp), m'. eauto using steps_app.
Qed.

(** ** The front end and the machine *)

Lemma held_fields s r :
  held s = Some r ->
  current_image s = Some (image r) /\ current_word s = Some (sourceTopic r).
Proof.
  unfold held. destruct s as [[i|] [[p|]|] [w|]]; simpl; try done.
  by intros [= <-].
Qed.

Section FrontEnd.
Context `{!OpenAIApi, !RequestsApi, !PillowApi, !ClockApi, !StreamlitApi}.
Implicit Types (inp : Inputs) (s : SessionState) (m : machine) (b : browser).

(** A page drawn without a click shows what the machine at rest
    holds. *)
Lemma idle_page_shows m inp s :
  clicked inp = false -> abstracts m s ->
  (phase_of m = Succeeded -> holder m <> None) ->
  shows_phase m (Browser (api_key_field inp) (word_field inp) s
                         (page_view inp s)).
Proof.
  intros Hc [_ Hh] Hm.
  assert (Hsub : submitted inp = false) by (unfold submitted; by rewrite Hc).
  split; simpl.
  - intros e [Hs _]%page_view_error. congruence.
  - intros Hp. destruct (holder m) as [r|] eqn:Hr; [|by destruct (Hm Hp)].
    exists r. split; [done|]. symmetry in Hh.
    apply held_fields in Hh as [Hi Hw]. apply page_view_display.
    + unfold next_ended. rewrite Hsub. apply display_ended_not_rerun.
    + by apply display_view_image.
Qed.

(** The runs of a press take the machine through a submission and the
    client's answer, and the page shows the phase it ends in. *)
Lemma press_simulated m b rs b' :
  shows_page b -> abstracts m (memory b) -> react Press b = Some (rs, b') ->
  exists m', steps m (labels (fields b true)) m' /\ stands_for m' b'.
Proof.
  intros Hb Habs Hr. cbn [react] in Hr.
  destruct (on_screen _ b) eqn:Hon; [|done].
  pose proof (press_submitted b Hb Hon) as Hsub.
  rewrite refresh_eq in Hr. injection Hr as _ <-.
  destruct (next_session_simulates (fields b true) (memory b) m Habs)
    as (m' & Hsteps & Hp & Habs').
  exists m'. split; [done|]. split; [done|].
  pose proof (refresh_answer (fields b true) (memory b) Hsub) as Ha.
  unfold phase_after in Hp. rewrite Hsub in Hp.
  destruct Habs' as [_ Hh]. simpl in *.
  destruct (answer (fields b true)) as [f|image] eqn:Hans; split; simpl;
    try congruence.
  - intros e [Hs _]%page_view_error. unfold settled, next_ended in Hs.
    by rewrite Hsub, Hans in Hs.
  - intros _. destruct Ha as [Hshow Hheld]. rewrite Hh, Hheld. eauto.
Qed.

End FrontEnd.

(** One gesture of the front end, seen from the machine. *)
Lemma react_simulated `{!OpenAIApi, !RequestsApi, !PillowApi, !ClockApi,
    !StreamlitApi} g b rs b' ls m :
  browser_reachable b -> react g b = Some (rs, b') ->
  steps initial ls m -> stands_for m b ->
  exists ls' m', steps initial ls' m' /\ stands_for m' b'.
Proof.
  intros Hb Hr Hsteps [Habs Hshow].
  assert (Hm : phase_of m = Succeeded -> holder m <> None).
  { intros Hp. destruct (machine_reaches_inv ls m Hsteps) as [Hi _].
    by rewrite Hp in Hi. }
  destruct g; cbn [react] in Hr; repeat case_match; try discriminate.
  2-4: apply refresh_idle in Hr as (_ & _ & ->); [|done];
    exists ls, m; (split; [done|]); (split; [done|]); by apply idle_page_shows.
  - apply refresh_idle in Hr as (_ & _ & ->); [|done].
    exists [], initial. split; [constructor|]. split; [by split|].
    apply (idle_page_shows initial (fields closed false) new_session);
      [done | by split | done].
  - apply browser_reachable_inv in Hb as (_ & _ & [->|Hs]).
    { match goal with H : on_screen _ closed = true |- _ =>
        by vm_compute in H end. }
    destruct (press_simulated m b rs b' Hs Habs) as (m' & Hsteps' & Hst).
    { cbn [react]. by case_match. }
    exists (ls ++ labels (fields b true)), m'. eauto using steps_app.
Qed.

