(* ===== verification/Scenarios.v ===== *)
(** * Scenarios: concrete libraries and the scenarios of the specification

    Instances of the library interfaces with fixed answers (a service
    that delivers a 1024x1024 image, one whose download answers HTTP
    500, one whose download answers 304, one whose constructor rejects
    the key, a PNG encoder that fails), the three scenarios of section
    8 of the specification
    evaluated on them, a browser session with both fields filled, a
    word that injects an attribute into the download link, a server
    with two sessions, a run that is stopped before its end, a button
    pressed without waiting for the page, and the general theorems
    applied to them. *)

From stdpp Require Import base tactics list numbers strings relations gmap.
From Stdlib Require Import Lia.
From S2P Require Import Prelude PyStr Prompt World Utf8 Session Script.
From S2P Require Import ImageClient Base64 Timestamp Texts Download Browser.
From S2P Require Import Main.
From S2P Require Import Controller View Reachable Interrupt Frontend Codec.
From S2P Require Import Sessions Race Delivery Machine.

Local Open Scope N_scope.

(** ** Library answers *)

Definition sample_url : str := lit "https://img.example/m.png".

Definition sample_png : bytes := [137; 80; 78; 71; 13; 10; 26; 10].

Definition sample_image : Image :=
  {| img_size := (1024, 1024); img_pixels := [0; 255; 0] |}.

Definition openai_ok : OpenAIApi :=
  {| openai_OpenAI k := Returns {| api_key_of := k |};
     images_generate _ _ :=
       Returns {| data := Some [{| url := Some sample_url |}] |} |}.

Definition openai_no_client : OpenAIApi :=
  {| openai_OpenAI _ :=
       Raises (Exn "OpenAIError" (lit "The api_key client option must be set"));
     images_generate _ _ := Returns {| data := Some [] |} |}.

Definition openai_empty : OpenAIApi :=
  {| openai_OpenAI k := Returns {| api_key_of := k |};
     images_generate _ _ := Returns {| data := Some [] |} |}.

Definition response_with (status : N) (why : str) : Response :=
  {| status_code := status; reason := why; resp_url := sample_url;
     content := sample_png |}.

Definition requests_ok : RequestsApi :=
  {| requests_get _ := Returns (response_with 200 (lit "OK")) |}.

Definition requests_500 : RequestsApi :=
  {| requests_get _ :=
       Returns (response_with 500 (lit "Internal Server Error")) |}.

(** A download answered with 304 Not Modified and no body. *)
Definition requests_304 : RequestsApi :=
  {| requests_get _ :=
       Returns {| status_code := 304; reason := lit "Not Modified";
                  resp_url := sample_url; content := [] |} |}.

Definition pillow_ok : PillowApi :=
  {| Image_open _ := Returns sample_image;
     Image_save_PNG _ := Returns sample_png |}.

Definition pillow_save_fails : PillowApi :=
  {| Image_open _ := Returns sample_image;
     Image_save_PNG _ :=
       Raises (Exn "OSError" (lit "cannot write mode F as PNG")) |}.

(** A decoder that finds no image in what it is given. *)
Definition pillow_rejects : PillowApi :=
  {| Image_open _ :=
       Raises (Exn "UnidentifiedImageError"
                 (lit "cannot identify image file"));
     Image_save_PNG _ := Returns sample_png |}.

Definition morning : datetime :=
  {| year := 2024; month := 3; day := 7; hour := 9; minute := 5; second := 0 |}.

Definition clock_2024 : ClockApi := {| datetime_now := morning |}.

Definition streamlit_rt : StreamlitApi :=
  {| missing_attribute_message name :=
       lit "st.session_state has no attribute " ++ lit name |}.

(** ** User inputs *)

Definition peace : Inputs :=
  {| api_key_field := lit "valid-token"; word_field := lit "peace";
     clicked := true |}.

(** The word typed with blanks around it. *)
Definition peace_padded : Inputs :=
  {| api_key_field := lit "valid-token"; word_field := lit "  peace ";
     clicked := true |}.

(** The key typed with a blank on either side. *)
Definition padded_key : Inputs :=
  {| api_key_field := lit " valid-token "; word_field := lit "peace";
     clicked := true |}.

Definition peace_other_key : Inputs :=
  {| api_key_field := lit "another-token"; word_field := lit "peace";
     clicked := true |}.

Definition no_key : Inputs :=
  {| api_key_field := []; word_field := lit "peace"; clicked := true |}.

Definition idle : Inputs :=
  {| api_key_field := []; word_field := []; clicked := false |}.

(** The session state after the word "peace" was generated. *)
Definition after_peace : SessionState :=
  store sample_image (Some (generate_mandala_prompt (lit "peace")))
        (lit "peace") new_session.

(** The text of the [st.error] box of an HTTP 500. *)
Definition http_500_text : str :=
  cross_mark
  ++ lit " Error generating image: 500 Server Error: Internal Server Error"
  ++ lit " for url: https://img.example/m.png".

(** A word that closes the attribute it is placed in and opens another:
    [x" onclick="steal()" x="]. *)
Definition injecting_word : str :=
  lit "x" ++ dq ++ lit " onclick=" ++ dq ++ lit "steal()" ++ dq
  ++ lit " x=" ++ dq.

(** A word with a character reference, and a word that closes its
    attribute with a double quote and opens a single-quoted one that
    nothing closes. *)
Definition ampersand_word : str := lit "a&amp;b".

Definition unclosed_word : str := lit "x" ++ dq ++ lit " y='".

(** The link of a word, as the script writes it in the morning. *)
Definition link_of (word : str) : str :=
  link_head ++ b64encode sample_png ++ link_mid
  ++ download_filename word (strftime morning) ++ link_tail.

(** Four of the named character references of HTML: the table of the
    browser of the scenarios. *)
Definition named_references : list (str * str) :=
  [(lit "amp;", lit "&"); (lit "lt;", lit "<"); (lit "gt;", lit ">");
   (lit "quot;", dq)].

Fixpoint lookup_reference (table : list (str * str)) (s : str)
  : option (str * nat) :=
  match table with
  | [] => None
  | (name, chars) :: table =>
      if bool_decide (take (length name) s = name)
      then Some (chars, length name)
      else lookup_reference table s
  end.

#[local] Instance references_basic : CharacterReferences :=
  lookup_reference named_references.

(** The fields filled, the button not pressed. *)
Definition filled_in : Inputs :=
  {| api_key_field := lit "valid-token"; word_field := lit "peace";
     clicked := false |}.

(** The browser after the page was opened and the two fields were
    filled, with the service that delivers. *)
Definition filled : browser :=
  Browser (lit "valid-token") (lit "peace") new_session
    (@page_view openai_ok requests_ok pillow_ok clock_2024 streamlit_rt
       filled_in new_session).

(** ** The theorems on texts and bytes at these inputs *)

Lemma sample_png_bytes : is_bytes sample_png.
Proof. apply (bool_decide_unpack _). vm_compute. exact I. Qed.

Lemma morning_valid : valid_datetime morning.
Proof. unfold valid_datetime, morning. simpl. lia. Qed.

Lemma b64decode_b64encode_witness :
  is_bytes sample_png /\ b64decode (lit "iVBORw0KGgo=") = Some sample_png.
Proof.
  split; [exact sample_png_bytes|].
  exact (proj1 (b64decode_b64encode sample_png sample_png
                  sample_png_bytes sample_png_bytes)).
Defined.

Lemma b64encode_rfc_equiv_witness :
  is_bytes sample_png /\ b64encode_rfc sample_png = lit "iVBORw0KGgo=".
Proof.
  split; [exact sample_png_bytes|].
  exact (eq_trans (eq_sym (b64encode_rfc_equiv sample_png sample_png_bytes))
           eq_refl).
Defined.

Lemma utf8_decode_scalar_witness :
  utf8_decode [240; 159; 142; 168] = Some palette /\ Forall scalar palette.
Proof.
  split; [reflexivity|].
  exact (utf8_decode_scalar [240; 159; 142; 168] palette eq_refl).
Defined.

Lemma strftime_shape_witness :
  valid_datetime morning /\ length (lit "20240307_090500") = 15%nat.
Proof.
  split; [exact morning_valid|].
  exact (proj1 (strftime_shape morning morning_valid)).
Defined.

Lemma download_filename_clock_witness :
  valid_datetime morning /\
  download_filename (lit "peace") (strftime morning)
  = lit "mandala_peace_20240307_090500.png" /\
  morning = morning.
Proof.
  split; [exact morning_valid|]. split; [reflexivity|].
  exact (download_filename_clock (lit "peace") morning morning
           morning_valid morning_valid eq_refl).
Defined.

Lemma prompt_inj_witness :
  generate_mandala_prompt (lit "peace") = generate_mandala_prompt (lit "peace") /\
  lit "peace" = lit "peace".
Proof. split; [reflexivity | exact (prompt_inj _ _ eq_refl)]. Defined.

Lemma download_filename_no_quote_witness :
  (34 ∉ lit "peace") /\ (34 ∉ strftime morning) /\
  (34 ∉ lit "mandala_peace_20240307_090500.png").
Proof.
  assert (Hw : 34 ∉ lit "peace") by (vm_compute; miss_elem).
  split; [exact Hw|]. split; [apply strftime_no_quote|].
  exact (download_filename_no_quote (lit "peace") (strftime morning) Hw
           (strftime_no_quote morning)).
Defined.

Section Delivered.
#[local] Existing Instances openai_ok requests_ok pillow_ok clock_2024
  streamlit_rt.

(** ** Scenario 1: a valid token and the topic "peace" *)

(** the action takes two runs, the first ending with [st.rerun()];
    the session then holds the delivered 1024x1024 image, the topic and
    its prompt. *)
Example scenario_success :
  exists r1 r2,
    interaction 2 peace new_session = Some [r1; r2] /\
    ended r1 = Rerun /\ ended r2 = Done tt /\
    held (session r2)
    = Some {| image := sample_image;
              promptUsed := generate_mandala_prompt (lit "peace");
              sourceTopic := lit "peace" |} /\
    img_size sample_image = (1024, 1024).
Proof. eexists _, _. vm_compute. done. Qed.

(** The stored word is the trimmed one; the success message shows the
    word as typed. *)
Example scenario_padded :
  current_word (session (page peace_padded new_session)) = Some (lit "peace") /\
  Success (ready_message (lit "  peace ")) ∈ drawn (page peace_padded new_session).
Proof. split; [by vm_compute|]. vm_compute. find_elem. Qed.

(** The key is tested trimmed and sent as typed: the constructor
    receives the blanks the user typed around it. *)
Example scenario_padded_key :
  submitted padded_key = true /\
  head (network_calls (trace (page padded_key new_session)))
  = Some (OpenAI_new (lit " valid-token ")).
Proof. by vm_compute. Qed.

(** ** Scenario 2: an empty credential *)

(** the button is disabled; even a run that receives a click makes no
    network call and leaves the session new. *)
Example scenario_no_key :
  button_disabled no_key = true /\
  network_calls (trace (page no_key new_session)) = [] /\
  session (page no_key new_session) = new_session.
Proof. by vm_compute. Qed.

(** The file name and the link of the stored image, as drawn. *)
Example scenario_filename :
  Markdown (link_head ++ b64encode sample_png ++ link_mid
            ++ lit "mandala_peace_20240307_090500.png" ++ link_tail) true
  ∈ drawn (page idle after_peace).
Proof. vm_compute. find_elem. Qed.

Lemma after_peace_run :
  interaction 2 peace new_session
  = Some [page peace new_session; page (after_rerun peace) after_peace].
Proof. by vm_compute. Qed.

Lemma after_peace_reachable : reachable after_peace.
Proof.
  apply rtc_once.
  change after_peace with
    (final_session new_session
       [page peace new_session; page (after_rerun peace) after_peace]).
  eapply user_action_intro, after_peace_run.
Qed.

(** ** The general theorems at these inputs *)

Lemma page_coherent_witness :
  coherent new_session /\ coherent (session (page peace new_session)).
Proof. split; [exact I | exact (proj1 (page_coherent peace new_session I))]. Defined.

Lemma page_gated_witness :
  submitted no_key = false /\
  network_calls (trace (page no_key new_session)) = [].
Proof. split; [reflexivity | apply page_gated; reflexivity]. Defined.

Lemma page_submitted_calls_witness :
  submitted peace = true /\
  network_calls (trace (page peace new_session))
  = network_calls (client_trace (lit "valid-token") (strip (lit "peace"))).
Proof. split; [reflexivity | apply page_submitted_calls; reflexivity]. Defined.

Lemma page_success_witness :
  submitted peace_padded = true /\ answer peace_padded = inr sample_image /\
  ended (page peace_padded new_session) = Rerun /\
  Show_image sample_image (caption (strip (lit "  peace "))) true
  ∈ drawn (page (after_rerun peace_padded)
                (session (page peace_padded new_session))).
Proof.
  split; [reflexivity|]. split; [reflexivity|].
  pose proof (page_success peace_padded new_session sample_image
                eq_refl eq_refl) as (He & _ & _ & _ & Hs).
  exact (conj He Hs).
Defined.

Lemma reachable_held_witness :
  reachable after_peace /\
  held after_peace
  = Some {| image := sample_image;
            promptUsed := generate_mandala_prompt (lit "peace");
            sourceTopic := lit "peace" |} /\
  strip (lit "peace") = lit "peace".
Proof.
  split; [exact after_peace_reachable|]. split; [reflexivity|].
  exact (proj2 (proj2 (proj2 (reachable_held after_peace after_peace_reachable)))).
Defined.

Lemma peace_from_front_end : from_front_end peace.
Proof. split; [vm_compute; lia | by vm_compute]. Qed.

Lemma front_end_request_witness :
  from_front_end peace /\ submitted peace = true.
Proof.
  split; [exact peace_from_front_end|].
  exact (proj1 (front_end_request peace peace_from_front_end eq_refl)).
Defined.

Lemma page_displays_held_witness :
  reachable after_peace /\
  Text_area prompt_area_label (Some (generate_mandala_prompt (lit "peace"))) 150
  ∈ drawn (page idle after_peace).
Proof.
  split; [exact after_peace_reachable|].
  assert (Hsave : Image_save_PNG sample_image = Returns sample_png)
    by reflexivity.
  destruct (page_displays_held idle after_peace sample_image sample_png
              after_peace_reachable eq_refl eq_refl Hsave)
    as (word & [= <-] & _ & _ & _ & Hp).
  exact Hp.
Defined.

Lemma page_key_confined_witness :
  api_key_field peace <> api_key_field peace_other_key /\
  drawn (page peace new_session) = drawn (page peace_other_key new_session).
Proof.
  split; [intros E; vm_compute in E; discriminate E|].
  exact (proj2 (proj2 (page_key_confined peace peace_other_key new_session
                         eq_refl eq_refl eq_refl eq_refl))).
Defined.

Lemma page_simulates_witness :
  abstracts initial new_session /\
  exists m, steps initial (labels peace) m /\ phase_of m = Succeeded /\
            abstracts m (session (page peace new_session)).
Proof.
  assert (Ha : abstracts initial new_session) by (split; reflexivity).
  split; [exact Ha|]. exact (page_simulates peace new_session initial Ha).
Defined.

Lemma reachable_simulated_witness :
  reachable after_peace /\
  exists ls m, steps initial ls m /\ abstracts m after_peace.
Proof.
  split; [exact after_peace_reachable|].
  exact (reachable_simulated after_peace after_peace_reachable).
Defined.

Lemma generate_mandala_image_pair_witness :
  ended (generate_mandala_image (lit "valid-token") (lit "peace") new_session)
  = Done (Some sample_image, Some (generate_mandala_prompt (lit "peace"))) /\
  ((Some sample_image = None /\
    Some (generate_mandala_prompt (lit "peace")) = None) \/
   exists img, Some sample_image = Some img /\
     Some (generate_mandala_prompt (lit "peace"))
     = Some (generate_mandala_prompt (lit "peace"))).
Proof.
  split; [reflexivity|].
  exact (generate_mandala_image_pair (lit "valid-token") (lit "peace")
           new_session _ _ eq_refl).
Defined.

(** ** The front end *)

Lemma filled_reachable : browser_reachable filled.
Proof.
  eapply rtc_l; [eapply (browser_step_intro _ _ _ _ _ Open);
                 vm_compute; reflexivity|].
  eapply rtc_l; [eapply (browser_step_intro _ _ _ _ _
                           (Type_key (lit "valid-token")));
                 vm_compute; reflexivity|].
  eapply rtc_once, (browser_step_intro _ _ _ _ _ (Type_word (lit "peace"))).
  vm_compute. reflexivity.
Qed.

Lemma filled_open : filled <> closed.
Proof. intros E. apply (f_equal key_box) in E. discriminate E. Qed.

Lemma browser_invariant_witness :
  browser_reachable filled /\ Button generate_label false ∈ screen filled.
Proof.
  split; [exact filled_reachable|].
  exact (proj2 (proj2 (proj2 (proj2 (proj2 (proj2
    (browser_invariant filled filled_reachable)))) filled_open))).
Defined.

Lemma typing_is_silent_witness :
  Type_word (lit "peace") <> Press /\
  exists rs b',
    react (Type_word (lit "peace")) filled = Some (rs, b') /\
    Forall (fun r => network_calls (trace r) = []) rs.
Proof.
  assert (Hg : Type_word (lit "peace") <> Press) by discriminate.
  split; [exact Hg|]. eexists _, _. split; [vm_compute; reflexivity|].
  exact (proj1 (typing_is_silent _ filled _ _ Hg eq_refl)).
Defined.

Lemma press_is_submitted_witness :
  browser_reachable filled /\
  exists rs b',
    react Press filled = Some (rs, b') /\ submitted (fields filled true) = true.
Proof.
  split; [exact filled_reachable|]. eexists _, _.
  split; [vm_compute; reflexivity|].
  exact (proj1 (proj2 (press_is_submitted filled _ _ filled_reachable eq_refl))).
Defined.

Lemma press_is_answered_witness :
  browser_reachable filled /\ filled <> closed /\
  exists rs b',
    react Press filled = Some (rs, b') /\
    Show_image sample_image (caption (lit "peace")) true ∈ screen b'.
Proof.
  split; [exact filled_reachable|]. split; [exact filled_open|].
  destruct (press_is_answered filled filled_reachable filled_open
              eq_refl eq_refl) as (rs & b' & Hr & Hshow & _).
  exact (ex_intro _ rs (ex_intro _ b' (conj Hr Hshow))).
Defined.

Lemma image_obtainable_witness :
  browser_reachable filled /\ filled <> closed /\
  exists b',
    react_all [Type_key (lit "another-token"); Type_word (lit "  peace ");
               Press] filled = Some b' /\
    Show_image sample_image (caption (lit "peace")) true ∈ screen b'.
Proof.
  split; [exact filled_reachable|]. split; [exact filled_open|].
  assert (Hans : generate (lit "another-token")
                   (generate_mandala_prompt (strip (lit "  peace ")))
                 = inr sample_image) by reflexivity.
  destruct (image_obtainable filled (lit "another-token") (lit "  peace ")
              sample_image filled_reachable filled_open
              eq_refl eq_refl eq_refl Hans) as (b' & Hr & Hshow & _).
  exact (ex_intro _ b' (conj Hr Hshow)).
Defined.


(** ** The codec *)

(** The word field counts UTF-16 code units: twenty-six palettes are
    twenty-six characters for Python and fifty-two for the field. *)
Example scenario_emoji_word :
  fits (replicate 26 0x1F3A8) = false /\ fits (replicate 25 0x1F3A8) = true /\
  length (replicate 26 (0x1F3A8 : N)) = 26%nat.
Proof. by vm_compute. Qed.

(** ** Gestures that do not wait *)

(** The browser after the word field of [filled] was emptied and the
    user did not wait for the page: the button of the last run is still
    there. *)
Definition emptied : browser :=
  Browser (lit "valid-token") [] new_session (screen filled).

Lemma filled_button : on_screen (Button generate_label false) filled = true.
Proof. by vm_compute. Qed.

Lemma emptied_reachable : racy_reachable emptied.
Proof.
  eapply rtc_r; [apply browser_reachable_racy, filled_reachable|]. right.
  pose proof (stopped_step_intro _ _ _ _ _ (Type_word []) filled _ _ []
                eq_refl (action_cut_first _ _ _ (page_first_cut _ _))) as Hstep.
  by rewrite app_nil_r in Hstep.
Qed.

(** The press of the stale button reaches the script with a blank word:
    one run, no network call, nothing stored. *)
Example scenario_stale_press :
  exists r b',
    react Press emptied = Some ([r], b') /\
    clicked (fields emptied true) = true /\
    button_disabled (fields emptied true) = true /\
    network_calls (trace r) = [] /\ memory b' = new_session.
Proof. eexists _, _. by vm_compute. Qed.

(** A gesture made just after the rerun of a successful press finds the
    success message on the screen, and the image already stored. *)
Example scenario_success_seen :
  exists b1,
    stopped_step filled b1 /\
    Success (ready_message (lit "peace")) ∈ screen b1 /\
    memory b1 = after_peace.
Proof.
  assert (Hin : trace (page peace new_session)
                ∈ cuts (action_trace peace new_session)).
  { apply (bool_decide_unpack _). by vm_compute. }
  pose proof (stopped_step_intro _ _ _ _ _ Press filled _ _ _ eq_refl Hin)
    as Hstep.
  eexists. split; [exact Hstep|]. split; [|by vm_compute].
  cbn [screen stale]. apply elem_of_app. right. vm_compute. find_elem.
Qed.


Lemma stale_press_witness :
  browser_reachable filled /\
  exists b1,
    stopped_step filled b1 /\ racy_reachable b1 /\
    on_screen (Button generate_label false) b1 = true /\
    ~ from_front_end (fields b1 true) /\
    forall (W1 : OpenAIApi) (W2 : RequestsApi) (W3 : PillowApi)
           (W4 : ClockApi) (W5 : StreamlitApi) rs b2,
      react Press b1 = Some (rs, b2) ->
      Forall (fun r => network_calls (trace r) = []) rs /\
      memory b2 = memory filled.
Proof.
  split; [exact filled_reachable|].
  exact (stale_press filled filled_reachable filled_button).
Defined.

Lemma double_submit_witness :
  browser_reachable filled /\
  exists p b1,
    stopped_step filled b1 /\
    b1 = Browser (key_box filled) (word_box filled) (memory filled)
                 (screen filled ++ elements p) /\
    network_calls p =
      [OpenAI_new (lit "valid-token");
       Images_generate {| api_key_of := lit "valid-token" |}
         (generate_args (generate_mandala_prompt (strip (lit "peace"))))] /\
    submitted (fields b1 true) = true /\
    react Press b1 = react Press filled.
Proof.
  split; [exact filled_reachable|].
  exact (double_submit filled _ filled_reachable filled_button eq_refl).
Defined.

Lemma racy_press_gated_witness :
  racy_reachable emptied /\
  exists rs b',
    react Press emptied = Some (rs, b') /\
    Forall (fun r => network_calls (trace r) = []) rs /\
    memory b' = memory emptied.
Proof.
  split; [exact emptied_reachable|].
  assert (Hr : react Press emptied
               = Some ([page (fields emptied true) new_session],
                       Browser (lit "valid-token") [] new_session
                         (page_view (fields emptied true) new_session)))
    by by vm_compute.
  eexists _, _. split; [exact Hr|].
  exact (proj1 (racy_press_gated emptied _ _ emptied_reachable Hr)
           (or_intror eq_refl)).
Defined.

(** ** Two sessions on one server *)

(** A browser in which the page was opened and nothing typed. *)
Definition just_opened : browser :=
  Browser [] [] new_session (page_view (fields closed false) new_session).

Lemma just_opened_opened : opened just_opened.
Proof.
  eapply tc_once, (browser_step_intro _ _ _ _ _ Open).
  vm_compute. reflexivity.
Qed.

Lemma filled_opened : opened filled.
Proof.
  destruct (proj1 (rtc_tc _ _) filled_reachable) as [E|Htc]; [|exact Htc].
  by destruct filled_open.
Qed.


(** ** A run that is stopped *)

(** What the run of "peace" has done when it is stopped last: all but
    the success message. *)
Definition stopped_late : list event :=
  default [] (last (cuts (trace (page peace new_session)))).

Lemma stopped_late_cut : stopped_late ∈ cuts (trace (page peace new_session)).
Proof. apply (bool_decide_unpack _). by vm_compute. Qed.

(** Stopped there, the run has stored the whole result. *)
Example scenario_stopped_late :
  assignments stopped_late
  = [Current_image sample_image;
     Current_prompt (Some (generate_mandala_prompt (lit "peace")));
     Current_word (lit "peace")] /\
  replay stopped_late new_session = after_peace.
Proof. by vm_compute. Qed.

Lemma stopped_late_stops :
  replay stopped_late new_session ∈ stops peace new_session.
Proof. exact (list_elem_of_fmap_2 _ _ _ stopped_late_cut). Qed.


Lemma generation_cancellable_witness :
  submitted peace = true /\
  exists p, p ∈ cuts (trace (page peace new_session)) /\
    network_calls p =
    [OpenAI_new (lit "valid-token");
     Images_generate {| api_key_of := lit "valid-token" |}
       (generate_args (generate_mandala_prompt (strip (lit "peace"))))] /\
    replay p new_session = new_session.
Proof.
  split; [reflexivity|].
  exact (generation_cancellable peace new_session _ eq_refl eq_refl).
Defined.

(** A session state reached through a stopped run. *)
Lemma after_peace_stopped : reachable_stopped after_peace.
Proof.
  apply rtc_once. right.
  change after_peace with (replay stopped_late new_session).
  eapply stopped_run_intro, stopped_late_stops.
Qed.


#[local] Instance pillow_ok_lawful : PillowLawful.
Proof.
  split.
  - intros image _. by exists sample_png.
  - intros image buffered [= <-]. exact sample_png_bytes.
  - intros image buffered [b [= <-]] _. by exists sample_image.
Qed.

Lemma after_peace_served : served after_peace.
Proof. apply rtc_once. by exists peace. Qed.

Lemma page_never_raises_witness :
  served after_peace /\
  ended (page idle after_peace) <> Raised (Exn "OSError" []).
Proof.
  split; [exact after_peace_served|].
  exact (page_never_raises idle after_peace _ after_peace_served).
Defined.

#[local] Instance references_basic_lawful : ReferencesLawful.
Proof.
  split. intros s chars k. unfold character_reference, references_basic.
  cbn [lookup_reference named_references].
  repeat (case_bool_decide;
          [intros [= <- <-]; split; [simpl; lia|];
           match goal with
           | Ht : take _ s = _ |- _ =>
               eapply (eq_ind_r (fun x => 34 ∉ x)); [|exact Ht]
           end; by apply (bool_decide_unpack _)|]).
  done.
Qed.

Lemma download_round_trip_witness :
  served after_peace /\
  exists link word buffered image',
    Markdown link true ∈ drawn (page idle after_peace) /\
    current_word after_peace = Some word /\
    Image_open buffered = Returns image' /\
    img_size image' = (1024, 1024) /\
    (forall name file,
       save_link link = Some (name, file) ->
       file = (lit "image/png", buffered) /\
       (name = download_filename word (strftime datetime_now) -> 34 ∉ word)) /\
    (forallb html_plain word = true ->
     save_link link
     = Some (download_filename word (strftime datetime_now),
             (lit "image/png", buffered))).
Proof.
  split; [exact after_peace_served|].
  assert (Hne : ended (page idle after_peace) <> Rerun) by discriminate.
  exact (download_round_trip idle after_peace sample_image
           after_peace_served eq_refl Hne).
Defined.

Lemma image_downloadable_witness :
  browser_reachable filled /\ filled <> closed /\
  exists b' buffered image',
    react_all [Type_key (lit "another-token"); Type_word (lit "  peace ");
               Press] filled = Some b' /\
    downloads (screen b')
    = [(lit "mandala_peace_20240307_090500.png", (lit "image/png", buffered))] /\
    Image_open buffered = Returns image' /\
    img_size image' = (1024, 1024).
Proof.
  split; [exact filled_reachable|]. split; [exact filled_open|].
  exact (image_downloadable filled (lit "another-token") (lit "  peace ")
           sample_image filled_reachable filled_open
           eq_refl eq_refl eq_refl eq_refl eq_refl).
Defined.

(** The page of the stored image offers its file. *)
Lemma after_peace_offer :
  (lit "mandala_peace_20240307_090500.png", (lit "image/png", sample_png))
  ∈ downloads (drawn (page idle after_peace)).
Proof. apply (bool_decide_unpack _). by vm_compute. Qed.


(** The HTML of the page of "peace": the download section is opened
    and closed by two elements that hold nothing else. *)
Example scenario_download_section :
  html_texts (drawn (page idle after_peace))
  = [css; header_html; subtitle_html; download_div_open;
     link_of (lit "peace"); div_close] /\
  start_tag download_div_open
  = Some (lit "div", [(lit "class", lit "download-section")]) /\
  start_tag div_close = None.
Proof. by vm_compute. Qed.

(** What the browser saves from the link of "peace". *)
Example scenario_saved_file :
  save_link (link_of (lit "peace"))
  = Some (lit "mandala_peace_20240307_090500.png", (lit "image/png", sample_png)).
Proof. by vm_compute. Qed.

(** A word with a double quote adds an attribute of its own to the
    anchor: the browser reads an [onclick] the script never wrote. *)
Example scenario_injected_attribute :
  attribute (lit "onclick") (link_of injecting_word) = Some (lit "steal()") /\
  (length injecting_word <= max_chars)%nat /\ strip injecting_word = injecting_word.
Proof. vm_compute. split_and!; [reflexivity | lia | reflexivity]. Qed.

(** A character reference in the word is replaced in the file name; a
    word that leaves a quote open leaves no anchor at all. *)
Example scenario_references :
  save_link (link_of ampersand_word)
  = Some (lit "mandala_a&b_20240307_090500.png", (lit "image/png", sample_png)) /\
  save_link (link_of unclosed_word) = None /\
  fits ampersand_word = true /\ fits unclosed_word = true.
Proof. by vm_compute. Qed.

(** The tokenizer on a tag that is not the script's: names in capitals,
    a single-quoted and an unquoted value, a tab, a reference, an
    attribute without value and the solidus of a self-closing tag. *)
Example scenario_start_tag :
  start_tag (lit "<A HREF='x&lt;y' Download=z" ++ [9] ++ lit "hidden/>rest")
  = Some (lit "a", [(lit "href", lit "x<y"); (lit "download", lit "z");
                    (lit "hidden", [])]) /\
  start_tag (lit "<a href=" ++ dq ++ lit "x>") = None /\
  start_tag (lit "</a>") = None.
Proof. by vm_compute. Qed.

End Delivered.

Section Http500.
#[local] Existing Instances openai_ok requests_500 pillow_ok clock_2024
  streamlit_rt.

(** ** Scenario 3: the download answers HTTP 500 *)

(** the session state is unchanged, the run ends normally and one
    [st.error] box shows the text of the [HTTPError]. *)
Example scenario_http_500 :
  session (page peace after_peace) = after_peace /\
  ended (page peace after_peace) = Done tt /\
  error_messages (drawn (page peace after_peace)) = [http_500_text] /\
  answer peace
  = inl (FetchError (Exn "HTTPError"
      (lit "500 Server Error: Internal Server Error for url: https://img.example/m.png"))).
Proof. by vm_compute. Qed.

Lemma page_failure_witness :
  submitted peace = true /\
  answer peace
  = inl (FetchError (Exn "HTTPError"
      (lit "500 Server Error: Internal Server Error for url: https://img.example/m.png"))) /\
  session (page peace after_peace) = after_peace /\
  Show_image sample_image (caption (lit "peace")) true
  ∈ drawn (page peace after_peace).
Proof.
  split; [reflexivity|]. split; [reflexivity|].
  pose proof (page_failure peace after_peace _ eq_refl eq_refl)
    as (Hs & _ & Hshow).
  exact (conj Hs (Hshow sample_image (lit "peace") eq_refl eq_refl)).
Defined.

End Http500.

Section NotModified.
#[local] Existing Instances openai_ok requests_304 pillow_rejects clock_2024
  streamlit_rt.

(** ** A download that is neither a success nor an error

    The status 304 passes [raise_for_status]; the empty body goes to
    [Image.open], and the failure the user reads is the decoder's. *)
Example scenario_not_modified :
  answer peace
  = inl (DecodeError (Exn "UnidentifiedImageError"
                        (lit "cannot identify image file"))) /\
  error_messages (drawn (page peace new_session))
  = [generating_error (Exn "UnidentifiedImageError"
                         (lit "cannot identify image file"))].
Proof. by vm_compute. Qed.

Lemma download_status_checked_witness :
  Image_open_of []
  ∈ called (generate_mandala_image (lit "valid-token") (lit "peace")
              new_session) /\
  ~ (400 <= 304 < 600).
Proof.
  assert (Hs : ~ (400 <= 304 < 600)) by lia. split; [|exact Hs].
  exact (proj2 (download_status_checked (lit "valid-token") (lit "peace")
                  new_session _ _ _ _ eq_refl eq_refl eq_refl eq_refl) Hs).
Defined.

End NotModified.

Section SaveFails.
#[local] Existing Instances openai_ok requests_ok pillow_save_fails clock_2024
  streamlit_rt.

(** ** A PNG encoder that raises *)

Example scenario_save_fails :
  ended (page idle after_peace)
  = Raised (Exn "OSError" (lit "cannot write mode F as PNG")).
Proof. by vm_compute. Qed.

Lemma page_raises_only_from_save_witness :
  reachable after_peace /\
  ended (page idle after_peace)
  = Raised (Exn "OSError" (lit "cannot write mode F as PNG")) /\
  exists image,
    current_image after_peace = Some image /\
    Image_save_PNG image
    = Raises (Exn "OSError" (lit "cannot write mode F as PNG")).
Proof.
  split; [exact after_peace_reachable|]. split; [reflexivity|].
  exact (page_raises_only_from_save idle after_peace _
           after_peace_reachable eq_refl).
Defined.

(** The browser after the press that stored the image: the run that
    follows the rerun raised while it drew the right column. *)
Definition stuck : browser :=
  Browser (lit "valid-token") (lit "peace") after_peace
          (page_view filled_in after_peace).

Lemma stuck_reachable : browser_reachable stuck.
Proof.
  eapply rtc_r; [exact filled_reachable|].
  eapply (browser_step_intro _ _ _ _ _ Press). vm_compute. reflexivity.
Qed.

Lemma save_failure_persists_witness :
  browser_reachable stuck /\
  exists rs b',
    react Again stuck = Some (rs, b') /\ memory b' = memory stuck /\
    exists r, last rs = Some r /\
      ended r = Raised (Exn "OSError" (lit "cannot write mode F as PNG")).
Proof.
  split; [exact stuck_reachable|].
  destruct (react Again stuck) as [[rs b']|] eqn:Hr; [|by vm_compute in Hr].
  exists rs, b'. split; [reflexivity|].
  assert (Hsave : Image_save_PNG sample_image
                  = Raises (Exn "OSError" (lit "cannot write mode F as PNG")))
    by reflexivity.
  destruct (save_failure_persists stuck sample_image _ Again rs b'
              stuck_reachable eq_refl Hsave ltac:(discriminate) Hr)
    as [(image' & Hg & _)|H]; [discriminate Hg|exact H].
Defined.

End SaveFails.

Section Rejected.
#[local] Existing Instances openai_no_client requests_ok pillow_ok clock_2024
  streamlit_rt.

(** ** A constructor that rejects the key *)

Example scenario_rejected_key :
  error_messages (drawn (page peace new_session))
  = [cross_mark
     ++ lit " Error with API key: The api_key client option must be set"] /\
  session (page peace new_session) = new_session /\
  network_calls (trace (page peace new_session))
  = [OpenAI_new (lit "valid-token")].
Proof. by vm_compute. Qed.

End Rejected.

Section NoAsset.
#[local] Existing Instances openai_empty requests_ok pillow_ok clock_2024
  streamlit_rt.

(** ** A response without any asset *)

Example scenario_no_asset :
  error_messages (drawn (page peace new_session))
  = [cross_mark ++ lit " Error generating image: list index out of range"] /\
  session (page peace new_session) = new_session /\
  length (network_calls (trace (page peace new_session))) = 2%nat.
Proof. by vm_compute. Qed.

End NoAsset.
